(** * A shallow embedding of the IoT Central device client

    Source: [src/azure/iotcentral/device/client/__init__.py].

    The file is organised as the Python module is: the standard-library
    pieces the client calls ([base64], [hashlib.sha256], [hmac]), the
    Python values that travel through it, the console logger, the client
    object with its methods, and the two listener loops.  Theorems come
    last.

    Conventions.
    - A Python [str] is a Rocq [string]: the sequence of bytes of its
      UTF-8 encoding.  [s.encode('utf8')] is then the list of these bytes.
    - A Python [bytes] is a [list byte].
    - Machine integers of the C and hash code are [Z] with the masks and
      the wrap-around written out.
    - Every method is a function of the world it runs in and returns the
      new world together with an outcome: a value, a raised exception or
      (for the blocking receive calls) the fact that the thread is
      suspended.
    - The logger behind [self._logger] is the console logger of the
      module, whose calls write to the console and return, and a thread
      that is started runs.  [connect] is embedded a second time without
      these two assumptions, as [connect_with]. *)

From Stdlib Require Import ZArith List Bool Lia.
From Stdlib.Strings Require Import String Ascii Byte.
Import ListNotations.

Local Open Scope string_scope.
Local Open Scope list_scope.
Local Open Scope Z_scope.

(** ** Bytes *)

Definition byte_to_Z (b : byte) : Z := Z.of_N (Byte.to_N b).

(** Storing an integer into an [unsigned char]. *)
Definition byte_of_Z (z : Z) : byte :=
  match Byte.of_N (Z.to_N (z mod 256)) with
  | Some b => b
  | None => x00
  end.

Definition bytes_of_str (s : string) : list byte := list_byte_of_string s.
Definition str_of_bytes (l : list byte) : string := string_of_list_byte l.

(** Every byte, for checks that go through all of them. *)
Definition all_bytes : list byte :=
  map (fun n => byte_of_Z (Z.of_nat n)) (seq 0 256).

Definition forall_byte (P : byte -> bool) : bool := forallb P all_bytes.

Definition forall_byte2 (P : byte -> byte -> bool) : bool :=
  forall_byte (fun a => forall_byte (P a)).

(** ** Exceptions raised in the client's code paths *)

Inductive exn : Type :=
| SystemExit                      (* sys.exit() *)
| KeyError (key : string)         (* d[k] with k absent *)
| TypeError                       (* operand of the wrong type *)
| ValueError                      (* non-ASCII str given to b64decode *)
| AttributeError (attr : string)  (* attribute not set on the object *)
| binascii_Error                  (* base64 data that cannot be decoded *)
| UnboundLocalError               (* local variable read before assignment *)
| ExternalError (tag : string)    (* raised by the SDK, the transport or a user callback *)
| ManyArgsError (tag : string)    (* one of a class not built from one argument
                                     (json.JSONDecodeError, UnicodeDecodeError) *)
| Rebuilt (v : exn).              (* type(v)(v): a new one of the class of v, built from v *)

(** Whether the class of the exception can be called with one argument. *)
Fixpoint takes_one_argument (e : exn) : bool :=
  match e with
  | ManyArgsError _ => false
  | Rebuilt v => takes_one_argument v
  | _ => true
  end.

(** [t(v)] after [t, v, tb = sys.exc_info()]: the class of the caught
    exception called with the exception itself.  The value is a new
    exception of that class whose argument is the caught one; a class
    that does not take one argument makes the call raise TypeError. *)
Definition rebuild (v : exn) : exn :=
  if takes_one_argument v then Rebuilt v else TypeError.

(** [isinstance(e, Exception)]: SystemExit derives from BaseException
    only, so that [except Exception] does not receive it. *)
Fixpoint is_Exception (e : exn) : bool :=
  match e with
  | SystemExit => false
  | Rebuilt v => is_Exception v
  | _ => true
  end.

(** A call that either returns or raises. *)
Inductive result (A : Type) : Type :=
| Ok (a : A)
| Err (e : exn).
Arguments Ok {A} a.
Arguments Err {A} e.

(** ** base64 (binascii.b2a_base64 / binascii.a2b_base64) *)

Module Base64.

Definition BASE64_PAD : byte := "="%byte.

Definition table_b2a_base64 : list byte :=
  bytes_of_str "ABCDEFGHIJKLMNOPQRSTUVWXYZabcdefghijklmnopqrstuvwxyz0123456789+/".

Definition b2a (n : Z) : byte := nth (Z.to_nat n) table_b2a_base64 x00.

(** The decoding table: the 6-bit value of an alphabet character. *)
Definition table_a2b_base64 (c : byte) : option Z :=
  let z := byte_to_Z c in
  if (65 <=? z) && (z <=? 90) then Some (z - 65)
  else if (97 <=? z) && (z <=? 122) then Some (z - 71)
  else if (48 <=? z) && (z <=? 57) then Some (z + 4)
  else if z =? 43 then Some 62
  else if z =? 47 then Some 63
  else None.

(** [b2a_base64(data, newline=False)]: three bytes give four characters;
    one or two trailing bytes are completed with the pad character. *)
Fixpoint b2a_base64 (bin_data : list byte) : list byte :=
  match bin_data with
  | [] => []
  | [a] =>
      let a := byte_to_Z a in
      [b2a (Z.shiftr a 2); b2a (Z.shiftl (Z.land a 3) 4);
       BASE64_PAD; BASE64_PAD]
  | [a; b] =>
      let a := byte_to_Z a in
      let b := byte_to_Z b in
      [b2a (Z.shiftr a 2);
       b2a (Z.lor (Z.shiftl (Z.land a 3) 4) (Z.shiftr b 4));
       b2a (Z.shiftl (Z.land b 15) 2);
       BASE64_PAD]
  | a :: b :: c :: rest =>
      let a := byte_to_Z a in
      let b := byte_to_Z b in
      let c := byte_to_Z c in
      b2a (Z.shiftr a 2)
      :: b2a (Z.lor (Z.shiftl (Z.land a 3) 4) (Z.shiftr b 4))
      :: b2a (Z.lor (Z.shiftl (Z.land b 15) 2) (Z.shiftr c 6))
      :: b2a (Z.land c 63)
      :: b2a_base64 rest
  end.

(** [a2b_base64(data)] in its default, non-strict mode: characters
    outside the alphabet are skipped, a complete pad sequence ends the
    input, and leftover characters of an unfinished quad are an error.
    [bin_data] is accumulated in reverse. *)
Fixpoint a2b_loop (ascii_data : list byte) (quad_pos leftchar pads : Z)
         (bin_data : list byte) : result (list byte) :=
  match ascii_data with
  | [] => if quad_pos =? 0 then Ok (rev bin_data) else Err binascii_Error
  | this_ch :: rest =>
      if Byte.eqb this_ch BASE64_PAD then
        if 2 <=? quad_pos then
          if 4 <=? quad_pos + (pads + 1) then Ok (rev bin_data)
          else a2b_loop rest quad_pos leftchar (pads + 1) bin_data
        else a2b_loop rest quad_pos leftchar pads bin_data
      else
        match table_a2b_base64 this_ch with
        | None => a2b_loop rest quad_pos leftchar pads bin_data
        | Some v =>
            if quad_pos =? 0 then
              a2b_loop rest 1 v 0 bin_data
            else if quad_pos =? 1 then
              a2b_loop rest 2 (Z.land v 15) 0
                (byte_of_Z (Z.lor (Z.shiftl leftchar 2) (Z.shiftr v 4)) :: bin_data)
            else if quad_pos =? 2 then
              a2b_loop rest 3 (Z.land v 3) 0
                (byte_of_Z (Z.lor (Z.shiftl leftchar 4) (Z.shiftr v 2)) :: bin_data)
            else
              a2b_loop rest 0 0 0
                (byte_of_Z (Z.lor (Z.shiftl leftchar 6) v) :: bin_data)
        end
  end.

Definition a2b_base64 (ascii_data : list byte) : result (list byte) :=
  a2b_loop ascii_data 0 0 0 [].

(** The bit patterns of a quad, checked on all bytes: with [x] and [y]
    two neighbours of the input, every 6-bit value is below 64 and the
    shifts of the decoder give [x] back. *)
Definition in6 (z : Z) : bool := (0 <=? z) && (z <? 64).

Definition quad_ok (x y : byte) : bool :=
  let X := byte_to_Z x in
  let Y := byte_to_Z y in
  let second := Z.lor (Z.shiftl (Z.land X 3) 4) (Z.shiftr Y 4) in
  let third := Z.lor (Z.shiftl (Z.land X 15) 2) (Z.shiftr Y 6) in
  in6 (Z.shiftr X 2) && in6 second && in6 (Z.shiftl (Z.land X 3) 4)
  && in6 third && in6 (Z.shiftl (Z.land X 15) 2) && in6 (Z.land X 63)
  && Byte.eqb (byte_of_Z (Z.lor (Z.shiftl (Z.shiftr X 2) 2) (Z.shiftr second 4))) x
  && Byte.eqb (byte_of_Z (Z.lor (Z.shiftl (Z.shiftr X 2) 2)
                                (Z.shiftr (Z.shiftl (Z.land X 3) 4) 4))) x
  && (Z.land second 15 =? Z.shiftr Y 4)
  && Byte.eqb (byte_of_Z (Z.lor (Z.shiftl (Z.shiftr X 4) 4) (Z.shiftr third 2))) x
  && Byte.eqb (byte_of_Z (Z.lor (Z.shiftl (Z.shiftr X 4) 4)
                                (Z.shiftr (Z.shiftl (Z.land X 15) 2) 2))) x
  && (Z.land third 3 =? Z.shiftr Y 6)
  && (Z.land (Z.shiftl (Z.land X 3) 4) 15 =? 0)
  && (Z.land (Z.shiftl (Z.land X 15) 2) 3 =? 0)
  && Byte.eqb (byte_of_Z (Z.lor (Z.shiftl (Z.shiftr X 6) 6) (Z.land X 63))) x.

Definition is_ascii (s : list byte) : bool :=
  forallb (fun c => byte_to_Z c <? 128) s.

(** Text in canonical base64: characters of the alphabet and pads, four
    by four. *)
Definition alphabet (c : byte) : bool :=
  match table_a2b_base64 c with
  | Some _ => true
  | None => Byte.eqb c BASE64_PAD
  end.

Definition wellformed (s : list byte) : bool :=
  forallb alphabet s && (List.length s mod 4 =? 0)%nat.

End Base64.

(** ** SHA-256 (hashlib.sha256) *)

Module SHA256.

Definition mask32 : Z := 0xFFFFFFFF.
Definition w32 (x : Z) : Z := Z.land x mask32.
Definition add32 (x y : Z) : Z := w32 (x + y).

Definition rotr (n x : Z) : Z :=
  Z.lor (Z.shiftr x n) (w32 (Z.shiftl x (32 - n))).
Definition shr (n x : Z) : Z := Z.shiftr x n.
Definition not32 (x : Z) : Z := Z.lxor x mask32.

Definition Ch (x y z : Z) : Z := Z.lxor (Z.land x y) (Z.land (not32 x) z).
Definition Maj (x y z : Z) : Z :=
  Z.lxor (Z.lxor (Z.land x y) (Z.land x z)) (Z.land y z).
Definition Sigma0 (x : Z) : Z := Z.lxor (Z.lxor (rotr 2 x) (rotr 13 x)) (rotr 22 x).
Definition Sigma1 (x : Z) : Z := Z.lxor (Z.lxor (rotr 6 x) (rotr 11 x)) (rotr 25 x).
Definition sigma0 (x : Z) : Z := Z.lxor (Z.lxor (rotr 7 x) (rotr 18 x)) (shr 3 x).
Definition sigma1 (x : Z) : Z := Z.lxor (Z.lxor (rotr 17 x) (rotr 19 x)) (shr 10 x).

(** The constants of FIPS 180-4: the first thirty-two bits of the
    fractional parts of the cube roots of the first sixty-four primes, and,
    for the initial hash value, of the square roots of the first eight. *)
Definition is_prime (p : Z) : bool :=
  (1 <? p)
  && forallb (fun d => negb (p mod Z.of_nat d =? 0)) (seq 2 (Z.to_nat p - 2)).

Definition primes (n : nat) : list Z :=
  firstn n (filter is_prime (map Z.of_nat (seq 2 400))).

(** The integer cube root, found bit by bit from bit [i] down. *)
Fixpoint cube_root_from (i : nat) (n r : Z) : Z :=
  let r' := r + 2 ^ Z.of_nat i in
  let r := if r' * r' * r' <=? n then r' else r in
  match i with
  | O => r
  | S i' => cube_root_from i' n r
  end.

Definition cube_root (n : Z) : Z := cube_root_from 40 n 0.

Definition K : list Z :=
  Eval vm_compute in map (fun p => w32 (cube_root (p * 2 ^ 96))) (primes 64).

Definition H0 : list Z :=
  Eval vm_compute in map (fun p => w32 (Z.sqrt (p * 2 ^ 64))) (primes 8).

(** Big-endian encodings. *)
Definition be32_of_bytes (a b c d : byte) : Z :=
  Z.lor (Z.lor (Z.shiftl (byte_to_Z a) 24) (Z.shiftl (byte_to_Z b) 16))
        (Z.lor (Z.shiftl (byte_to_Z c) 8) (byte_to_Z d)).

Definition bytes_of_be32 (w : Z) : list byte :=
  [byte_of_Z (Z.shiftr w 24); byte_of_Z (Z.shiftr w 16);
   byte_of_Z (Z.shiftr w 8); byte_of_Z w].

Definition bytes_of_be64 (w : Z) : list byte :=
  bytes_of_be32 (Z.shiftr w 32) ++ bytes_of_be32 w.

(** Padding: a 1 bit, zeros up to 56 modulo 64, the bit length on 64 bits. *)
Definition pad (msg : list byte) : list byte :=
  let len := Z.of_nat (List.length msg) in
  let zeros := Z.to_nat ((55 - len) mod 64) in
  msg ++ [x80] ++ repeat x00 zeros ++ bytes_of_be64 (8 * len).

Fixpoint words_of_bytes (l : list byte) : list Z :=
  match l with
  | a :: b :: c :: d :: rest => be32_of_bytes a b c d :: words_of_bytes rest
  | _ => []
  end.

(** The message schedule: [W] holds the words computed so far, newest
    first, so that [W_{t-2}], [W_{t-7}], [W_{t-15}], [W_{t-16}] are at
    positions 1, 6, 14 and 15. *)
Fixpoint schedule (n : nat) (W : list Z) : list Z :=
  match n with
  | O => W
  | S n' =>
      let w := add32 (add32 (sigma1 (nth 1 W 0)) (nth 6 W 0))
                     (add32 (sigma0 (nth 14 W 0)) (nth 15 W 0)) in
      schedule n' (w :: W)
  end.

Definition message_schedule (block : list Z) : list Z :=
  rev (schedule 48 (rev block)).

Record regs : Type := mkRegs { ra : Z; rb : Z; rc : Z; rd : Z; re : Z; rf : Z; rg : Z; rh : Z }.

Definition round (r : regs) (kw : Z * Z) : regs :=
  let (k, w) := kw in
  let T1 := add32 (add32 (add32 (rh r) (Sigma1 (re r)))
                         (add32 (Ch (re r) (rf r) (rg r)) k)) w in
  let T2 := add32 (Sigma0 (ra r)) (Maj (ra r) (rb r) (rc r)) in
  mkRegs (add32 T1 T2) (ra r) (rb r) (rc r) (add32 (rd r) T1) (re r) (rf r) (rg r).

Definition regs_of_list (h : list Z) : regs :=
  mkRegs (nth 0 h 0) (nth 1 h 0) (nth 2 h 0) (nth 3 h 0)
         (nth 4 h 0) (nth 5 h 0) (nth 6 h 0) (nth 7 h 0).

Definition list_of_regs (r : regs) : list Z :=
  [ra r; rb r; rc r; rd r; re r; rf r; rg r; rh r].

Definition compress (h : list Z) (block : list Z) : list Z :=
  let r := fold_left round (combine K (message_schedule block)) (regs_of_list h) in
  map (fun p => add32 (fst p) (snd p)) (combine h (list_of_regs r)).

(** One 16-word block after the other; [n] bounds the number of blocks. *)
Fixpoint process (n : nat) (h : list Z) (ws : list Z) : list Z :=
  match n with
  | O => h
  | S n' =>
      match ws with
      | [] => h
      | _ => process n' (compress h (firstn 16 ws)) (skipn 16 ws)
      end
  end.

Definition sha256 (msg : list byte) : list byte :=
  let ws := words_of_bytes (pad msg) in
  flat_map bytes_of_be32 (process (List.length ws) H0 ws).

Definition block_size : nat := 64.

End SHA256.

(** ** HMAC (hmac.new(key, msg, digestmod=sha256).digest()) *)

Module HMAC.

Definition xor_with (c : Z) (l : list byte) : list byte :=
  map (fun b => byte_of_Z (Z.lxor (byte_to_Z b) c)) l.

(** Keys longer than a block are hashed, shorter ones padded with zeros. *)
Definition block_key (key : list byte) : list byte :=
  let k := if (SHA256.block_size <? List.length key)%nat then SHA256.sha256 key else key in
  k ++ repeat x00 (SHA256.block_size - List.length k).

Definition hmac_sha256 (key msg : list byte) : list byte :=
  let k := block_key key in
  SHA256.sha256 (xor_with 0x5c k ++ SHA256.sha256 (xor_with 0x36 k ++ msg)).

End HMAC.

(** ** Python values *)

(** The values that reach the client as data: what the JSON of a patch or
    of a payload holds, and what a callback returns.  Floating-point
    numbers are left out. *)
#[local] Set Warnings "-register-all".
Inductive pyval : Type :=
| PyNone
| PyBool (b : bool)
| PyInt (z : Z)
| PyStr (s : string)
| PyList (l : list pyval)
| PyDict (d : list (string * pyval)).
#[local] Set Warnings "register-all".

(** A [dict] with string keys, in insertion order. *)
Definition pydict : Type := list (string * pyval).

(** [bool(v)], the test of an [if v:]. *)
Definition truthy (v : pyval) : bool :=
  match v with
  | PyNone => false
  | PyBool b => b
  | PyInt z => negb (z =? 0)
  | PyStr s => negb (String.eqb s "")
  | PyList l => match l with [] => false | _ => true end
  | PyDict d => match d with [] => false | _ => true end
  end.

Fixpoint dict_get (d : pydict) (k : string) : option pyval :=
  match d with
  | [] => None
  | (k', v) :: rest => if String.eqb k' k then Some v else dict_get rest k
  end.

(** [d[k]] on a dict. *)
Definition dict_getitem (d : pydict) (k : string) : result pyval :=
  match dict_get d k with
  | Some v => Ok v
  | None => Err (KeyError k)
  end.

(** [d[k] = v]: the key keeps its place when it is already there. *)
Fixpoint dict_setitem (d : pydict) (k : string) (v : pyval) : pydict :=
  match d with
  | [] => [(k, v)]
  | (k', v') :: rest =>
      if String.eqb k' k then (k', v) :: rest else (k', v') :: dict_setitem rest k v
  end.

(** [v[k]] with a string [k] on any value: only a dict can answer. *)
Definition subscript (v : pyval) (k : string) : result pyval :=
  match v with
  | PyDict d => dict_getitem d k
  | _ => Err TypeError
  end.

(** What the constructor receives as [keyOrCert]: a key, as [str] or as
    [bytes], or the dict that names the certificate files. *)
Inductive keymaterial : Type :=
| KeyStr (s : string)
| KeyBytes (b : list byte)
| Certificate (d : pydict).

(** [k[name]] on the key material. *)
Definition key_subscript (k : keymaterial) (name : string) : result pyval :=
  match k with
  | Certificate d => dict_getitem d name
  | _ => Err TypeError
  end.

(** [base64.b64decode(s)]: a str must be ASCII, bytes are taken as they
    are, anything else is a type error. *)
Definition b64decode (s : keymaterial) : result (list byte) :=
  match s with
  | KeyStr s =>
      let data := bytes_of_str s in
      if Base64.is_ascii data then Base64.a2b_base64 data else Err ValueError
  | KeyBytes data => Base64.a2b_base64 data
  | Certificate _ => Err TypeError
  end.

Definition b64encode (s : list byte) : list byte := Base64.b2a_base64 s.

(** ** Constants of the module *)

Module IOTCConnectType.
Definition IOTC_CONNECT_SYMM_KEY : Z := 1.
Definition IOTC_CONNECT_X509_CERT : Z := 2.
Definition IOTC_CONNECT_DEVICE_KEY : Z := 3.
End IOTCConnectType.

Module IOTCLogLevel.
Definition IOTC_LOGGING_DISABLED : Z := 1.
Definition IOTC_LOGGING_API_ONLY : Z := 2.
Definition IOTC_LOGGING_ALL : Z := 16.
End IOTCLogLevel.

(** The keys of the event registry. *)
Inductive IOTCEvents : Type :=
| IOTC_COMMAND
| IOTC_PROPERTIES.

Definition IOTCEvents_eqb (a b : IOTCEvents) : bool :=
  match a, b with
  | IOTC_COMMAND, IOTC_COMMAND => true
  | IOTC_PROPERTIES, IOTC_PROPERTIES => true
  | _, _ => false
  end.

(** ** Log messages *)

(** A message as the code builds it.  The rendering of [str.format] and
    [json.dumps] is not modelled: the template and its arguments are kept. *)
Inductive fmtarg : Type :=
| ArgStr (s : string)
| ArgVal (v : pyval)
| ArgJson (v : pyval)            (* json.dumps(v) *)
| ArgKey (k : keymaterial).

Inductive text : Type :=
| Lit (s : string)
| Format (template : string) (args : list fmtarg).

(** ** ConsoleLogger *)

Module ConsoleLogger.

Record t : Type := mk { _logLevel : Z }.

(** [_log] prints: the result is what reaches the console. *)
Definition _log (message : text) : list text := [message].

Definition info (self : t) (message : text) : list text :=
  if negb (_logLevel self =? IOTCLogLevel.IOTC_LOGGING_DISABLED)
  then _log message else [].

Definition debug (self : t) (message : text) : list text :=
  if _logLevel self =? IOTCLogLevel.IOTC_LOGGING_ALL
  then _log message else [].

Definition setLogLevel (self : t) (logLevel : Z) : t := mk logLevel.

End ConsoleLogger.

(** ** Objects of the device SDK *)

Record X509 : Type := mkX509 {
  cert_file : pyval;
  key_file : pyval;
  pass_phrase : option pyval
}.

Inductive ProvisioningAuth : Type :=
| SymmetricKeyAuth (symmetric_key : keymaterial)
| X509Auth (x509 : X509).

Record ProvisioningDeviceClient : Type := mkProvisioning {
  provisioning_host : string;
  registration_id : string;
  id_scope : string;
  auth : ProvisioningAuth;
  provisioning_payload : option pyval
}.

Record RegistrationResult : Type := mkRegistration {
  assigned_hub : string;
  device_id : string
}.

(** ['HostName={};DeviceId={};SharedAccessKey={}'.format(...)], kept by field. *)
Record ConnectionString : Type := mkConnectionString {
  HostName : string;
  DeviceId : string;
  SharedAccessKey : keymaterial
}.

Inductive IoTHubDeviceClient : Type :=
| FromConnectionString (cs : ConnectionString)
| FromX509Certificate (x509 : X509) (hostname : string) (device : string).

Record MethodRequest : Type := mkMethodRequest {
  request_id : string;
  name : string;
  payload : pyval
}.

Record MethodResponse : Type := mkMethodResponse {
  response_request_id : string;
  status : Z;
  response_payload : pyval
}.

(** [MethodResponse.create_from_method_request(request, status, payload)]. *)
Definition create_from_method_request
           (method_request : MethodRequest) (status : Z) (payload : pyval)
  : MethodResponse :=
  mkMethodResponse (request_id method_request) status payload.

(** [data] is the payload whose JSON text the message carries. *)
Record Message : Type := mkMessage {
  data : pyval;
  message_id : string;
  custom_properties : pydict
}.

Inductive listener : Type :=
| PropertiesListener
| CommandsListener.

Record Thread : Type := mkThread {
  target : listener;
  daemon : bool
}.

(** ** What the client does to the outside, in order *)

Inductive event : Type :=
| Print (message : text)
| Sleep (seconds : Z)
| Registered (client : ProvisioningDeviceClient)
| HubConnected (client : IoTHubDeviceClient)
| ThreadStarted (thread : Thread)
| SentMessage (msg : Message)
| PatchedReported (reported : pyval)
| ReceivedPatch (patch : pydict)
| ReceivedMethod (method_request : MethodRequest)
| SentMethodResponse (response : MethodResponse)
| CalledProperties (prop : string) (value : pyval)
| CalledCommand (method_request : MethodRequest)
| CalledBack.

(** ** The outside: services, transport and clock

    Each call of the SDK may raise.  What it answers may depend on all that
    happened before, so every oracle reads the history. *)
Record Environment : Type := mkEnvironment {
  X509_new : list event -> X509 -> option exn;
  create_provisioning : list event -> ProvisioningDeviceClient -> option exn;
  register : list event -> ProvisioningDeviceClient -> result RegistrationResult;
  create_hub_client : list event -> IoTHubDeviceClient -> option exn;
  hub_connect : list event -> IoTHubDeviceClient -> option exn;
  send_message : list event -> Message -> option exn;
  patch_twin_reported_properties : list event -> pyval -> option exn;
  send_method_response : list event -> MethodResponse -> option exn;
  uuid4 : list event -> string
}.

(** ** The client and the world it runs in *)

Section Client.

(** The state of the application that owns the callbacks. *)
Context {H : Type}.

(** What a callback is called with: the properties listener passes
    [(prop, value)], the commands listener [(method_request, ack)], the
    send methods nothing. *)
Inductive arguments : Type :=
| PropertyArgs (prop : string) (value : pyval)
| CommandArgs (method_request : MethodRequest)
| NoArgs.

(** A call of the [ack] function, [ack(name, value, requestId)]. *)
Record ack_call : Type := mkAck {
  ack_name : string;
  ack_value : pyval;
  ack_requestId : pyval
}.

(** A callback runs on the application's state, may ask for
    acknowledgments through the [ack] it was given, and returns a value
    or raises. *)
Record callback_run : Type := mkRun {
  run_state : H;
  run_acks : list ack_call;
  run_result : result pyval
}.

Definition callback : Type := H -> arguments -> callback_run.

Record IoTCClient : Type := mkClient {
  _deviceId : string;
  _scopeId : string;
  _credType : Z;
  _keyORCert : keymaterial;
  _modelId : pyval;
  _connected : bool;
  _events : IOTCEvents -> option callback;
  _propThread : option Thread;
  _cmdThread : option Thread;
  _globalEndpoint : string;
  _logger : ConsoleLogger.t;
  (* attributes that exist only once [connect] has set them *)
  _keyfile : option pyval;
  _certfile : option pyval;
  _certPhrase : option pyval;
  _provisioningClient : option ProvisioningDeviceClient;
  _hubCString : option ConnectionString;
  _deviceClient : option IoTHubDeviceClient
}.

(** [twin_patches] and [method_requests] are what the hub will deliver:
    each entry is the answer of one receive call, a message or the
    failure of the session.  An empty queue leaves the caller blocked. *)
Record World : Type := mkWorld {
  self : IoTCClient;
  app : H;
  history : list event;
  twin_patches : list (result pydict);
  method_requests : list (result MethodRequest)
}.

(** How a call ends. *)
Inductive outcome (A : Type) : Type :=
| Return (a : A)
| Raise (e : exn)
| Blocked.
Arguments Return {A} a.
Arguments Raise {A} e.
Arguments Blocked {A}.

Definition M (A : Type) : Type := World -> World * outcome A.

Definition ret {A} (a : A) : M A := fun w => (w, Return a).

Definition bind {A B} (m : M A) (k : A -> M B) : M B :=
  fun w =>
    match m w with
    | (w', Return a) => k a w'
    | (w', Raise e) => (w', Raise e)
    | (w', Blocked) => (w', Blocked)
    end.

Definition raise {A} (e : exn) : M A := fun w => (w, Raise e).

Definition block {A} : M A := fun w => (w, Blocked).

(** [try: m  except: handler], catching every exception. *)
Definition try_except {A} (m : M A) (handler : exn -> M A) : M A :=
  fun w =>
    match m w with
    | (w', Raise e) => handler e w'
    | r => r
    end.

Definition lift {A} (r : result A) : M A :=
  match r with
  | Ok a => ret a
  | Err e => raise e
  end.

Definition check (r : option exn) : M unit :=
  match r with
  | None => ret tt
  | Some e => raise e
  end.

Definition get_self : M IoTCClient := fun w => (w, Return (self w)).

Definition get_history : M (list event) := fun w => (w, Return (history w)).

Definition set_self (f : IoTCClient -> IoTCClient) : M unit :=
  fun w => (mkWorld (f (self w)) (app w) (history w) (twin_patches w)
                    (method_requests w), Return tt).

Definition emit (e : event) : M unit :=
  fun w => (mkWorld (self w) (app w) (history w ++ [e]) (twin_patches w)
                    (method_requests w), Return tt).

(** The world with more history. *)
Definition extend (w : World) (evs : list event) : World :=
  mkWorld (self w) (app w) (history w ++ evs) (twin_patches w)
          (method_requests w).

Fixpoint emit_all (es : list event) : M unit :=
  match es with
  | [] => ret tt
  | e :: rest => bind (emit e) (fun _ => emit_all rest)
  end.

(** [for x in l: body]. *)
Fixpoint for_each {A} (l : list A) (body : A -> M unit) : M unit :=
  match l with
  | [] => ret tt
  | x :: rest => bind (body x) (fun _ => for_each rest body)
  end.

End Client.

Arguments IoTCClient H : clear implicits.
Arguments World H : clear implicits.
Arguments callback H : clear implicits.
Arguments callback_run H : clear implicits.
Arguments M H A : clear implicits.
Arguments Return {A} a.
Arguments Raise {A} e.
Arguments Blocked {A}.

Declare Scope py_scope.
Delimit Scope py_scope with py.
Notation "x <- m ;; k" := (bind m (fun x => k))
  (at level 61, m at next level, right associativity) : py_scope.
Notation "m ;; k" := (bind m (fun _ => k))
  (at level 61, right associativity) : py_scope.
Local Open Scope py_scope.

(** ** The methods *)

Section Methods.

Context {H : Type}.

(** The services and the transport the client talks to. *)
Variable env : Environment.

(** The module-level flag [gIsMicroPython]. *)
Variable gIsMicroPython : bool.

(** *** Attribute assignment, [self.x = v] *)

Definition set_keyORCert (v : keymaterial) (c : IoTCClient H) : IoTCClient H :=
  mkClient (_deviceId c) (_scopeId c) (_credType c) v (_modelId c)
    (_connected c) (_events c) (_propThread c) (_cmdThread c) (_globalEndpoint
    c) (_logger c) (_keyfile c) (_certfile c) (_certPhrase c)
    (_provisioningClient c) (_hubCString c) (_deviceClient c).

Definition set_modelId (v : pyval) (c : IoTCClient H) : IoTCClient H :=
  mkClient (_deviceId c) (_scopeId c) (_credType c) (_keyORCert c) v
    (_connected c) (_events c) (_propThread c) (_cmdThread c) (_globalEndpoint
    c) (_logger c) (_keyfile c) (_certfile c) (_certPhrase c)
    (_provisioningClient c) (_hubCString c) (_deviceClient c).

Definition set_connected (v : bool) (c : IoTCClient H) : IoTCClient H :=
  mkClient (_deviceId c) (_scopeId c) (_credType c) (_keyORCert c) (_modelId
    c) v (_events c) (_propThread c) (_cmdThread c) (_globalEndpoint c)
    (_logger c) (_keyfile c) (_certfile c) (_certPhrase c)
    (_provisioningClient c) (_hubCString c) (_deviceClient c).

Definition set_events (v : IOTCEvents -> option (callback H)) (c : IoTCClient H) : IoTCClient H :=
  mkClient (_deviceId c) (_scopeId c) (_credType c) (_keyORCert c) (_modelId
    c) (_connected c) v (_propThread c) (_cmdThread c) (_globalEndpoint c)
    (_logger c) (_keyfile c) (_certfile c) (_certPhrase c)
    (_provisioningClient c) (_hubCString c) (_deviceClient c).

Definition set_propThread (v : option Thread) (c : IoTCClient H) : IoTCClient H :=
  mkClient (_deviceId c) (_scopeId c) (_credType c) (_keyORCert c) (_modelId
    c) (_connected c) (_events c) v (_cmdThread c) (_globalEndpoint c)
    (_logger c) (_keyfile c) (_certfile c) (_certPhrase c)
    (_provisioningClient c) (_hubCString c) (_deviceClient c).

Definition set_cmdThread (v : option Thread) (c : IoTCClient H) : IoTCClient H :=
  mkClient (_deviceId c) (_scopeId c) (_credType c) (_keyORCert c) (_modelId
    c) (_connected c) (_events c) (_propThread c) v (_globalEndpoint c)
    (_logger c) (_keyfile c) (_certfile c) (_certPhrase c)
    (_provisioningClient c) (_hubCString c) (_deviceClient c).

Definition set_globalEndpoint (v : string) (c : IoTCClient H) : IoTCClient H :=
  mkClient (_deviceId c) (_scopeId c) (_credType c) (_keyORCert c) (_modelId
    c) (_connected c) (_events c) (_propThread c) (_cmdThread c) v (_logger c)
    (_keyfile c) (_certfile c) (_certPhrase c) (_provisioningClient c)
    (_hubCString c) (_deviceClient c).

Definition set_logger (v : ConsoleLogger.t) (c : IoTCClient H) : IoTCClient H :=
  mkClient (_deviceId c) (_scopeId c) (_credType c) (_keyORCert c) (_modelId
    c) (_connected c) (_events c) (_propThread c) (_cmdThread c)
    (_globalEndpoint c) v (_keyfile c) (_certfile c) (_certPhrase c)
    (_provisioningClient c) (_hubCString c) (_deviceClient c).

Definition set_keyfile (v : option pyval) (c : IoTCClient H) : IoTCClient H :=
  mkClient (_deviceId c) (_scopeId c) (_credType c) (_keyORCert c) (_modelId
    c) (_connected c) (_events c) (_propThread c) (_cmdThread c)
    (_globalEndpoint c) (_logger c) v (_certfile c) (_certPhrase c)
    (_provisioningClient c) (_hubCString c) (_deviceClient c).

Definition set_certfile (v : option pyval) (c : IoTCClient H) : IoTCClient H :=
  mkClient (_deviceId c) (_scopeId c) (_credType c) (_keyORCert c) (_modelId
    c) (_connected c) (_events c) (_propThread c) (_cmdThread c)
    (_globalEndpoint c) (_logger c) (_keyfile c) v (_certPhrase c)
    (_provisioningClient c) (_hubCString c) (_deviceClient c).

Definition set_certPhrase (v : option pyval) (c : IoTCClient H) : IoTCClient H :=
  mkClient (_deviceId c) (_scopeId c) (_credType c) (_keyORCert c) (_modelId
    c) (_connected c) (_events c) (_propThread c) (_cmdThread c)
    (_globalEndpoint c) (_logger c) (_keyfile c) (_certfile c) v
    (_provisioningClient c) (_hubCString c) (_deviceClient c).

Definition set_provisioningClient (v : option ProvisioningDeviceClient) (c : IoTCClient H) : IoTCClient H :=
  mkClient (_deviceId c) (_scopeId c) (_credType c) (_keyORCert c) (_modelId
    c) (_connected c) (_events c) (_propThread c) (_cmdThread c)
    (_globalEndpoint c) (_logger c) (_keyfile c) (_certfile c) (_certPhrase c)
    v (_hubCString c) (_deviceClient c).

Definition set_hubCString (v : option ConnectionString) (c : IoTCClient H) : IoTCClient H :=
  mkClient (_deviceId c) (_scopeId c) (_credType c) (_keyORCert c) (_modelId
    c) (_connected c) (_events c) (_propThread c) (_cmdThread c)
    (_globalEndpoint c) (_logger c) (_keyfile c) (_certfile c) (_certPhrase c)
    (_provisioningClient c) v (_deviceClient c).

Definition set_deviceClient (v : option IoTHubDeviceClient) (c : IoTCClient H) : IoTCClient H :=
  mkClient (_deviceId c) (_scopeId c) (_credType c) (_keyORCert c) (_modelId
    c) (_connected c) (_events c) (_propThread c) (_cmdThread c)
    (_globalEndpoint c) (_logger c) (_keyfile c) (_certfile c) (_certPhrase c)
    (_provisioningClient c) (_hubCString c) v.

(** *** Reading attributes and logging *)

(** [self._deviceClient]: the attribute exists once [connect] has set it. *)
Definition device_client : M H IoTHubDeviceClient :=
  c <- get_self ;;
  match _deviceClient c with
  | Some dc => ret dc
  | None => raise (AttributeError "_deviceClient")
  end.

Definition provisioning_client : M H ProvisioningDeviceClient :=
  c <- get_self ;;
  match _provisioningClient c with
  | Some pc => ret pc
  | None => raise (AttributeError "_provisioningClient")
  end.

(** [self._logger.info(message)] and [self._logger.debug(message)]. *)
Definition logger_info (message : text) : M H unit :=
  c <- get_self ;;
  emit_all (map Print (ConsoleLogger.info (_logger c) message)).

Definition logger_debug (message : text) : M H unit :=
  c <- get_self ;;
  emit_all (map Print (ConsoleLogger.debug (_logger c) message)).

(** [time.sleep(seconds)]. *)
Definition sleep (seconds : Z) : M H unit := emit (Sleep seconds).

(** *** Calling into the application *)

Definition called (args : arguments) : event :=
  match args with
  | PropertyArgs prop value => CalledProperties prop value
  | CommandArgs method_request => CalledCommand method_request
  | NoArgs => CalledBack
  end.

(** The call is recorded, the callback runs on the application's state;
    what it asks of [ack] and how it ends are handed to the caller. *)
Definition invoke (cb : callback H) (args : arguments)
  : M H (list ack_call * result pyval) :=
  fun w =>
    let r := cb (app w) args in
    (mkWorld (self w) (run_state r) (history w ++ [called args])
             (twin_patches w) (method_requests w),
     Return (run_acks r, run_result r)).

(** A call that was given no [ack]. *)
Definition call (cb : callback H) (args : arguments) : M H pyval :=
  r <- invoke cb args ;;
  lift (snd r).

(** *** __init__ *)

Definition __init__ (deviceId scopeId : string) (credType : Z)
           (keyOrCert : keymaterial) (logger : option ConsoleLogger.t)
  : IoTCClient H :=
  mkClient deviceId scopeId credType keyOrCert PyNone false (fun _ => None)
           None None "global.azure-devices-provisioning.net"
           (match logger with
            | None => ConsoleLogger.mk IOTCLogLevel.IOTC_LOGGING_API_ONLY
            | Some l => l
            end)
           None None None None None None.

(** *** isConnected, the setters, on *)

Definition isConnected (c : IoTCClient H) : bool :=
  if _connected c then true else false.

Definition setGlobalEndpoint (endpoint : string) : M H unit :=
  set_self (set_globalEndpoint endpoint).

Definition setModelId (modelId : pyval) : M H unit :=
  set_self (set_modelId modelId).

Definition setLogLevel (logLevel : Z) : M H unit :=
  set_self (fun c => set_logger (ConsoleLogger.setLogLevel (_logger c) logLevel) c).

(** [self._events[eventname] = callback; return 0]. *)
Definition on (eventname : IOTCEvents) (cb : callback H) : M H Z :=
  set_self (fun c =>
    set_events (fun k => if IOTCEvents_eqb k eventname then Some cb
                         else _events c k) c) ;;
  ret 0.

(** *** sendProperty, _sendMessage, sendTelemetry *)

Definition sendProperty (payload : pyval) (callback : option (callback H))
  : M H unit :=
  logger_debug (Format "Sending property {}" [ArgJson payload]) ;;
  _ <- device_client ;;
  h <- get_history ;;
  emit (PatchedReported payload) ;;
  check (patch_twin_reported_properties env h payload) ;;
  match callback with
  | Some cb => call cb NoArgs ;; ret tt
  | None => ret tt
  end.

(** [msg.custom_properties[prop] = properties[prop]] for every key. *)
Fixpoint copy_properties (keys : list string) (properties custom : pydict)
  : result pydict :=
  match keys with
  | [] => Ok custom
  | prop :: rest =>
      match dict_getitem properties prop with
      | Ok v => copy_properties rest properties (dict_setitem custom prop v)
      | Err e => Err e
      end
  end.

Definition _sendMessage (payload : pyval) (properties : option pydict)
           (callback : option (callback H)) : M H unit :=
  h <- get_history ;;
  let message_id := uuid4 env h in
  custom <- (match properties with
             | Some (p :: ps) =>
                 lift (copy_properties (map fst (p :: ps)) (p :: ps) [])
             | _ => ret []
             end) ;;
  let msg := mkMessage payload message_id custom in
  _ <- device_client ;;
  h <- get_history ;;
  emit (SentMessage msg) ;;
  check (send_message env h msg) ;;
  match callback with
  | Some cb => call cb NoArgs ;; ret tt
  | None => ret tt
  end.

Definition sendTelemetry (payload : pyval) (properties : option pydict)
           (callback : option (callback H)) : M H unit :=
  logger_info (Format "Sending telemetry message: {}" [ArgVal payload]) ;;
  _sendMessage payload properties callback.

(** *** _computeDerivedSymmetricKey *)

(** ["ERROR: broken base64 secret => `" + secret + "`"]: only a str can
    be appended to a str. *)
Definition broken_secret_message (secret : keymaterial) : result text :=
  match secret with
  | KeyStr s => Ok (Lit ("ERROR: broken base64 secret => `" ++ s ++ "`"))
  | _ => Err TypeError
  end.

Definition _computeDerivedSymmetricKey (secret : keymaterial) (regId : string)
  : M H keymaterial :=
  secret <- try_except (lift (b64decode secret))
              (fun _ =>
                 message <- lift (broken_secret_message secret) ;;
                 logger_debug message ;;
                 raise SystemExit) ;;
  let digest := HMAC.hmac_sha256 secret (bytes_of_str regId) in
  if negb gIsMicroPython
  then ret (KeyStr (str_of_bytes (b64encode digest)))
  else ret (KeyBytes (b64encode digest)).

(** *** connect *)

Definition symmetric (credType : Z) : bool :=
  (credType =? IOTCConnectType.IOTC_CONNECT_DEVICE_KEY)
  || (credType =? IOTCConnectType.IOTC_CONNECT_SYMM_KEY).

(** [X509(cert_file, key_file, pass_phrase)]. *)
Definition new_X509 (x : X509) : M H X509 :=
  h <- get_history ;;
  check (X509_new env h x) ;;
  ret x.

(** The first [if]: the provisioning client is built from the key, which
    for a group key is first replaced by the derived key, or from the
    certificate.  The result is the local variable [x509]. *)
Definition connect_credentials : M H (option X509) :=
  c <- get_self ;;
  if symmetric (_credType c) then
    (if _credType c =? IOTCConnectType.IOTC_CONNECT_SYMM_KEY then
       key <- _computeDerivedSymmetricKey (_keyORCert c) (_deviceId c) ;;
       set_self (set_keyORCert key) ;;
       c <- get_self ;;
       logger_debug (Format "Device key: {}" [ArgKey (_keyORCert c)])
     else ret tt) ;;
    c <- get_self ;;
    let pc := mkProvisioning (_globalEndpoint c) (_deviceId c) (_scopeId c)
                             (SymmetricKeyAuth (_keyORCert c)) None in
    h <- get_history ;;
    check (create_provisioning env h pc) ;;
    set_self (set_provisioningClient (Some pc)) ;;
    ret None
  else
    keyfile <- lift (key_subscript (_keyORCert c) "keyFile") ;;
    set_self (set_keyfile (Some keyfile)) ;;
    certfile <- lift (key_subscript (_keyORCert c) "certFile") ;;
    set_self (set_certfile (Some certfile)) ;;
    x509 <- try_except
              (certPhrase <- lift (key_subscript (_keyORCert c) "certPhrase") ;;
               set_self (set_certPhrase (Some certPhrase)) ;;
               new_X509 (mkX509 certfile keyfile (Some certPhrase)))
              (fun _ =>
                 logger_debug
                   (Lit "No passphrase available for certificate. Trying without it") ;;
                 new_X509 (mkX509 certfile keyfile None)) ;;
    c <- get_self ;;
    let pc := mkProvisioning (_globalEndpoint c) (_deviceId c) (_scopeId c)
                             (X509Auth x509) None in
    h <- get_history ;;
    check (create_provisioning env h pc) ;;
    set_self (set_provisioningClient (Some pc)) ;;
    ret (Some x509).

(** [if self._modelId: self._provisioningClient.provisioning_payload = ...]. *)
Definition connect_model : M H unit :=
  c <- get_self ;;
  if truthy (_modelId c) then
    pc <- provisioning_client ;;
    set_self (set_provisioningClient
                (Some (mkProvisioning
                         (provisioning_host pc) (registration_id pc)
                         (id_scope pc) (auth pc)
                         (Some (PyDict [("iotcModelId", _modelId c)])))))
  else ret tt.

(** The first [try]: registration and the construction of the hub
    client.  The handler raises [t(v)], not the exception it caught. *)
Definition connect_provision (x509 : option X509) : M H unit :=
  try_except
    (pc <- provisioning_client ;;
     h <- get_history ;;
     emit (Registered pc) ;;
     registration_result <- lift (register env h pc) ;;
     let assigned_hub := assigned_hub registration_result in
     logger_debug (Lit assigned_hub) ;;
     c <- get_self ;;
     let cs := mkConnectionString assigned_hub (_deviceId c) (_keyORCert c) in
     set_self (set_hubCString (Some cs)) ;;
     logger_debug (Format "IoTHub Connection string: {}"
                          [ArgStr "HostName={};DeviceId={};SharedAccessKey={}";
                           ArgStr assigned_hub; ArgStr (_deviceId c);
                           ArgKey (_keyORCert c)]) ;;
     dc <- (if symmetric (_credType c) then ret (FromConnectionString cs)
            else match x509 with
                 | Some x => ret (FromX509Certificate
                                    x assigned_hub (device_id registration_result))
                 | None => raise UnboundLocalError
                 end) ;;
     h <- get_history ;;
     check (create_hub_client env h dc) ;;
     set_self (set_deviceClient (Some dc)))
    (fun v =>
       logger_info (Lit "ERROR: Failed to get device provisioning information") ;;
       raise (rebuild v)).

(** The second [try]: the session with the hub.  The flag is set only
    after [self._deviceClient.connect()] has returned.  The call of
    [debug] that follows is one of the console logger, which returns;
    [connect_hub_with] has it with any logger. *)
Definition connect_hub : M H unit :=
  try_except
    (dc <- device_client ;;
     h <- get_history ;;
     emit (HubConnected dc) ;;
     check (hub_connect env h dc) ;;
     set_self (set_connected true) ;;
     logger_debug (Lit "Device connected"))
    (fun v =>
       logger_info (Lit "ERROR: Failed to connect to Hub") ;;
       raise (rebuild v)).

(** The two daemon threads.  Starting a thread is taken not to fail;
    [connect_listeners_with] has it with starts that can raise. *)
Definition connect_listeners : M H unit :=
  let propThread := mkThread PropertiesListener true in
  set_self (set_propThread (Some propThread)) ;;
  emit (ThreadStarted propThread) ;;
  let cmdThread := mkThread CommandsListener true in
  set_self (set_cmdThread (Some cmdThread)) ;;
  emit (ThreadStarted cmdThread).

Definition connect : M H unit :=
  x509 <- connect_credentials ;;
  connect_model ;;
  connect_provision x509 ;;
  connect_hub ;;
  connect_listeners.

(** *** The listener loops *)

(** How a [while True] loop stands after a number of passes: still
    running, suspended in a receive call with the callback it had
    fetched, or ended by an exception. *)
Inductive loop_status : Type :=
| Running
| Suspended (cb : callback H)
| Died (e : exn).

(** [self._deviceClient.receive_twin_desired_properties_patch()]. *)
Definition receive_twin_desired_properties_patch : M H pydict :=
  _ <- device_client ;;
  fun w =>
    match twin_patches w with
    | [] => (w, Blocked)
    | Ok patch :: rest =>
        (mkWorld (self w) (app w) (history w ++ [ReceivedPatch patch]) rest
                 (method_requests w), Return patch)
    | Err e :: rest =>
        (mkWorld (self w) (app w) (history w) rest (method_requests w), Raise e)
    end.

(** [self._deviceClient.receive_method_request()]. *)
Definition receive_method_request : M H MethodRequest :=
  _ <- device_client ;;
  fun w =>
    match method_requests w with
    | [] => (w, Blocked)
    | Ok method_request :: rest =>
        (mkWorld (self w) (app w) (history w ++ [ReceivedMethod method_request])
                 (twin_patches w) rest, Return method_request)
    | Err e :: rest =>
        (mkWorld (self w) (app w) (history w) (twin_patches w) rest, Raise e)
    end.

(** The acknowledgment of one property of a patch. *)
Definition property_ack (prop : string) (value desiredVersion : pyval) : pyval :=
  PyDict [(prop, PyDict [("value", value);
                         ("status", PyStr "completed");
                         ("desiredVersion", desiredVersion);
                         ("message", PyStr "Property received")])].

(** The template ['Property "{}" unsuccessfully processed']. *)
Definition unsuccessfully_processed : string :=
  let quote := String (ascii_of_nat 34) EmptyString in
  "Property " ++ quote ++ "{}" ++ quote ++ " unsuccessfully processed".

(** The body of [for prop in patch]. *)
Definition _onProperties_prop (propCb : callback H) (patch : pydict)
           (prop : string) : M H unit :=
  if String.eqb prop "$version" then ret tt
  else
    entry <- lift (dict_getitem patch prop) ;;
    value <- lift (subscript entry "value") ;;
    r <- call propCb (PropertyArgs prop value) ;;
    if truthy r then
      logger_debug (Format "Acknowledging {}" [ArgStr prop]) ;;
      entry <- lift (dict_getitem patch prop) ;;
      value <- lift (subscript entry "value") ;;
      desiredVersion <- lift (dict_getitem patch "$version") ;;
      sendProperty (property_ack prop value desiredVersion) None
    else
      logger_debug (Format unsuccessfully_processed [ArgStr prop]).

(** From the receive call to the end of the loop body. *)
Definition _onProperties_receive (propCb : callback H) : M H unit :=
  patch <- receive_twin_desired_properties_patch ;;
  logger_debug (Format "
Received desired properties. {}
" [ArgVal (PyDict patch)]) ;;
  for_each (map fst patch) (_onProperties_prop propCb patch).

(** [_cmdAck(name, value, requestId)]. *)
Definition _cmdAck (name : string) (value requestId : pyval) : M H unit :=
  sendProperty (PyDict [(name, PyDict [("value", value);
                                       ("requestId", requestId)])]) None.

(** The fixed answer to every command. *)
Definition command_received (method_request : MethodRequest) : MethodResponse :=
  create_from_method_request method_request 200
    (PyDict [("result", PyBool true); ("data", PyStr "Command received")]).

(** [cmdCb(method_request, self._cmdAck)]: the acknowledgments the
    callback asks for go through [_cmdAck] while it runs. *)
Definition call_command (cmdCb : callback H) (method_request : MethodRequest)
  : M H pyval :=
  r <- invoke cmdCb (CommandArgs method_request) ;;
  for_each (fst r)
           (fun a => _cmdAck (ack_name a) (ack_value a) (ack_requestId a)) ;;
  lift (snd r).

Definition _onCommands_receive (cmdCb : callback H) : M H unit :=
  method_request <- receive_method_request ;;
  logger_debug (Format "Received command {}" [ArgStr (name method_request)]) ;;
  _ <- device_client ;;
  h <- get_history ;;
  let response := command_received method_request in
  emit (SentMethodResponse response) ;;
  check (send_method_response env h response) ;;
  call_command cmdCb method_request ;;
  ret tt.

(** [while True], for at most [fuel] passes.  A pass looks the callback
    up, sleeps when there is none, and otherwise runs [receive]. *)
Fixpoint listen (eventname : IOTCEvents) (not_found : text)
         (receive : callback H -> M H unit) (fuel : nat) (w : World H)
  : World H * loop_status :=
  match fuel with
  | O => (w, Running)
  | S fuel' =>
      match _events (self w) eventname with
      | None =>
          let (w', _) := (logger_debug not_found ;; sleep 10) w in
          listen eventname not_found receive fuel' w'
      | Some cb =>
          match receive cb w with
          | (w', Return _) => listen eventname not_found receive fuel' w'
          | (w', Raise e) => (w', Died e)
          | (w', Blocked) => (w', Suspended cb)
          end
      end
  end.

Definition _onProperties (fuel : nat) (w : World H) : World H * loop_status :=
  let (w', _) := logger_debug (Lit "Setup properties listener") w in
  listen IOTC_PROPERTIES (Lit "Properties callback not found")
         _onProperties_receive fuel w'.

Definition _onCommands (fuel : nat) (w : World H) : World H * loop_status :=
  let (w', _) := logger_debug (Lit "Setup commands listener") w in
  listen IOTC_COMMAND (Lit "Commands callback not found")
         _onCommands_receive fuel w'.

(** A suspended loop goes on when the hub delivers: the pending receive
    call returns, the pass is finished, the loop continues. *)
Definition resume (eventname : IOTCEvents) (not_found : text)
           (receive : callback H -> M H unit) (cb : callback H)
           (fuel : nat) (w : World H) : World H * loop_status :=
  match receive cb w with
  | (w', Return _) => listen eventname not_found receive fuel w'
  | (w', Raise e) => (w', Died e)
  | (w', Blocked) => (w', Suspended cb)
  end.

End Methods.

(** ** The life of a client

    What may happen to a client once it is built: the application calls a
    method, a listener thread runs some passes of its loop or goes on after
    a receive call, the hub queues a message. *)

Section Life.

Context {H : Type}.
Variable env : Environment.
Variable gIsMicroPython : bool.

Inductive operation : Type :=
| Call_isConnected
| Call_setGlobalEndpoint (endpoint : string)
| Call_setModelId (modelId : pyval)
| Call_setLogLevel (logLevel : Z)
| Call_on (eventname : IOTCEvents) (cb : callback H)
| Call_sendProperty (payload : pyval) (cb : option (callback H))
| Call_sendTelemetry (payload : pyval) (properties : option pydict)
                     (cb : option (callback H))
| Call_connect
| Run_onProperties (fuel : nat)
| Run_onCommands (fuel : nat)
| Resume_onProperties (cb : callback H) (fuel : nat)
| Resume_onCommands (cb : callback H) (fuel : nat)
| Hub_queues_patch (patch : result pydict)
| Hub_queues_method (method_request : result MethodRequest).

Definition perform (op : operation) (w : World H) : World H :=
  match op with
  | Call_isConnected => w
  | Call_setGlobalEndpoint endpoint => fst (setGlobalEndpoint endpoint w)
  | Call_setModelId modelId => fst (setModelId modelId w)
  | Call_setLogLevel logLevel => fst (setLogLevel logLevel w)
  | Call_on eventname cb => fst (on eventname cb w)
  | Call_sendProperty payload cb => fst (sendProperty env payload cb w)
  | Call_sendTelemetry payload properties cb =>
      fst (sendTelemetry env payload properties cb w)
  | Call_connect => fst (connect env gIsMicroPython w)
  | Run_onProperties fuel => fst (_onProperties env fuel w)
  | Run_onCommands fuel => fst (_onCommands env fuel w)
  | Resume_onProperties cb fuel =>
      fst (resume IOTC_PROPERTIES (Lit "Properties callback not found")
                  (_onProperties_receive env) cb fuel w)
  | Resume_onCommands cb fuel =>
      fst (resume IOTC_COMMAND (Lit "Commands callback not found")
                  (_onCommands_receive env) cb fuel w)
  | Hub_queues_patch patch =>
      mkWorld (self w) (app w) (history w) (twin_patches w ++ [patch])
              (method_requests w)
  | Hub_queues_method method_request =>
      mkWorld (self w) (app w) (history w) (twin_patches w)
              (method_requests w ++ [method_request])
  end.

Definition perform_all (ops : list operation) (w : World H) : World H :=
  fold_left (fun w op => perform op w) ops w.

End Life.

(** ** Sample devices and services *)

Module Sample.

(** Services that accept everything. *)
Definition friendly : Environment :=
  mkEnvironment
    (fun _ _ => None) (fun _ _ => None)
    (fun _ pc => Ok (mkRegistration "iotc-hub.azure-devices.net" (registration_id pc)))
    (fun _ _ => None) (fun _ _ => None) (fun _ _ => None) (fun _ _ => None)
    (fun _ _ => None) (fun _ => "00000000-0000-4000-8000-000000000000").

(** A provisioning service that rejects the registration. *)
Definition unregistered : Environment :=
  mkEnvironment
    (fun _ _ => None) (fun _ _ => None)
    (fun _ _ => Err (ExternalError "registration rejected"))
    (fun _ _ => None) (fun _ _ => None) (fun _ _ => None) (fun _ _ => None)
    (fun _ _ => None) (fun _ => "00000000-0000-4000-8000-000000000000").

(** A hub that refuses the session. *)
Definition unreachable : Environment :=
  mkEnvironment
    (fun _ _ => None) (fun _ _ => None)
    (fun _ pc => Ok (mkRegistration "iotc-hub.azure-devices.net" (registration_id pc)))
    (fun _ _ => None) (fun _ _ => Some (ExternalError "connection refused"))
    (fun _ _ => None) (fun _ _ => None)
    (fun _ _ => None) (fun _ => "00000000-0000-4000-8000-000000000000").

(** A provisioning service whose answer cannot be read: the failure is of
    a class that is not built from one argument. *)
Definition garbled : Environment :=
  mkEnvironment
    (fun _ _ => None) (fun _ _ => None)
    (fun _ _ => Err (ManyArgsError "JSONDecodeError"))
    (fun _ _ => None) (fun _ _ => None) (fun _ _ => None) (fun _ _ => None)
    (fun _ _ => None) (fun _ => "00000000-0000-4000-8000-000000000000").

(** A device with the group key [base64("testkey")]. *)
Definition device : IoTCClient unit :=
  __init__ "device1" "0ne000AAAAA" IOTCConnectType.IOTC_CONNECT_SYMM_KEY
           (KeyStr "dGVzdGtleQ==") None.

(** The same device with a key that is not base64. *)
Definition misconfigured : IoTCClient unit :=
  __init__ "device1" "0ne000AAAAA" IOTCConnectType.IOTC_CONNECT_SYMM_KEY
           (KeyStr "abc") None.

Definition boot (c : IoTCClient unit) : World unit := mkWorld c tt [] [] [].

(** Callbacks of an application without state: one that reports success,
    one that reports failure by returning nothing, one that raises. *)
Definition accept : callback unit :=
  fun h _ => mkRun h [] (Ok (PyBool true)).

Definition decline : callback unit :=
  fun h _ => mkRun h [] (Ok PyNone).

Definition faulty : callback unit :=
  fun h _ => mkRun h [] (Err (ExternalError "handler failed")).

(** The patch [{"$version": 3, "temp": {"value": 21}}]. *)
Definition temp_patch : pydict :=
  [("$version", PyInt 3); ("temp", PyDict [("value", PyInt 21)])].

(** The device once connected to the friendly services: the world that
    [connect friendly false (boot device)] leaves. *)
Definition device_key : keymaterial :=
  KeyStr "zqB3uKd5mNX0FiTXMidHWKY1HSrQtEVLQM8CiKZdbSI=".

Definition hub_string : ConnectionString :=
  mkConnectionString "iotc-hub.azure-devices.net" "device1" device_key.

Definition registration : ProvisioningDeviceClient :=
  mkProvisioning "global.azure-devices-provisioning.net" "device1" "0ne000AAAAA"
                 (SymmetricKeyAuth device_key) None.

Definition online : World unit :=
  mkWorld
    (mkClient "device1" "0ne000AAAAA" IOTCConnectType.IOTC_CONNECT_SYMM_KEY
              device_key PyNone true (fun _ => None)
              (Some (mkThread PropertiesListener true))
              (Some (mkThread CommandsListener true))
              "global.azure-devices-provisioning.net"
              (ConsoleLogger.mk IOTCLogLevel.IOTC_LOGGING_API_ONLY)
              None None None (Some registration) (Some hub_string)
              (Some (FromConnectionString hub_string)))
    tt
    [Registered registration;
     HubConnected (FromConnectionString hub_string);
     ThreadStarted (mkThread PropertiesListener true);
     ThreadStarted (mkThread CommandsListener true)]
    [] [].

(** A command of the hub, and the device with a callback for commands
    and that command waiting. *)
Definition reboot : MethodRequest := mkMethodRequest "7" "reboot" PyNone.

Definition commanded (cb : callback unit) : World unit :=
  perform_all friendly false
              [Call_on IOTC_COMMAND cb; Hub_queues_method (Ok reboot)] online.

(** The device with a callback for properties and patches waiting. *)
Definition patched (cb : callback unit) (patches : list pydict) : World unit :=
  perform_all friendly false
              (Call_on IOTC_PROPERTIES cb
               :: map (fun p => Hub_queues_patch (Ok p)) patches) online.

(** The failure of the session as a receive call reports it. *)
Definition session_terminated : exn := ExternalError "session terminated".

End Sample.

(** ** The derived key, said apart from the method

    [derived_key] is what the specification of the derivation says:
    base64 of the HMAC-SHA256 of the registration id under the decoded group
    key, a str on CPython and bytes on MicroPython.  [broken_secret_error]
    is the exception that leaves [_computeDerivedSymmetricKey] when the
    secret cannot be decoded: [sys.exit()] raises SystemExit, unless the
    message of the log could not even be built. *)

Definition derived_key (gIsMicroPython : bool) (key : list byte) (regId : string)
  : keymaterial :=
  let digest := HMAC.hmac_sha256 key (bytes_of_str regId) in
  if negb gIsMicroPython then KeyStr (str_of_bytes (b64encode digest))
  else KeyBytes (b64encode digest).

(** A byte string shown as the str of its base64. *)
Definition base64_text (l : list byte) : string := str_of_bytes (b64encode l).

Definition broken_secret_error (secret : keymaterial) : exn :=
  match secret with
  | KeyStr _ => SystemExit
  | _ => TypeError
  end.

(** ** Reading a history *)

(** The property updates sent to the hub, in order. *)
Fixpoint reported (evs : list event) : list pyval :=
  match evs with
  | [] => []
  | PatchedReported payload :: rest => payload :: reported rest
  | _ :: rest => reported rest
  end.

(** The calls of the properties callback, in order. *)
Fixpoint property_calls (evs : list event) : list (string * pyval) :=
  match evs with
  | [] => []
  | CalledProperties prop value :: rest => (prop, value) :: property_calls rest
  | _ :: rest => property_calls rest
  end.

(** What happens around commands: reception, answer to the transport,
    call of the callback. *)
Fixpoint command_view (evs : list event) : list event :=
  match evs with
  | [] => []
  | ReceivedMethod r :: rest => ReceivedMethod r :: command_view rest
  | SentMethodResponse r :: rest => SentMethodResponse r :: command_view rest
  | CalledCommand r :: rest => CalledCommand r :: command_view rest
  | _ :: rest => command_view rest
  end.

(** A view in which every command received is answered at once with the
    fixed acknowledgment, and the callback is called, if at all, right after
    that answer.  The view may end on an answer that the transport refused:
    the loop has then ended before the call. *)
Inductive acknowledged : list event -> Prop :=
| acknowledged_nil : acknowledged []
| acknowledged_last (r : MethodRequest) :
    acknowledged [ReceivedMethod r; SentMethodResponse (command_received r)]
| acknowledged_called (r : MethodRequest) (rest : list event) :
    acknowledged rest ->
    acknowledged (ReceivedMethod r :: SentMethodResponse (command_received r)
                  :: CalledCommand r :: rest).

(** The calls a patch asks for: one for every key but ['$version'], with
    the ['value'] of its entry. *)
Definition property_value (patch : pydict) (prop : string) : result pyval :=
  match dict_getitem patch prop with
  | Ok entry => subscript entry "value"
  | Err e => Err e
  end.

Definition expected_call (patch : pydict) (prop : string)
  : list (string * pyval) :=
  if String.eqb prop "$version" then []
  else match property_value patch prop with
       | Ok value => [(prop, value)]
       | Err _ => []
       end.

Definition expected_calls (patch : pydict) : list (string * pyval) :=
  flat_map (expected_call patch) (map fst patch).

(** ** Statements about computations *)

Section Statements.

Context {H : Type}.

(** The computation leaves an observation [g] of the client as it was. *)
Definition keeps {X A} (g : IoTCClient H -> X) (m : M H A) : Prop :=
  forall w, g (self (fst (m w))) = g (self w).

(** The computation never suspends its thread. *)
Definition unblocked {A} (m : M H A) : Prop :=
  forall w, snd (m w) <> Blocked.



End Statements.

(** ** Operations and sends in closed form *)

Section Closed.

Context {H : Type}.

(** The custom properties of a message, as [_sendMessage] fills them:
    [if bool(properties): for prop in properties: ...]. *)
Definition copied (properties : option pydict) : result pydict :=
  match properties with
  | Some (p :: ps) => copy_properties (map fst (p :: ps)) (p :: ps) []
  | _ => Ok []
  end.

(** The end of a send, [if callback is not None: callback()], in closed
    form. *)
Definition after_dispatch (callback : option (callback H)) (w : World H)
  : World H * outcome unit :=
  match callback with
  | None => (w, Return tt)
  | Some cb =>
      let r := cb (app w) NoArgs in
      (mkWorld (self w) (run_state r) (history w ++ [CalledBack])
               (twin_patches w) (method_requests w),
       match run_result r with
       | Ok _ => Return tt
       | Err e => Raise e
       end)
  end.

(** The operations that assign an attribute of the client. *)
Definition configures (op : @operation H) : bool :=
  match op with
  | Call_setGlobalEndpoint _ | Call_setModelId _ | Call_setLogLevel _
  | Call_on _ _ | Call_connect => true
  | _ => false
  end.

(** What an operation does to the entry of [eventname] in the registry
    of callbacks: [on] for that event replaces it. *)
Definition registry_step (eventname : IOTCEvents) (op : @operation H)
           (registered : option (callback H)) : option (callback H) :=
  match op with
  | Call_on e cb => if IOTCEvents_eqb eventname e then Some cb else registered
  | _ => registered
  end.

End Closed.

(** ** More readings of a history *)

(** Whether an event is a line on the console. *)
Definition is_print (e : event) : bool :=
  match e with
  | Print _ => true
  | _ => false
  end.

(** The three messages of the client that go through [info]. *)
Definition info_line (message : text) : bool :=
  match message with
  | Format template [ArgVal _] =>
      String.eqb template "Sending telemetry message: {}"
  | Lit s =>
      String.eqb s "ERROR: Failed to get device provisioning information"
      || String.eqb s "ERROR: Failed to connect to Hub"
  | _ => false
  end.

(** An event that is a line on the console only if [info] wrote it. *)
Definition info_only (e : event) : bool :=
  match e with
  | Print message => info_line message
  | _ => true
  end.

(** What the client did to the services, the transport, the clock and
    the application: the history without the console. *)
Definition outside (evs : list event) : list event :=
  filter (fun e => negb (is_print e)) evs.

(** The registrations asked of the provisioning service, in order. *)
Fixpoint registrations (evs : list event) : list ProvisioningDeviceClient :=
  match evs with
  | [] => []
  | Registered client :: rest => client :: registrations rest
  | _ :: rest => registrations rest
  end.

(** The threads started, in order. *)
Fixpoint threads_started (evs : list event) : list Thread :=
  match evs with
  | [] => []
  | ThreadStarted thread :: rest => thread :: threads_started rest
  | _ :: rest => threads_started rest
  end.

(** ** Invariants of the client *)

Section Invariants.

Context {H : Type}.

(** Started on a client within [I], the computation leaves the client
    within [I], and every event it adds to the history satisfies [P]. *)
Definition preserves {A} (I : IoTCClient H -> Prop) (P : event -> Prop)
           (m : M H A) : Prop :=
  forall w, I (self w) ->
    I (self (fst (m w)))
    /\ exists evs, history (fst (m w)) = history w ++ evs /\ Forall P evs.

(** The operations that do not set the log level to a level for which
    [allowed] is false. *)
Definition levels_within (allowed : Z -> bool) (op : @operation H) : bool :=
  match op with
  | Call_setLogLevel logLevel => allowed logLevel
  | _ => true
  end.

End Invariants.

(** ** What [connect] builds *)

Section Built.

Context {H : Type}.

(** The provisioning payload that carries the model id, when there is one. *)
Definition model_payload (modelId : pyval) : option pyval :=
  if truthy modelId then Some (PyDict [("iotcModelId", modelId)]) else None.

(** The provisioning client of a device that authenticates with [auth]. *)
Definition provisioning_of (c : IoTCClient H) (auth : ProvisioningAuth)
  : ProvisioningDeviceClient :=
  mkProvisioning (_globalEndpoint c) (_deviceId c) (_scopeId c) auth
                 (model_payload (_modelId c)).

(** How the device authenticates: with the certificate object when
    [connect] built one, with the stored key otherwise. *)
Definition auth_of (c : IoTCClient H) (x509 : option X509) : ProvisioningAuth :=
  match x509 with
  | Some x => X509Auth x
  | None => SymmetricKeyAuth (_keyORCert c)
  end.

(** The connection string and the hub client for a registration. *)
Definition connection_string_of (c : IoTCClient H) (reg : RegistrationResult)
  : ConnectionString :=
  mkConnectionString (assigned_hub reg) (_deviceId c) (_keyORCert c).

Definition hub_client_of (c : IoTCClient H) (x509 : option X509)
           (reg : RegistrationResult) : result IoTHubDeviceClient :=
  if symmetric (_credType c) then Ok (FromConnectionString (connection_string_of c reg))
  else match x509 with
       | Some x => Ok (FromX509Certificate x (assigned_hub reg) (device_id reg))
       | None => Err UnboundLocalError
       end.

(** The two listener threads. *)
Definition listener_threads : list event :=
  [ThreadStarted (mkThread PropertiesListener true);
   ThreadStarted (mkThread CommandsListener true)].



End Built.

(** ** More sample devices *)

Module Devices.

(** A device that holds its own key, which is not base64. *)
Definition keyed : IoTCClient unit :=
  __init__ "device1" "0ne000AAAAA" IOTCConnectType.IOTC_CONNECT_DEVICE_KEY
           (KeyStr "not base64!") None.

(** A device with a certificate and no passphrase. *)
Definition certified : IoTCClient unit :=
  __init__ "device1" "0ne000AAAAA" IOTCConnectType.IOTC_CONNECT_X509_CERT
           (Certificate [("keyFile", PyStr "key.pem");
                         ("certFile", PyStr "cert.pem")]) None.

(** A certificate device whose key material lacks the key file. *)
Definition keyless : IoTCClient unit :=
  __init__ "device1" "0ne000AAAAA" IOTCConnectType.IOTC_CONNECT_X509_CERT
           (Certificate [("certFile", PyStr "cert.pem")]) None.

End Devices.

(** ** Listener passes *)

(** What [n] passes of a listener without a callback leave in the
    history: each pass writes what the logger lets through of the message,
    then sleeps 10 seconds. *)
Fixpoint idle_passes (n : nat) (prints : list event) : list event :=
  match n with
  | O => []
  | S n' => prints ++ Sleep 10 :: idle_passes n' prints
  end.

(** The payload [_cmdAck] sends for one call of [ack]. *)
Definition ack_payload (a : ack_call) : pyval :=
  PyDict [(ack_name a, PyDict [("value", ack_value a);
                               ("requestId", ack_requestId a)])].

(** The events of a command that is received, answered and handed to the
    callback. *)
Definition served (r : MethodRequest) : list event :=
  [ReceivedMethod r; SentMethodResponse (command_received r); CalledCommand r].

(** ** What a computation does to the world, as a relation *)

Section Relations.

Context {H : Type}.

(** The world after the computation stands in [R] to the world before,
    however the computation ends. *)
Definition relates {A} (R : World H -> World H -> Prop) (m : M H A) : Prop :=
  forall w, R w (fst (m w)).

(** The second world has the queues of the first, less [n] patches and
    [k] method requests taken from the front. *)
Definition consumed (n k : nat) (w w' : World H) : Prop :=
  twin_patches w' = skipn n (twin_patches w)
  /\ method_requests w' = skipn k (method_requests w).

End Relations.

(** ** Deriving again *)

(** The key material after [n] derivations for the same registration id:
    each one is the HMAC-SHA256 of the id under the result of the one
    before. *)
Fixpoint rederive (regId : string) (n : nat) (key : list byte) : list byte :=
  match n with
  | O => key
  | S n' => HMAC.hmac_sha256 (rederive regId n' key) (bytes_of_str regId)
  end.

(** ** [connect] with any logger *)

(** The methods above are embedded with the console logger of the module
    behind [self._logger], and they take a call of the logger to return
    and a thread to start.  The constructor keeps whatever logger the
    caller passes, and [Thread.start()] can raise.  [connect] is embedded
    here a second time, line by line as above, over the two methods of the
    logger and the start of a thread: with the console logger and threads
    that start, it is the [connect] above. *)

Section AnyLogger.

Context {H : Type}.
Variable env : Environment.
Variable gIsMicroPython : bool.

(** [self._logger.debug], [self._logger.info] and [thread.start()]. *)
Variable debug info : text -> M H unit.
Variable start : Thread -> M H unit.

Definition _computeDerivedSymmetricKey_with (secret : keymaterial) (regId : string)
  : M H keymaterial :=
  secret <- try_except (lift (b64decode secret))
              (fun _ =>
                 message <- lift (broken_secret_message secret) ;;
                 debug message ;;
                 raise SystemExit) ;;
  let digest := HMAC.hmac_sha256 secret (bytes_of_str regId) in
  if negb gIsMicroPython
  then ret (KeyStr (str_of_bytes (b64encode digest)))
  else ret (KeyBytes (b64encode digest)).

Definition connect_credentials_with : M H (option X509) :=
  c <- get_self ;;
  if symmetric (_credType c) then
    (if _credType c =? IOTCConnectType.IOTC_CONNECT_SYMM_KEY then
       key <- _computeDerivedSymmetricKey_with (_keyORCert c) (_deviceId c) ;;
       set_self (set_keyORCert key) ;;
       c <- get_self ;;
       debug (Format "Device key: {}" [ArgKey (_keyORCert c)])
     else ret tt) ;;
    c <- get_self ;;
    let pc := mkProvisioning (_globalEndpoint c) (_deviceId c) (_scopeId c)
                             (SymmetricKeyAuth (_keyORCert c)) None in
    h <- get_history ;;
    check (create_provisioning env h pc) ;;
    set_self (set_provisioningClient (Some pc)) ;;
    ret None
  else
    keyfile <- lift (key_subscript (_keyORCert c) "keyFile") ;;
    set_self (set_keyfile (Some keyfile)) ;;
    certfile <- lift (key_subscript (_keyORCert c) "certFile") ;;
    set_self (set_certfile (Some certfile)) ;;
    x509 <- try_except
              (certPhrase <- lift (key_subscript (_keyORCert c) "certPhrase") ;;
               set_self (set_certPhrase (Some certPhrase)) ;;
               new_X509 env (mkX509 certfile keyfile (Some certPhrase)))
              (fun _ =>
                 debug
                   (Lit "No passphrase available for certificate. Trying without it") ;;
                 new_X509 env (mkX509 certfile keyfile None)) ;;
    c <- get_self ;;
    let pc := mkProvisioning (_globalEndpoint c) (_deviceId c) (_scopeId c)
                             (X509Auth x509) None in
    h <- get_history ;;
    check (create_provisioning env h pc) ;;
    set_self (set_provisioningClient (Some pc)) ;;
    ret (Some x509).

Definition connect_provision_with (x509 : option X509) : M H unit :=
  try_except
    (pc <- provisioning_client ;;
     h <- get_history ;;
     emit (Registered pc) ;;
     registration_result <- lift (register env h pc) ;;
     let assigned_hub := assigned_hub registration_result in
     debug (Lit assigned_hub) ;;
     c <- get_self ;;
     let cs := mkConnectionString assigned_hub (_deviceId c) (_keyORCert c) in
     set_self (set_hubCString (Some cs)) ;;
     debug (Format "IoTHub Connection string: {}"
                   [ArgStr "HostName={};DeviceId={};SharedAccessKey={}";
                    ArgStr assigned_hub; ArgStr (_deviceId c);
                    ArgKey (_keyORCert c)]) ;;
     dc <- (if symmetric (_credType c) then ret (FromConnectionString cs)
            else match x509 with
                 | Some x => ret (FromX509Certificate
                                    x assigned_hub (device_id registration_result))
                 | None => raise UnboundLocalError
                 end) ;;
     h <- get_history ;;
     check (create_hub_client env h dc) ;;
     set_self (set_deviceClient (Some dc)))
    (fun v =>
       info (Lit "ERROR: Failed to get device provisioning information") ;;
       raise (rebuild v)).

(** The call of [debug] comes after the assignment of the flag, inside
    the [try]. *)
Definition connect_hub_with : M H unit :=
  try_except
    (dc <- device_client ;;
     h <- get_history ;;
     emit (HubConnected dc) ;;
     check (hub_connect env h dc) ;;
     set_self (set_connected true) ;;
     debug (Lit "Device connected"))
    (fun v =>
       info (Lit "ERROR: Failed to connect to Hub") ;;
       raise (rebuild v)).

(** Each thread is assigned to its attribute before it is started. *)
Definition connect_listeners_with : M H unit :=
  let propThread := mkThread PropertiesListener true in
  set_self (set_propThread (Some propThread)) ;;
  start propThread ;;
  let cmdThread := mkThread CommandsListener true in
  set_self (set_cmdThread (Some cmdThread)) ;;
  start cmdThread.

Definition connect_with : M H unit :=
  x509 <- connect_credentials_with ;;
  connect_model ;;
  connect_provision_with x509 ;;
  connect_hub_with ;;
  connect_listeners_with.

End AnyLogger.

(** What the logger and the threads of a run do: what a call of [debug]
    or of [info] with a message raises, and what the start of a thread
    raises, after the history so far. *)
Record Runtime : Type := mkRuntime {
  debug_call : list event -> text -> option exn;
  info_call : list event -> text -> option exn;
  thread_start : list event -> Thread -> option exn
}.

Section Run.

Context {H : Type}.
Variable rt : Runtime.

(** A call of the logger raises, or writes what the console logger
    writes. *)
Definition logger_debug_on (message : text) : M H unit :=
  h <- get_history ;;
  check (debug_call rt h message) ;;
  logger_debug message.

Definition logger_info_on (message : text) : M H unit :=
  h <- get_history ;;
  check (info_call rt h message) ;;
  logger_info message.

(** The start of a thread raises, or the thread runs. *)
Definition start_on (thread : Thread) : M H unit :=
  h <- get_history ;;
  check (thread_start rt h thread) ;;
  emit (ThreadStarted thread).

Definition connect_on (env : Environment) (gIsMicroPython : bool) : M H unit :=
  connect_with env gIsMicroPython logger_debug_on logger_info_on start_on.

End Run.

(** A logger whose calls return and threads that start. *)
Definition quiet : Runtime :=
  mkRuntime (fun _ _ => None) (fun _ _ => None) (fun _ _ => None).

(** A logger whose [debug] cannot write the line that follows the
    connection, and threads that start. *)
Definition muted : Runtime :=
  mkRuntime (fun _ message =>
               match message with
               | Lit "Device connected" => Some (ExternalError "closed stream")
               | _ => None
               end)
            (fun _ _ => None) (fun _ _ => None).

(** A system that starts no second thread. *)
Definition crowded : Runtime :=
  mkRuntime (fun _ _ => None) (fun _ _ => None)
            (fun _ thread =>
               match target thread with
               | CommandsListener => Some (ExternalError "can't start new thread")
               | PropertiesListener => None
               end).

(** * Properties *)

(** ** What a computation leaves alone *)

Section Keeps.

Context {H : Type} {X : Type}.

(** An observation of the client, such as one of its attributes. *)
Variable g : IoTCClient H -> X.

Lemma keeps_ret {A} (a : A) : keeps g (ret a).
Proof. intro w; reflexivity. Qed.

Lemma keeps_raise {A} (e : exn) : keeps g (@raise H A e).
Proof. intro w; reflexivity. Qed.

Lemma keeps_bind {A B} (m : M H A) (k : A -> M H B) :
  keeps g m -> (forall a, keeps g (k a)) -> keeps g (bind m k).
Proof.
  intros Hm Hk w. unfold bind.
  specialize (Hm w). destruct (m w) as [w' [a|e|]]; simpl in *; auto.
  rewrite <- Hm. apply Hk.
Qed.

Lemma keeps_try_except {A} (m : M H A) (handler : exn -> M H A) :
  keeps g m -> (forall e, keeps g (handler e)) -> keeps g (try_except m handler).
Proof.
  intros Hm Hh w. unfold try_except.
  specialize (Hm w). destruct (m w) as [w' [a|e|]]; simpl in *; auto.
  rewrite <- Hm. apply Hh.
Qed.

Lemma keeps_lift {A} (r : result A) : keeps g (@lift H A r).
Proof. destruct r; intro w; reflexivity. Qed.

Lemma keeps_check (r : option exn) : keeps g (@check H r).
Proof. destruct r; intro w; reflexivity. Qed.

Lemma keeps_get_self : keeps g (@get_self H).
Proof. intro w; reflexivity. Qed.

Lemma keeps_get_history : keeps g (@get_history H).
Proof. intro w; reflexivity. Qed.

Lemma keeps_emit (e : event) : keeps g (@emit H e).
Proof. intro w; reflexivity. Qed.

Lemma keeps_set_self (u : IoTCClient H -> IoTCClient H) :
  (forall c, g (u c) = g c) -> keeps g (set_self u).
Proof. intros Hu w; simpl; apply Hu. Qed.

Lemma keeps_emit_all (es : list event) : keeps g (@emit_all H es).
Proof.
  induction es as [|e es IH]; simpl.
  - apply keeps_ret.
  - apply keeps_bind; [apply keeps_emit | intros _; exact IH].
Qed.

Lemma keeps_for_each {A} (l : list A) (body : A -> M H unit) :
  (forall x, keeps g (body x)) -> keeps g (for_each l body).
Proof.
  intro Hb. induction l as [|x l IH]; simpl.
  - apply keeps_ret.
  - apply keeps_bind; [apply Hb | intros _; exact IH].
Qed.

Lemma keeps_invoke (cb : callback H) (args : arguments) : keeps g (invoke cb args).
Proof. intro w; reflexivity. Qed.

Lemma keeps_sleep (seconds : Z) : keeps g (@sleep H seconds).
Proof. apply keeps_emit. Qed.

Lemma keeps_logger_debug (message : text) : keeps g (@logger_debug H message).
Proof.
  apply keeps_bind; [apply keeps_get_self | intro; apply keeps_emit_all].
Qed.

Lemma keeps_logger_info (message : text) : keeps g (@logger_info H message).
Proof.
  apply keeps_bind; [apply keeps_get_self | intro; apply keeps_emit_all].
Qed.

Lemma keeps_device_client : keeps g (@device_client H).
Proof.
  apply keeps_bind; [apply keeps_get_self | intro c].
  destruct (_deviceClient c); [apply keeps_ret | apply keeps_raise].
Qed.

Lemma keeps_provisioning_client : keeps g (@provisioning_client H).
Proof.
  apply keeps_bind; [apply keeps_get_self | intro c].
  destruct (_provisioningClient c); [apply keeps_ret | apply keeps_raise].
Qed.

Lemma keeps_receive_patch : keeps g (@receive_twin_desired_properties_patch H).
Proof.
  apply keeps_bind; [apply keeps_device_client | intros _ w].
  destruct (twin_patches w) as [|[p|e] rest]; reflexivity.
Qed.

Lemma keeps_receive_method : keeps g (@receive_method_request H).
Proof.
  apply keeps_bind; [apply keeps_device_client | intros _ w].
  destruct (method_requests w) as [|[p|e] rest]; reflexivity.
Qed.

End Keeps.

Create HintDb keeps.
#[export] Hint Resolve keeps_ret keeps_raise keeps_lift keeps_check
  keeps_get_self keeps_get_history keeps_emit keeps_emit_all keeps_invoke
  keeps_sleep keeps_logger_debug keeps_logger_info keeps_device_client
  keeps_provisioning_client keeps_receive_patch keeps_receive_method : keeps.

(** Goes through a computation along its binds, handlers and branches. *)
Ltac keeps_step :=
  match goal with
  | |- keeps _ (bind _ _) => apply keeps_bind; [| intro]
  | |- keeps _ (try_except _ _) => apply keeps_try_except; [| intro]
  | |- keeps _ (for_each _ _) => apply keeps_for_each; intro
  | |- keeps _ (set_self _) => apply keeps_set_self; intro; reflexivity
  | |- keeps _ (if ?b then _ else _) => destruct b
  | |- keeps _ (match ?x with _ => _ end) => destruct x
  | |- keeps _ _ => solve [auto with keeps]
  end.

Ltac keeps_all := repeat keeps_step.

(** ** The connected flag through the methods *)

Section Connected.

Context {H : Type}.
Variable env : Environment.
Variable gIsMicroPython : bool.

Local Abbreviation flag_kept := (keeps (@_connected H)).









Lemma connect_listeners_keeps_flag : flag_kept (@connect_listeners H).
Proof. unfold connect_listeners. keeps_all. Qed.










End Connected.

(** ** Calls that cannot suspend *)

Section Unblocked.

Context {H : Type}.

Lemma unblocked_ret {A} (a : A) : unblocked (@ret H A a).
Proof. intro w; discriminate. Qed.

Lemma unblocked_raise {A} (e : exn) : unblocked (@raise H A e).
Proof. intro w; discriminate. Qed.

Lemma unblocked_bind {A B} (m : M H A) (k : A -> M H B) :
  unblocked m -> (forall a, unblocked (k a)) -> unblocked (bind m k).
Proof.
  intros Hm Hk w. unfold bind. specialize (Hm w).
  destruct (m w) as [w' [a|e|]]; simpl in *;
    [apply Hk | discriminate | congruence].
Qed.

Lemma unblocked_try_except {A} (m : M H A) (handler : exn -> M H A) :
  unblocked m -> (forall e, unblocked (handler e)) ->
  unblocked (try_except m handler).
Proof.
  intros Hm Hh w. unfold try_except. specialize (Hm w).
  destruct (m w) as [w' [a|e|]]; simpl in *;
    [discriminate | apply Hh | congruence].
Qed.

Lemma unblocked_lift {A} (r : result A) : unblocked (@lift H A r).
Proof. destruct r; intro w; discriminate. Qed.

Lemma unblocked_check (r : option exn) : unblocked (@check H r).
Proof. destruct r; intro w; discriminate. Qed.

Lemma unblocked_get_self : unblocked (@get_self H).
Proof. intro w; discriminate. Qed.

Lemma unblocked_get_history : unblocked (@get_history H).
Proof. intro w; discriminate. Qed.

Lemma unblocked_emit (e : event) : unblocked (@emit H e).
Proof. intro w; discriminate. Qed.

Lemma unblocked_set_self (u : IoTCClient H -> IoTCClient H) :
  unblocked (set_self u).
Proof. intro w; discriminate. Qed.

Lemma unblocked_emit_all (es : list event) : unblocked (@emit_all H es).
Proof.
  induction es as [|e es IH]; simpl.
  - apply unblocked_ret.
  - apply unblocked_bind; [apply unblocked_emit | intros _; exact IH].
Qed.

Lemma unblocked_for_each {A} (l : list A) (body : A -> M H unit) :
  (forall x, unblocked (body x)) -> unblocked (for_each l body).
Proof.
  intro Hb. induction l as [|x l IH]; simpl.
  - apply unblocked_ret.
  - apply unblocked_bind; [apply Hb | intros _; exact IH].
Qed.

Lemma unblocked_invoke (cb : callback H) (args : arguments) :
  unblocked (invoke cb args).
Proof. intro w; discriminate. Qed.

Lemma unblocked_logger_debug (message : text) :
  unblocked (@logger_debug H message).
Proof.
  apply unblocked_bind; [apply unblocked_get_self | intro; apply unblocked_emit_all].
Qed.

Lemma unblocked_logger_info (message : text) :
  unblocked (@logger_info H message).
Proof.
  apply unblocked_bind; [apply unblocked_get_self | intro; apply unblocked_emit_all].
Qed.

Lemma unblocked_device_client : unblocked (@device_client H).
Proof.
  apply unblocked_bind; [apply unblocked_get_self | intro c].
  destruct (_deviceClient c); [apply unblocked_ret | apply unblocked_raise].
Qed.

Lemma unblocked_provisioning_client : unblocked (@provisioning_client H).
Proof.
  apply unblocked_bind; [apply unblocked_get_self | intro c].
  destruct (_provisioningClient c); [apply unblocked_ret | apply unblocked_raise].
Qed.

End Unblocked.

Create HintDb unblocked.
#[export] Hint Resolve unblocked_ret unblocked_raise unblocked_lift
  unblocked_check unblocked_get_self unblocked_get_history unblocked_emit
  unblocked_set_self unblocked_emit_all unblocked_invoke
  unblocked_logger_debug unblocked_logger_info unblocked_device_client
  unblocked_provisioning_client : unblocked.

Ltac unblocked_step :=
  match goal with
  | |- unblocked (bind _ _) => apply unblocked_bind; [| intro]
  | |- unblocked (try_except _ _) => apply unblocked_try_except; [| intro]
  | |- unblocked (for_each _ _) => apply unblocked_for_each; intro
  | |- unblocked (if ?b then _ else _) => destruct b
  | |- unblocked (match ?x with _ => _ end) => destruct x
  | |- unblocked _ => solve [auto with unblocked]
  end.

Ltac unblocked_all := repeat unblocked_step.

(** Unfolds the plumbing of the monad. *)
Ltac unfold_m :=
  unfold try_except, bind, ret, raise, block, lift, check, get_self,
    get_history, set_self, emit in *.

Section Connect.

Context {H : Type}.
Variable env : Environment.
Variable gIsMicroPython : bool.

Lemma connect_unblocked : unblocked (@connect H env gIsMicroPython).
Proof.
  unfold connect, connect_credentials, connect_model, connect_provision,
    connect_hub, connect_listeners, _computeDerivedSymmetricKey, new_X509.
  unblocked_all.
Qed.

(** Printing changes the history only. *)
Lemma emit_all_run (es : list event) (w : World H) :
  emit_all es w
  = (mkWorld (self w) (app w) (history w ++ es) (twin_patches w)
             (method_requests w), Return tt).
Proof.
  revert w. induction es as [|e es IH]; intro w; simpl.
  - unfold ret. rewrite app_nil_r. destruct w; reflexivity.
  - unfold bind, emit. rewrite IH. simpl. rewrite <- app_assoc. reflexivity.
Qed.

Lemma logger_debug_run (message : text) (w : World H) :
  logger_debug message w
  = (mkWorld (self w) (app w)
             (history w ++ map Print (ConsoleLogger.debug (_logger (self w)) message))
             (twin_patches w) (method_requests w), Return tt).
Proof. unfold logger_debug, bind, get_self. apply emit_all_run. Qed.

Lemma logger_info_run (message : text) (w : World H) :
  logger_info message w
  = (mkWorld (self w) (app w)
             (history w ++ map Print (ConsoleLogger.info (_logger (self w)) message))
             (twin_patches w) (method_requests w), Return tt).
Proof. unfold logger_info, bind, get_self. apply emit_all_run. Qed.


Lemma connect_listeners_returns (w : World H) :
  snd (connect_listeners w) = Return tt.
Proof. reflexivity. Qed.


End Connect.

Section ConnectFailures.

Context {H : Type}.
Variable env : Environment.
Variable gIsMicroPython : bool.












End ConnectFailures.

(** ** The console logger *)

(** C8.  For each of the three log levels and every message: [debug]
    prints the message exactly when the level is ALL, [info] prints it
    exactly when the level is API_ONLY or ALL, a call that does not print
    the message prints nothing, and at DISABLED neither prints. *)
Theorem ConsoleLogger_levels (level : Z) (message : text) :
  In level [IOTCLogLevel.IOTC_LOGGING_DISABLED;
            IOTCLogLevel.IOTC_LOGGING_API_ONLY;
            IOTCLogLevel.IOTC_LOGGING_ALL] ->
  let logger := ConsoleLogger.mk level in
  (ConsoleLogger.debug logger message = [message]
   <-> level = IOTCLogLevel.IOTC_LOGGING_ALL)
  /\ (ConsoleLogger.debug logger message = []
      <-> level <> IOTCLogLevel.IOTC_LOGGING_ALL)
  /\ (ConsoleLogger.info logger message = [message]
      <-> level = IOTCLogLevel.IOTC_LOGGING_API_ONLY
          \/ level = IOTCLogLevel.IOTC_LOGGING_ALL)
  /\ (ConsoleLogger.info logger message = []
      <-> level = IOTCLogLevel.IOTC_LOGGING_DISABLED)
  /\ (level = IOTCLogLevel.IOTC_LOGGING_DISABLED ->
      ConsoleLogger.info logger message = []
      /\ ConsoleLogger.debug logger message = []).
Proof.
  unfold IOTCLogLevel.IOTC_LOGGING_DISABLED, IOTCLogLevel.IOTC_LOGGING_API_ONLY,
    IOTCLogLevel.IOTC_LOGGING_ALL.
  intros [<- | [<- | [<- | []]]]; cbv zeta;
    unfold ConsoleLogger.debug, ConsoleLogger.info, ConsoleLogger._log; simpl;
    repeat split; intros; try reflexivity; try discriminate; try lia;
    try (left; reflexivity); try (right; reflexivity);
    try match goal with
        | K : _ \/ _ |- _ => destruct K; discriminate
        end.
Qed.

Lemma ConsoleLogger_levels_witness :
  ConsoleLogger.debug (ConsoleLogger.mk 2) (Lit "ready") = []
  /\ ConsoleLogger.info (ConsoleLogger.mk 2) (Lit "ready") = [Lit "ready"].
Proof.
  assert (K : In 2 [IOTCLogLevel.IOTC_LOGGING_DISABLED;
                    IOTCLogLevel.IOTC_LOGGING_API_ONLY;
                    IOTCLogLevel.IOTC_LOGGING_ALL])
    by (right; left; reflexivity).
  destruct (ConsoleLogger_levels 2 (Lit "ready") K) as (_ & D & I & _).
  split.
  - apply D. discriminate.
  - apply I. left. reflexivity.
Defined.

(** ** The connected flag *)




(** The sample device comes online. *)
Example connect_sample_online :
  fst (connect Sample.friendly false (Sample.boot Sample.device)) = Sample.online.
Proof. vm_compute. reflexivity. Qed.

(** The three outcomes of [connect], on the sample device. *)
Example connect_succeeds :
  snd (connect Sample.friendly false (Sample.boot Sample.device)) = Return tt
  /\ isConnected (self (fst (connect Sample.friendly false
                                     (Sample.boot Sample.device)))) = true.
Proof. vm_compute. split; reflexivity. Qed.

Example connect_rejected_example :
  snd (connect Sample.unregistered false (Sample.boot Sample.device))
  = Raise (Rebuilt (ExternalError "registration rejected")).
Proof. vm_compute. reflexivity. Qed.

Example connect_refused_example :
  snd (connect Sample.unreachable false (Sample.boot Sample.device))
  = Raise (Rebuilt (ExternalError "connection refused")).
Proof. vm_compute. reflexivity. Qed.

(** A failure whose class is not built from one argument reaches the
    caller as the TypeError of [t(v)]; the flag stays false. *)
Example connect_garbled_example :
  snd (connect Sample.garbled false (Sample.boot Sample.device)) = Raise TypeError
  /\ isConnected (self (fst (connect Sample.garbled false
                                     (Sample.boot Sample.device)))) = false.
Proof. vm_compute. split; reflexivity. Qed.

Section Monotone.

Context {H : Type}.
Variable env : Environment.
Variable gIsMicroPython : bool.





End Monotone.



(** The properties listener of the witness has ended on the failure of
    the session, and the client still says it is connected. *)
Example listener_ends_flag_stays :
  let w := perform_all Sample.friendly false
             [Call_on IOTC_PROPERTIES Sample.accept;
              Hub_queues_patch (Err Sample.session_terminated)]
             Sample.online in
  snd (_onProperties Sample.friendly 5 w) = Died Sample.session_terminated
  /\ isConnected (self (fst (_onProperties Sample.friendly 5 w))) = true.
Proof. vm_compute. split; reflexivity. Qed.

(** ** base64: what is encoded decodes back *)

Section Base64Facts.

Import Base64.

Lemma byte_of_to_Z (b : byte) : byte_of_Z (byte_to_Z b) = b.
Proof.
  unfold byte_of_Z, byte_to_Z.
  pose proof (Byte.to_N_bounded b) as Hb.
  rewrite Z.mod_small by lia.
  rewrite N2Z.id, Byte.of_to_N. reflexivity.
Qed.

Lemma all_bytes_complete (b : byte) : In b all_bytes.
Proof.
  unfold all_bytes. rewrite <- (byte_of_to_Z b).
  apply in_map_iff. exists (Z.to_nat (byte_to_Z b)). split.
  - f_equal. apply Z2Nat.id. unfold byte_to_Z. lia.
  - apply in_seq. pose proof (Byte.to_N_bounded b). unfold byte_to_Z. lia.
Qed.

Lemma forall_byte_spec (P : byte -> bool) :
  forall_byte P = true -> forall b, P b = true.
Proof.
  unfold forall_byte. rewrite forallb_forall. intros Hall b.
  apply Hall, all_bytes_complete.
Qed.

Lemma forall_byte2_spec (P : byte -> byte -> bool) :
  forall_byte2 P = true -> forall a b, P a b = true.
Proof.
  unfold forall_byte2. intros Hall a b.
  apply (forall_byte_spec (P a)). apply (forall_byte_spec _ Hall).
Qed.

(** A character of the alphabet is not the pad and decodes to its index. *)
Lemma a2b_b2a (n : Z) :
  0 <= n < 64 ->
  Byte.eqb (b2a n) BASE64_PAD = false /\ table_a2b_base64 (b2a n) = Some n.
Proof.
  intro Hn.
  assert (K : forallb (fun k =>
                negb (Byte.eqb (b2a (Z.of_nat k)) BASE64_PAD)
                && match table_a2b_base64 (b2a (Z.of_nat k)) with
                   | Some m => m =? Z.of_nat k
                   | None => false
                   end) (seq 0 64) = true) by (vm_compute; reflexivity).
  rewrite forallb_forall in K.
  specialize (K (Z.to_nat n)). rewrite Z2Nat.id in K by lia.
  assert (I : In (Z.to_nat n) (seq 0 64)) by (apply in_seq; lia).
  apply K in I. apply andb_true_iff in I. destruct I as [I1 I2].
  split.
  - destruct (Byte.eqb (b2a n) BASE64_PAD); [discriminate | reflexivity].
  - destruct (table_a2b_base64 (b2a n)) as [m|]; [|discriminate].
    apply Z.eqb_eq in I2. congruence.
Qed.

Lemma in6_spec z : in6 z = true -> 0 <= z < 64.
Proof. unfold in6. rewrite andb_true_iff, Z.leb_le, Z.ltb_lt. tauto. Qed.

Lemma quad_ok_all : forall_byte2 quad_ok = true.
Proof. vm_compute. reflexivity. Qed.

Lemma quad_facts (x y : byte) :
  let X := byte_to_Z x in
  let Y := byte_to_Z y in
  let second := Z.lor (Z.shiftl (Z.land X 3) 4) (Z.shiftr Y 4) in
  let third := Z.lor (Z.shiftl (Z.land X 15) 2) (Z.shiftr Y 6) in
  (0 <= Z.shiftr X 2 < 64) /\ (0 <= second < 64)
  /\ (0 <= Z.shiftl (Z.land X 3) 4 < 64)
  /\ (0 <= third < 64) /\ (0 <= Z.shiftl (Z.land X 15) 2 < 64)
  /\ (0 <= Z.land X 63 < 64)
  /\ byte_of_Z (Z.lor (Z.shiftl (Z.shiftr X 2) 2) (Z.shiftr second 4)) = x
  /\ byte_of_Z (Z.lor (Z.shiftl (Z.shiftr X 2) 2)
                      (Z.shiftr (Z.shiftl (Z.land X 3) 4) 4)) = x
  /\ Z.land second 15 = Z.shiftr Y 4
  /\ byte_of_Z (Z.lor (Z.shiftl (Z.shiftr X 4) 4) (Z.shiftr third 2)) = x
  /\ byte_of_Z (Z.lor (Z.shiftl (Z.shiftr X 4) 4)
                      (Z.shiftr (Z.shiftl (Z.land X 15) 2) 2)) = x
  /\ Z.land third 3 = Z.shiftr Y 6
  /\ Z.land (Z.shiftl (Z.land X 3) 4) 15 = 0
  /\ Z.land (Z.shiftl (Z.land X 15) 2) 3 = 0
  /\ byte_of_Z (Z.lor (Z.shiftl (Z.shiftr X 6) 6) (Z.land X 63)) = x.
Proof.
  pose proof (forall_byte2_spec quad_ok quad_ok_all x y) as K.
  unfold quad_ok in K. cbv zeta in *.
  repeat (apply andb_true_iff in K; destruct K as [K ?]).
  repeat match goal with
         | I : in6 _ = true |- _ => apply in6_spec in I
         end.
  repeat split;
    solve [ apply Byte.byte_dec_bl; assumption
          | apply Z.eqb_eq; assumption
          | lia ].
Qed.

(** One character of the alphabet through the decoder. *)
Lemma a2b_loop_data (n : Z) rest quad_pos leftchar pads bin_data :
  0 <= n < 64 ->
  a2b_loop (b2a n :: rest) quad_pos leftchar pads bin_data
  = if quad_pos =? 0 then a2b_loop rest 1 n 0 bin_data
    else if quad_pos =? 1 then
      a2b_loop rest 2 (Z.land n 15) 0
        (byte_of_Z (Z.lor (Z.shiftl leftchar 2) (Z.shiftr n 4)) :: bin_data)
    else if quad_pos =? 2 then
      a2b_loop rest 3 (Z.land n 3) 0
        (byte_of_Z (Z.lor (Z.shiftl leftchar 4) (Z.shiftr n 2)) :: bin_data)
    else
      a2b_loop rest 0 0 0
        (byte_of_Z (Z.lor (Z.shiftl leftchar 6) n) :: bin_data).
Proof.
  intro Hn. destruct (a2b_b2a n Hn) as [E1 E2].
  cbn [a2b_loop]. rewrite E1, E2. reflexivity.
Qed.

Lemma a2b_b2a_base64_gen (n : nat) :
  forall l, (List.length l <= n)%nat ->
  forall leftchar pads bin_data,
    a2b_loop (b2a_base64 l) 0 leftchar pads bin_data = Ok (rev bin_data ++ l).
Proof.
  induction n as [|n IH]; intros l Hl leftchar pads bin_data.
  - destruct l; [|simpl in Hl; lia]. simpl. rewrite app_nil_r. reflexivity.
  - destruct l as [|a [|b [|c rest]]].
    + simpl. rewrite app_nil_r. reflexivity.
    + pose proof (quad_facts a a) as Q. cbv zeta in Q.
      destruct Q as (R0 & _ & R1 & _ & _ & _ & _ & D1 & _).
      cbn [b2a_base64].
      rewrite a2b_loop_data by assumption. cbn [Z.eqb].
      rewrite a2b_loop_data by assumption. cbn [Z.eqb Pos.eqb].
      rewrite D1. simpl. reflexivity.
    + pose proof (quad_facts a b) as Q. cbv zeta in Q.
      destruct Q as (R0 & R1 & _ & _ & _ & _ & D1 & _ & L1 & _).
      pose proof (quad_facts b b) as Q. cbv zeta in Q.
      destruct Q as (_ & _ & _ & _ & R2 & _ & _ & _ & _ & _ & D2 & _).
      cbn [b2a_base64].
      rewrite a2b_loop_data by assumption. cbn [Z.eqb].
      rewrite a2b_loop_data by assumption. cbn [Z.eqb Pos.eqb].
      rewrite a2b_loop_data by assumption. cbn [Z.eqb Pos.eqb].
      rewrite D1, L1, D2. simpl. rewrite <- app_assoc. reflexivity.
    + pose proof (quad_facts a b) as Q. cbv zeta in Q.
      destruct Q as (R0 & R1 & _ & _ & _ & _ & D1 & _ & L1 & _).
      pose proof (quad_facts b c) as Q. cbv zeta in Q.
      destruct Q as (_ & _ & _ & R2 & _ & _ & _ & _ & _ & D2 & _ & L2 & _).
      pose proof (quad_facts c c) as Q. cbv zeta in Q.
      destruct Q as (_ & _ & _ & _ & _ & R3 & _ & _ & _ & _ & _ & _ & _ & _ & D3).
      cbn [b2a_base64].
      rewrite a2b_loop_data by assumption. cbn [Z.eqb].
      rewrite a2b_loop_data by assumption. cbn [Z.eqb Pos.eqb].
      rewrite a2b_loop_data by assumption. cbn [Z.eqb Pos.eqb].
      rewrite a2b_loop_data by assumption. cbn [Z.eqb Pos.eqb].
      rewrite D1, L1, D2, L2, D3.
      rewrite IH by (simpl in Hl; lia).
      simpl. rewrite <- !app_assoc. reflexivity.
Qed.

(** Decoding what was encoded gives the bytes back. *)
Lemma a2b_b2a_base64 (l : list byte) : a2b_base64 (b2a_base64 l) = Ok l.
Proof.
  unfold a2b_base64. rewrite (a2b_b2a_base64_gen (List.length l)) by lia.
  reflexivity.
Qed.

Lemma b2a_char (n : Z) :
  0 <= n < 64 -> alphabet (b2a n) = true /\ (byte_to_Z (b2a n) <? 128) = true.
Proof.
  intro Hn.
  assert (K : forallb (fun k =>
                alphabet (b2a (Z.of_nat k)) && (byte_to_Z (b2a (Z.of_nat k)) <? 128))
                (seq 0 64) = true) by (vm_compute; reflexivity).
  rewrite forallb_forall in K.
  specialize (K (Z.to_nat n)). rewrite Z2Nat.id in K by lia.
  apply andb_true_iff, K, in_seq. lia.
Qed.

(** The encoder writes canonical base64, in ASCII. *)
Lemma b2a_base64_text_gen (n : nat) :
  forall l, (List.length l <= n)%nat ->
    forallb alphabet (b2a_base64 l) = true
    /\ is_ascii (b2a_base64 l) = true
    /\ (List.length (b2a_base64 l) mod 4 = 0)%nat.
Proof.
  induction n as [|n IH]; intros l Hl.
  - destruct l; [|simpl in Hl; lia]. repeat split.
  - destruct l as [|a [|b [|c rest]]].
    + repeat split.
    + pose proof (quad_facts a a) as Q. cbv zeta in Q.
      destruct Q as (R0 & _ & R1 & _).
      destruct (b2a_char _ R0) as [A0 B0]. destruct (b2a_char _ R1) as [A1 B1].
      cbn [b2a_base64 forallb is_ascii List.length].
      rewrite A0, A1, B0, B1. repeat split.
    + pose proof (quad_facts a b) as Q. cbv zeta in Q.
      destruct Q as (R0 & R1 & _).
      pose proof (quad_facts b b) as Q. cbv zeta in Q.
      destruct Q as (_ & _ & _ & _ & R2 & _).
      destruct (b2a_char _ R0) as [A0 B0]. destruct (b2a_char _ R1) as [A1 B1].
      destruct (b2a_char _ R2) as [A2 B2].
      cbn [b2a_base64 forallb is_ascii List.length].
      rewrite A0, A1, A2, B0, B1, B2. repeat split.
    + pose proof (quad_facts a b) as Q. cbv zeta in Q.
      destruct Q as (R0 & R1 & _).
      pose proof (quad_facts b c) as Q. cbv zeta in Q.
      destruct Q as (_ & _ & _ & R2 & _).
      pose proof (quad_facts c c) as Q. cbv zeta in Q.
      destruct Q as (_ & _ & _ & _ & _ & R3 & _).
      destruct (b2a_char _ R0) as [A0 B0]. destruct (b2a_char _ R1) as [A1 B1].
      destruct (b2a_char _ R2) as [A2 B2]. destruct (b2a_char _ R3) as [A3 B3].
      destruct (IH rest) as (I1 & I2 & I3); [simpl in Hl; lia|].
      cbn [b2a_base64 forallb is_ascii List.length].
      unfold is_ascii in I2.
      rewrite A0, A1, A2, A3, B0, B1, B2, B3, I1, I2. repeat split.
      change (S (S (S (S (List.length (b2a_base64 rest))))))
        with (4 + List.length (b2a_base64 rest))%nat.
      rewrite Nat.Div0.add_mod, I3 by lia. reflexivity.
Qed.

Lemma b2a_base64_text (l : list byte) :
  wellformed (b2a_base64 l) = true /\ is_ascii (b2a_base64 l) = true.
Proof.
  destruct (b2a_base64_text_gen (List.length l) l (le_n _)) as (T1 & T2 & T3).
  unfold wellformed. rewrite T1, T3. split; [reflexivity | assumption].
Qed.

End Base64Facts.

(** [b64decode] undoes [b64encode], on the bytes and on the str made of
    them. *)
Lemma b64decode_b64encode (s : list byte) :
  b64decode (KeyBytes (b64encode s)) = Ok s
  /\ b64decode (KeyStr (str_of_bytes (b64encode s))) = Ok s.
Proof.
  unfold b64decode, b64encode, bytes_of_str, str_of_bytes.
  rewrite list_byte_of_string_of_list_byte.
  destruct (b2a_base64_text s) as [_ A]. rewrite A.
  rewrite a2b_b2a_base64. split; reflexivity.
Qed.

(** ** SHA-256 and HMAC: known answers and the size of a digest *)

(** The constants: as many as the standard says, with its first and last
    values. *)
Example sha256_constants :
  List.length SHA256.K = 64%nat /\ List.length SHA256.H0 = 8%nat
  /\ nth 0 SHA256.K 0 = 0x428a2f98 /\ nth 63 SHA256.K 0 = 0xc67178f2
  /\ nth 0 SHA256.H0 0 = 0x6a09e667 /\ nth 7 SHA256.H0 0 = 0x5be0cd19.
Proof. vm_compute. repeat split. Qed.

Example sha256_abc :
  base64_text (SHA256.sha256 (bytes_of_str "abc"))
  = "ungWv48Bz+pBQUDeXa4iI7ADYaOWF3qctBD/YfIAFa0=".
Proof. vm_compute. reflexivity. Qed.

(** Messages of 55, 56 and 64 bytes, around the limits of the padding. *)
Example sha256_padding :
  map (fun n => base64_text (SHA256.sha256 (repeat "a"%byte n))) [55; 56; 64]%nat
  = ["n0OQ+NMMLdkuyfCVtl4rmumwqSWlJY4kHJ8ekQ9zQxg=";
     "s1Q5pKxvCUi21vnjxq8PX1kM4g8b3nCQ73lwaG7Gc4o=";
     "/+BU/nrgy23GXDr5th1SCfQ5hR20PQulmXM33xVGaOs="].
Proof. vm_compute. reflexivity. Qed.

(** RFC 4231, test cases 1, 2 and 6 (a key longer than a block). *)
Example hmac_rfc4231 :
  [base64_text (HMAC.hmac_sha256 (repeat x0b 20) (bytes_of_str "Hi There"));
   base64_text (HMAC.hmac_sha256 (bytes_of_str "Jefe")
                                 (bytes_of_str "what do ya want for nothing?"));
   base64_text (HMAC.hmac_sha256
                  (repeat xaa 131)
                  (bytes_of_str "Test Using Larger Than Block-Size Key - Hash Key First"))]
  = ["sDRMYdjbOFNcqK/OrwvxK4gdwgDJgz2nJuk3bC4yz/c=";
     "W9zBRr9gdU5qBCQmCJV1x1oAPwidJzmDnexYuWTsOEM=";
     "YOQxWR7gtn8Niiaqy/W3f44LxiE3KMUUBUYEDw7jf1Q="].
Proof. vm_compute. reflexivity. Qed.

Section DigestSize.

Import SHA256.

Lemma compress_length (h block : list Z) :
  List.length h = 8%nat -> List.length (compress h block) = 8%nat.
Proof.
  intro Hh. unfold compress.
  rewrite length_map, length_combine, Hh. reflexivity.
Qed.

Lemma process_length (n : nat) :
  forall h ws, List.length h = 8%nat -> List.length (process n h ws) = 8%nat.
Proof.
  induction n as [|n IH]; intros h ws Hh; simpl; [assumption|].
  destruct ws; [assumption|]. apply IH, compress_length, Hh.
Qed.

Lemma flat_map_be32_length (ws : list Z) :
  List.length (flat_map bytes_of_be32 ws) = (4 * List.length ws)%nat.
Proof.
  induction ws as [|w ws IH]; [reflexivity|].
  cbn [flat_map]. rewrite length_app, IH. simpl. lia.
Qed.

Lemma sha256_length (msg : list byte) : List.length (sha256 msg) = 32%nat.
Proof.
  unfold sha256. rewrite flat_map_be32_length, process_length; reflexivity.
Qed.

Lemma hmac_sha256_length (key msg : list byte) :
  List.length (HMAC.hmac_sha256 key msg) = 32%nat.
Proof. apply sha256_length. Qed.

End DigestSize.

(** Thirty-two bytes are written on forty-four characters. *)
Lemma b64encode_digest_length (l : list byte) :
  List.length l = 32%nat -> List.length (b64encode l) = 44%nat.
Proof.
  intro Hl.
  do 32 (destruct l as [|? l]; [discriminate|]).
  destruct l; [reflexivity | discriminate].
Qed.

(** ** The derived key *)

Section Derivation.

Context {H : Type}.
Variable gIsMicroPython : bool.

(** What [_computeDerivedSymmetricKey] returns for the decoded [key]. *)
Lemma _computeDerivedSymmetricKey_run secret key regId (w : World H) :
  b64decode secret = Ok key ->
  _computeDerivedSymmetricKey gIsMicroPython secret regId w
  = (w, Return (derived_key gIsMicroPython key regId)).
Proof.
  intro Hd. unfold _computeDerivedSymmetricKey, derived_key. unfold_m.
  rewrite Hd. simpl. destruct gIsMicroPython; reflexivity.
Qed.

Lemma b64decode_derived_key key regId :
  b64decode (derived_key gIsMicroPython key regId)
  = Ok (HMAC.hmac_sha256 key (bytes_of_str regId)).
Proof.
  unfold derived_key.
  destruct (b64decode_b64encode (HMAC.hmac_sha256 key (bytes_of_str regId))).
  destruct gIsMicroPython; assumption.
Qed.

(** What it raises when the secret cannot be decoded. *)
Lemma _computeDerivedSymmetricKey_broken secret regId e (w : World H) :
  b64decode secret = Err e ->
  _computeDerivedSymmetricKey gIsMicroPython secret regId w
  = (mkWorld (self w) (app w)
             (history w ++ match broken_secret_message secret with
                           | Ok message =>
                               map Print (ConsoleLogger.debug (_logger (self w)) message)
                           | Err _ => []
                           end)
             (twin_patches w) (method_requests w),
     Raise (broken_secret_error secret)).
Proof.
  intro Hd. unfold _computeDerivedSymmetricKey, broken_secret_error. unfold_m.
  rewrite Hd. simpl.
  destruct secret as [s|b|d]; simpl.
  - rewrite logger_debug_run. reflexivity.
  - rewrite app_nil_r. destruct w; reflexivity.
  - rewrite app_nil_r. destruct w; reflexivity.
Qed.

End Derivation.

(** C6.  When the group key decodes from base64 to [key], the
    derivation returns the base64 of the HMAC-SHA256 of the UTF-8 bytes of
    the registration id under [key], and leaves the world as it is; the
    result is the same in whatever world it is called; it decodes back to
    the digest and is canonical base64 text of forty-four ASCII
    characters. *)
Theorem _computeDerivedSymmetricKey_derives {H} (gIsMicroPython : bool)
        (secret : keymaterial) (key : list byte) (regId : string) :
  b64decode secret = Ok key ->
  let digest := HMAC.hmac_sha256 key (bytes_of_str regId) in
  (forall w : World H,
      _computeDerivedSymmetricKey gIsMicroPython secret regId w
      = (w, Return (derived_key gIsMicroPython key regId)))
  /\ (forall w1 w2 : World H,
         snd (_computeDerivedSymmetricKey gIsMicroPython secret regId w1)
         = snd (_computeDerivedSymmetricKey gIsMicroPython secret regId w2))
  /\ derived_key gIsMicroPython key regId
     = (if negb gIsMicroPython then KeyStr (str_of_bytes (b64encode digest))
        else KeyBytes (b64encode digest))
  /\ b64decode (derived_key gIsMicroPython key regId) = Ok digest
  /\ Base64.wellformed (b64encode digest) = true
  /\ Base64.is_ascii (b64encode digest) = true
  /\ List.length (b64encode digest) = 44%nat.
Proof.
  intros Hd digest. repeat split.
  - intro w. apply _computeDerivedSymmetricKey_run, Hd.
  - intros w1 w2. rewrite !(_computeDerivedSymmetricKey_run _ _ _ _ _ Hd).
    reflexivity.
  - apply b64decode_derived_key.
  - apply b2a_base64_text.
  - apply b2a_base64_text.
  - apply b64encode_digest_length, hmac_sha256_length.
Qed.

Lemma _computeDerivedSymmetricKey_derives_witness :
  _computeDerivedSymmetricKey false (KeyStr "dGVzdGtleQ==") "device1"
                              (Sample.boot Sample.device)
  = (Sample.boot Sample.device,
     Return (derived_key false (bytes_of_str "testkey") "device1")).
Proof.
  apply (_computeDerivedSymmetricKey_derives
           false (KeyStr "dGVzdGtleQ==") (bytes_of_str "testkey") "device1").
  vm_compute. reflexivity.
Defined.

(** The key of the sample device, as Python's [hmac] and [base64] give it. *)
Example derived_key_sample :
  derived_key false (bytes_of_str "testkey") "device1"
  = KeyStr "zqB3uKd5mNX0FiTXMidHWKY1HSrQtEVLQM8CiKZdbSI=".
Proof. vm_compute. reflexivity. Qed.

Section BrokenSecret.

Context {H : Type}.
Variable env : Environment.
Variable gIsMicroPython : bool.

(** The world after a secret that cannot be decoded: only the console
    may have been written to. *)
Lemma connect_broken (w : World H) (e : exn) :
  _credType (self w) = IOTCConnectType.IOTC_CONNECT_SYMM_KEY ->
  b64decode (_keyORCert (self w)) = Err e ->
  connect env gIsMicroPython w
  = (mkWorld (self w) (app w)
             (history w ++ match broken_secret_message (_keyORCert (self w)) with
                           | Ok message =>
                               map Print (ConsoleLogger.debug (_logger (self w)) message)
                           | Err _ => []
                           end)
             (twin_patches w) (method_requests w),
     Raise (broken_secret_error (_keyORCert (self w)))).
Proof.
  intros Hc Hd.
  unfold connect, connect_credentials. unfold_m.
  rewrite Hc. simpl.
  rewrite (_computeDerivedSymmetricKey_broken _ _ _ _ _ Hd). reflexivity.
Qed.

End BrokenSecret.

(** C7, as the claim states it, fails.  On the sample device whose group
    key is not base64 the decoding fails, and what reaches the caller of
    [connect] is SystemExit, the request to end the interpreter that
    [sys.exit()] makes: it is no Exception, so that a caller's
    [except Exception] does not receive it, and at the default log level
    nothing is written that names the cause. *)
Lemma broken_secret_is_no_error :
  b64decode (_keyORCert Sample.misconfigured) = Err binascii_Error
  /\ snd (connect Sample.friendly false (Sample.boot Sample.misconfigured))
     = Raise SystemExit
  /\ ~ (exists e,
          snd (connect Sample.friendly false (Sample.boot Sample.misconfigured))
          = Raise e
          /\ is_Exception e = true)
  /\ history (fst (connect Sample.friendly false (Sample.boot Sample.misconfigured)))
     = [].
Proof.
  assert (R : connect Sample.friendly false (Sample.boot Sample.misconfigured)
              = (Sample.boot Sample.misconfigured, Raise SystemExit))
    by (vm_compute; reflexivity).
  rewrite R. cbn [fst snd].
  split; [vm_compute; reflexivity|]. split; [reflexivity|].
  split; [|reflexivity].
  intros (e & E & X). injection E as <-. discriminate X.
Qed.

(** C7, amended.  When the group key, a str, of a client with a
    symmetric-key credential cannot be decoded from base64, the derivation
    gives the line that shows the key to the logger's [debug] and calls
    [sys.exit()]: it ends with SystemExit wherever it is called, and so
    does [connect], whose caller receives SystemExit and no Exception.
    The call stops there: the client is as it was, nothing was asked of the
    provisioning service or of the hub, nothing is tried again, and the
    console has the one line or, below the level ALL, nothing. *)
Theorem broken_secret_aborts_connect {H} (env : Environment)
        (gIsMicroPython : bool) (w : World H) (secret : string) (e : exn) :
  _credType (self w) = IOTCConnectType.IOTC_CONNECT_SYMM_KEY ->
  _keyORCert (self w) = KeyStr secret ->
  b64decode (KeyStr secret) = Err e ->
  let line := Lit ("ERROR: broken base64 secret => `" ++ secret ++ "`") in
  (forall regId (w' : World H),
      _computeDerivedSymmetricKey gIsMicroPython (KeyStr secret) regId w'
      = (extend w' (map Print (ConsoleLogger.debug (_logger (self w')) line)),
         Raise SystemExit))
  /\ connect env gIsMicroPython w
     = (extend w (map Print (ConsoleLogger.debug (_logger (self w)) line)),
        Raise SystemExit)
  /\ (forall e', snd (connect env gIsMicroPython w) = Raise e' ->
                 is_Exception e' = false)
  /\ self (fst (connect env gIsMicroPython w)) = self w
  /\ outside (map Print (ConsoleLogger.debug (_logger (self w)) line)) = []
  /\ (ConsoleLogger._logLevel (_logger (self w)) <> IOTCLogLevel.IOTC_LOGGING_ALL ->
      history (fst (connect env gIsMicroPython w)) = history w).
Proof.
  intros Hc Hk Hd line.
  assert (D : forall regId (w' : World H),
             _computeDerivedSymmetricKey gIsMicroPython (KeyStr secret) regId w'
             = (extend w' (map Print (ConsoleLogger.debug (_logger (self w')) line)),
                Raise SystemExit)).
  { intros regId w'.
    rewrite (_computeDerivedSymmetricKey_broken gIsMicroPython _ regId e w' Hd).
    reflexivity. }
  assert (C : connect env gIsMicroPython w
              = (extend w (map Print (ConsoleLogger.debug (_logger (self w)) line)),
                 Raise SystemExit)).
  { rewrite <- Hk in Hd. rewrite (connect_broken env gIsMicroPython w e Hc Hd).
    rewrite Hk. reflexivity. }
  split; [exact D|]. split; [exact C|]. rewrite C. cbn [fst snd extend self history].
  repeat split.
  - intros e' E. injection E as <-. reflexivity.
  - unfold ConsoleLogger.debug, ConsoleLogger._log.
    destruct (ConsoleLogger._logLevel (_logger (self w))
              =? IOTCLogLevel.IOTC_LOGGING_ALL); reflexivity.
  - intro Hl. unfold ConsoleLogger.debug.
    destruct (ConsoleLogger._logLevel (_logger (self w))
              =? IOTCLogLevel.IOTC_LOGGING_ALL) eqn:El.
    + apply Z.eqb_eq in El. contradiction.
    + apply app_nil_r.
Qed.

Lemma broken_secret_aborts_connect_witness :
  connect Sample.friendly false (Sample.boot Sample.misconfigured)
  = (Sample.boot Sample.misconfigured, Raise SystemExit)
  /\ self (fst (connect Sample.friendly false (Sample.boot Sample.misconfigured)))
     = Sample.misconfigured.
Proof.
  assert (Hd : b64decode (KeyStr "abc") = Err binascii_Error)
    by (vm_compute; reflexivity).
  destruct (broken_secret_aborts_connect
              Sample.friendly false (Sample.boot Sample.misconfigured)
              "abc" binascii_Error eq_refl eq_refl Hd) as (_ & C & _ & S & _).
  split; [exact C | exact S].
Defined.

(** ** The key that [connect] leaves in the client *)

Section StoredKey.

Context {H : Type}.
Variable env : Environment.
Variable gIsMicroPython : bool.

(** After the credentials, nothing assigns [_keyORCert]. *)
Lemma connect_after_credentials_keeps_key (x509 : option X509) :
  keeps (@_keyORCert H)
        (connect_model ;; connect_provision env x509 ;; connect_hub env ;;
         connect_listeners).
Proof.
  unfold connect_model, connect_provision, connect_hub, connect_listeners.
  keeps_all.
Qed.

Lemma connect_keeps_identity :
  keeps (fun c : IoTCClient H => (_deviceId c, _credType c))
        (connect env gIsMicroPython).
Proof.
  unfold connect, connect_credentials, connect_model, connect_provision,
    connect_hub, connect_listeners, _computeDerivedSymmetricKey, new_X509.
  keeps_all.
Qed.

(** The first stage stores the derived key, whether or not the
    provisioning client can then be built. *)
Lemma connect_credentials_key (w : World H) (key : list byte) :
  _credType (self w) = IOTCConnectType.IOTC_CONNECT_SYMM_KEY ->
  b64decode (_keyORCert (self w)) = Ok key ->
  let derived := derived_key gIsMicroPython key (_deviceId (self w)) in
  _keyORCert (self (fst (connect_credentials env gIsMicroPython w))) = derived
  /\ match snd (connect_credentials env gIsMicroPython w) with
     | Return _ =>
         _provisioningClient (self (fst (connect_credentials env gIsMicroPython w)))
         = Some (mkProvisioning (_globalEndpoint (self w)) (_deviceId (self w))
                                (_scopeId (self w)) (SymmetricKeyAuth derived) None)
     | _ => True
     end.
Proof.
  intros Hc Hd derived.
  unfold connect_credentials. unfold_m. rewrite Hc. simpl.
  rewrite (_computeDerivedSymmetricKey_run _ _ _ _ _ Hd). simpl.
  rewrite logger_debug_run. simpl.
  destruct (create_provisioning env _ _); simpl; split; reflexivity.
Qed.

Lemma connect_key (w : World H) (key : list byte) :
  _credType (self w) = IOTCConnectType.IOTC_CONNECT_SYMM_KEY ->
  b64decode (_keyORCert (self w)) = Ok key ->
  _keyORCert (self (fst (connect env gIsMicroPython w)))
  = derived_key gIsMicroPython key (_deviceId (self w)).
Proof.
  intros Hc Hd.
  destruct (connect_credentials_key w key Hc Hd) as [K _].
  unfold connect. unfold bind at 1.
  destruct (connect_credentials env gIsMicroPython w) as [w1 [x509|e1|]];
    cbn [fst snd] in *; try assumption.
  exact (eq_trans (connect_after_credentials_keeps_key x509 w1) K).
Qed.

End StoredKey.

(** Two derived keys are equal exactly when the digests are. *)
Lemma derived_key_inj (gIsMicroPython : bool) (key1 key2 : list byte)
      (regId1 regId2 : string) :
  derived_key gIsMicroPython key1 regId1 = derived_key gIsMicroPython key2 regId2
  <-> HMAC.hmac_sha256 key1 (bytes_of_str regId1)
      = HMAC.hmac_sha256 key2 (bytes_of_str regId2).
Proof.
  split; intro E.
  - apply (f_equal b64decode) in E.
    rewrite !b64decode_derived_key in E. congruence.
  - unfold derived_key. rewrite E. reflexivity.
Qed.

(** With a group key, [connect] replaces the stored key by the derived
    key before it builds the provisioning client; a second [connect]
    derives from that derived key; the two stored keys are the same
    exactly when the first digest is a fixed point of HMAC-SHA256 under
    the device id. *)
Lemma connect_twice_key {H} (env1 env2 : Environment) (gIsMicroPython : bool)
      (w : World H) (key : list byte) :
  _credType (self w) = IOTCConnectType.IOTC_CONNECT_SYMM_KEY ->
  b64decode (_keyORCert (self w)) = Ok key ->
  let regId := _deviceId (self w) in
  let digest := HMAC.hmac_sha256 key (bytes_of_str regId) in
  let w1 := fst (connect env1 gIsMicroPython w) in
  let w2 := fst (connect env2 gIsMicroPython w1) in
  _keyORCert (self w1) = derived_key gIsMicroPython key regId
  /\ _keyORCert (self w2) = derived_key gIsMicroPython digest regId
  /\ (_keyORCert (self w2) = _keyORCert (self w1)
      <-> HMAC.hmac_sha256 digest (bytes_of_str regId) = digest).
Proof.
  intros Hc Hd regId digest w1 w2.
  assert (K1 : _keyORCert (self w1) = derived_key gIsMicroPython key regId)
    by (apply connect_key; assumption).
  pose proof (connect_keeps_identity env1 gIsMicroPython w) as I. simpl in I.
  fold w1 in I. injection I as I1 I2.
  assert (K2 : _keyORCert (self w2) = derived_key gIsMicroPython digest regId).
  { unfold w2, regId. rewrite <- I1. apply connect_key; [congruence|].
    rewrite K1. apply b64decode_derived_key. }
  repeat split; try assumption.
  - rewrite K1, K2. intro E. apply derived_key_inj in E. exact E.
  - intro E. rewrite K1, K2. apply derived_key_inj. exact E.
Qed.

(** On the sample device the second key differs from the first. *)
Example connect_twice_sample :
  let w1 := fst (connect Sample.friendly false (Sample.boot Sample.device)) in
  let w2 := fst (connect Sample.friendly false w1) in
  _keyORCert (self w1) = KeyStr "zqB3uKd5mNX0FiTXMidHWKY1HSrQtEVLQM8CiKZdbSI="
  /\ _keyORCert (self w2) = KeyStr "1vLe0Z9fyrgS7ZJozfS3itE+p6fIopAjmiK7w3fWpRg="
  /\ _keyORCert (self w2) <> _keyORCert (self w1).
Proof. vm_compute. repeat split. discriminate. Qed.

(** ** Histories *)

Lemma reported_app (a b : list event) : reported (a ++ b) = reported a ++ reported b.
Proof.
  induction a as [|e a IH]; [reflexivity|].
  destruct e; simpl; rewrite ?IH; reflexivity.
Qed.

Lemma property_calls_app (a b : list event) :
  property_calls (a ++ b) = property_calls a ++ property_calls b.
Proof.
  induction a as [|e a IH]; [reflexivity|].
  destruct e; simpl; rewrite ?IH; reflexivity.
Qed.

Lemma command_view_app (a b : list event) :
  command_view (a ++ b) = command_view a ++ command_view b.
Proof.
  induction a as [|e a IH]; [reflexivity|].
  destruct e; simpl; rewrite ?IH; reflexivity.
Qed.

Lemma reported_prints (l : list text) : reported (map Print l) = [].
Proof. induction l; simpl; auto. Qed.

Lemma property_calls_prints (l : list text) : property_calls (map Print l) = [].
Proof. induction l; simpl; auto. Qed.

Lemma command_view_prints (l : list text) : command_view (map Print l) = [].
Proof. induction l; simpl; auto. Qed.

Section Passes.

Context {H : Type}.
Variable env : Environment.

Lemma extend_nil (w : World H) : extend w [] = w.
Proof. unfold extend. rewrite app_nil_r. destruct w; reflexivity. Qed.

Lemma extend_extend (w : World H) (a b : list event) :
  extend (extend w a) b = extend w (a ++ b).
Proof. unfold extend. simpl. rewrite app_assoc. reflexivity. Qed.

Lemma logger_debug_extend (message : text) (w : World H) :
  logger_debug message w
  = (extend w (map Print (ConsoleLogger.debug (_logger (self w)) message)),
     Return tt).
Proof. apply logger_debug_run. Qed.

(** [sendProperty] without a callback: the log line, then the update,
    which the transport takes or refuses. *)
Lemma sendProperty_run (payload : pyval) (w : World H) :
  let prints := map Print (ConsoleLogger.debug
                             (_logger (self w))
                             (Format "Sending property {}" [ArgJson payload])) in
  sendProperty env payload None w
  = match _deviceClient (self w) with
    | None => (extend w prints, Raise (AttributeError "_deviceClient"))
    | Some _ =>
        (extend w (prints ++ [PatchedReported payload]),
         match patch_twin_reported_properties env (history w ++ prints) payload with
         | None => Return tt
         | Some e => Raise e
         end)
    end.
Proof.
  intro prints. unfold sendProperty, device_client. unfold_m.
  rewrite logger_debug_extend. fold prints. simpl.
  destruct (_deviceClient (self w)); simpl; [|reflexivity].
  destruct (patch_twin_reported_properties env (history w ++ prints) payload);
    unfold extend; simpl; rewrite <- app_assoc; reflexivity.
Qed.

End Passes.

(** ** One property of a patch *)

Section OneProperty.

Context {H : Type}.
Variable env : Environment.

(** The step in closed form, for a property whose value is there. *)
Lemma _onProperties_prop_run (propCb : callback H) (patch : pydict)
      (prop : string) (value : pyval) (w : World H) :
  String.eqb prop "$version" = false ->
  property_value patch prop = Ok value ->
  let r := propCb (app w) (PropertyArgs prop value) in
  let w1 := mkWorld (self w) (run_state r)
                    (history w ++ [CalledProperties prop value])
                    (twin_patches w) (method_requests w) in
  _onProperties_prop env propCb patch prop w
  = match run_result r with
    | Err e => (w1, Raise e)
    | Ok ret =>
        if truthy ret then
          let w2 := extend w1 (map Print
                                   (ConsoleLogger.debug
                                      (_logger (self w))
                                      (Format "Acknowledging {}" [ArgStr prop]))) in
          match dict_getitem patch "$version" with
          | Err e => (w2, Raise e)
          | Ok desiredVersion =>
              sendProperty env (property_ack prop value desiredVersion) None w2
          end
        else
          (extend w1 (map Print
                          (ConsoleLogger.debug
                             (_logger (self w))
                             (Format unsuccessfully_processed [ArgStr prop]))),
           Return tt)
    end.
Proof.
  intros Hne Hv r w1. unfold property_value in Hv.
  unfold _onProperties_prop. rewrite Hne.
  destruct (dict_getitem patch prop) as [entry|e] eqn:E1; [|discriminate].
  unfold call, invoke. unfold_m. simpl. rewrite Hv. simpl.
  fold r. destruct (run_result r) as [ret|e]; simpl; [|reflexivity].
  destruct (truthy ret); rewrite logger_debug_extend; simpl; [|reflexivity].
  rewrite ?Hv. simpl.
  destruct (dict_getitem patch "$version"); reflexivity.
Qed.

End OneProperty.

(** C5.  For a property of a patch that carries ['$version'], once the
    callback has been called with the property and its value: when it
    returns a true value, exactly one property update is sent, whose
    payload is [{prop: {"value": value, "status": "completed",
    "desiredVersion": patch['$version'], "message": "Property received"}}],
    and the step returns if the transport takes the update; when it returns
    a false value, no update is sent and the step returns, so that the loop
    goes on. *)
Theorem property_acknowledged {H} (env : Environment) (propCb : callback H)
        (patch : pydict) (prop : string) (value desiredVersion : pyval)
        (w : World H) :
  String.eqb prop "$version" = false ->
  property_value patch prop = Ok value ->
  dict_getitem patch "$version" = Ok desiredVersion ->
  _deviceClient (self w) <> None ->
  let r := propCb (app w) (PropertyArgs prop value) in
  let after := _onProperties_prop env propCb patch prop w in
  exists evs,
    history (fst after) = history w ++ evs
    /\ property_calls evs = [(prop, value)]
    /\ (forall ret, run_result r = Ok ret -> truthy ret = true ->
          reported evs
          = [PyDict [(prop, PyDict [("value", value);
                                    ("status", PyStr "completed");
                                    ("desiredVersion", desiredVersion);
                                    ("message", PyStr "Property received")])]]
          /\ ((forall h payload, patch_twin_reported_properties env h payload = None) ->
              snd after = Return tt))
    /\ (forall ret, run_result r = Ok ret -> truthy ret = false ->
          reported evs = [] /\ snd after = Return tt).
Proof.
  intros Hne Hv Hver Hdc r after. subst after.
  rewrite (_onProperties_prop_run env propCb patch prop value w Hne Hv).
  cbv zeta. fold r. rewrite Hver.
  destruct (run_result r) as [ret|e].
  - destruct (truthy ret) eqn:T.
    + rewrite sendProperty_run. cbv zeta. simpl.
      destruct (_deviceClient (self w)) as [dc|]; [|congruence]. simpl.
      rewrite <- !app_assoc. eexists. split; [reflexivity|].
      simpl. rewrite !property_calls_app, !reported_app,
               !property_calls_prints, !reported_prints. simpl.
      split; [reflexivity|]. split.
      * intros ret' E _. split; [reflexivity|].
        intro Hok. rewrite Hok. reflexivity.
      * intros ret' E T'. congruence.
    + simpl. rewrite <- !app_assoc. eexists. split; [reflexivity|].
      simpl. rewrite property_calls_prints, reported_prints.
      split; [reflexivity|]. split.
      * intros ret' E T'. congruence.
      * intros. split; reflexivity.
  - simpl. eexists. split; [reflexivity|]. simpl.
    split; [reflexivity|]. split; intros ret' E; discriminate.
Qed.

Lemma property_acknowledged_witness :
  exists evs,
    history (fst (_onProperties_prop Sample.friendly Sample.accept
                                     Sample.temp_patch "temp" Sample.online))
    = history Sample.online ++ evs
    /\ reported evs
       = [PyDict [("temp", PyDict [("value", PyInt 21);
                                   ("status", PyStr "completed");
                                   ("desiredVersion", PyInt 3);
                                   ("message", PyStr "Property received")])]].
Proof.
  assert (Hdc : _deviceClient (self Sample.online) <> None)
    by (vm_compute; discriminate).
  destruct (property_acknowledged
              Sample.friendly Sample.accept Sample.temp_patch "temp"
              (PyInt 21) (PyInt 3) Sample.online eq_refl eq_refl eq_refl Hdc)
    as (evs & Hh & _ & Ht & _).
  exists evs. split; [exact Hh|].
  apply (Ht (PyBool true)); reflexivity.
Defined.

Section OnePatch.

Context {H : Type}.
Variable env : Environment.

(** Whatever becomes of a step, the calls it makes are the ones the
    patch asks for that property. *)
Lemma _onProperties_prop_calls (propCb : callback H) (patch : pydict)
      (prop : string) (w : World H) :
  exists evs,
    history (fst (_onProperties_prop env propCb patch prop w)) = history w ++ evs
    /\ property_calls evs = expected_call patch prop
    /\ snd (_onProperties_prop env propCb patch prop w) <> Blocked.
Proof.
  unfold expected_call.
  destruct (String.eqb prop "$version") eqn:Hne.
  { exists []. unfold _onProperties_prop. rewrite Hne. simpl.
    rewrite app_nil_r. repeat split. discriminate. }
  destruct (property_value patch prop) as [value|e] eqn:Hv.
  - rewrite (_onProperties_prop_run env propCb patch prop value w Hne Hv).
    cbv zeta.
    destruct (run_result (propCb (app w) (PropertyArgs prop value))) as [ret|e].
    + destruct (truthy ret).
      * destruct (dict_getitem patch "$version") as [ver|e].
        -- rewrite sendProperty_run. cbv zeta. simpl.
           destruct (_deviceClient (self w)); simpl; rewrite <- !app_assoc;
             (eexists; split; [reflexivity|]); simpl;
             rewrite ?property_calls_app, ?property_calls_prints; simpl;
             (split; [reflexivity|]).
           ++ destruct (patch_twin_reported_properties env _ _); discriminate.
           ++ discriminate.
        -- simpl. rewrite <- !app_assoc. eexists. split; [reflexivity|].
           simpl. rewrite property_calls_prints. split; [reflexivity|discriminate].
      * simpl. rewrite <- !app_assoc. eexists. split; [reflexivity|].
        simpl. rewrite property_calls_prints. split; [reflexivity|discriminate].
    + simpl. eexists. split; [reflexivity|]. split; [reflexivity|discriminate].
  - exists []. unfold property_value in Hv.
    unfold _onProperties_prop. rewrite Hne. unfold_m.
    destruct (dict_getitem patch prop) as [entry|e1]; simpl.
    + rewrite Hv. simpl. rewrite app_nil_r. repeat split. discriminate.
    + rewrite app_nil_r. repeat split. discriminate.
Qed.

(** Through the keys of the patch: the calls made are those of the keys
    gone through, all of them when the loop over the keys returns. *)
Lemma for_each_property_calls (propCb : callback H) (patch : pydict) :
  forall (keys : list string) (w : World H),
    let after := for_each keys (_onProperties_prop env propCb patch) w in
    exists evs n,
      history (fst after) = history w ++ evs
      /\ property_calls evs = flat_map (expected_call patch) (firstn n keys)
      /\ (snd after = Return tt -> n = List.length keys)
      /\ snd after <> Blocked.
Proof.
  induction keys as [|prop keys IH]; intro w; cbv zeta.
  - exists [], 0%nat. simpl. rewrite app_nil_r. repeat split. discriminate.
  - cbn [for_each]. unfold bind.
    destruct (_onProperties_prop_calls propCb patch prop w) as (e1 & H1 & C1 & B1).
    destruct (_onProperties_prop env propCb patch prop w) as [w1 [[]|e|]];
      simpl in *.
    + destruct (IH w1) as (e2 & n & H2 & C2 & R2 & B2).
      exists (e1 ++ e2), (S n). simpl.
      rewrite H2, H1, <- app_assoc, property_calls_app, C1, C2.
      repeat split; auto.
    + exists e1, 1%nat. simpl. rewrite app_nil_r.
      repeat split; auto; discriminate.
    + contradiction.
Qed.

(** A pass that receives [patch]: the reception, the log line, the
    properties. *)
Lemma _onProperties_receive_run (propCb : callback H) (patch : pydict)
      (rest : list (result pydict)) (w : World H) :
  _deviceClient (self w) <> None ->
  twin_patches w = Ok patch :: rest ->
  _onProperties_receive env propCb w
  = for_each (map fst patch) (_onProperties_prop env propCb patch)
      (mkWorld (self w) (app w)
               (history w
                ++ ReceivedPatch patch
                   :: map Print (ConsoleLogger.debug
                                   (_logger (self w))
                                   (Format "
Received desired properties. {}
" [ArgVal (PyDict patch)])))
               rest (method_requests w)).
Proof.
  intros Hdc Hq.
  unfold _onProperties_receive, receive_twin_desired_properties_patch,
    device_client. unfold_m.
  destruct (_deviceClient (self w)); [|congruence]. simpl.
  rewrite Hq. rewrite logger_debug_extend. unfold extend. simpl.
  rewrite <- app_assoc. reflexivity.
Qed.

End OnePatch.

(** C4.  A pass of the properties listener that receives a patch calls
    the callback with [(prop, patch[prop]['value'])] for the keys of the
    patch other than ['$version'], in their order and once each: for all of
    them when the pass returns, for the keys it went through when an
    exception ended it.  For the patch [{"$version": 3, "temp": {"value":
    21}}] the callback is called exactly once, with [("temp", 21)],
    whatever it does. *)
Theorem properties_dispatched {H} (env : Environment) (propCb : callback H)
        (patch : pydict) (rest : list (result pydict)) (w : World H) :
  _deviceClient (self w) <> None ->
  twin_patches w = Ok patch :: rest ->
  let after := _onProperties_receive env propCb w in
  exists evs,
    history (fst after) = history w ++ evs
    /\ (exists n,
           property_calls evs
           = flat_map (expected_call patch) (firstn n (map fst patch)))
    /\ (snd after = Return tt -> property_calls evs = expected_calls patch)
    /\ (forall prop value,
           In (prop, value) (property_calls evs) ->
           prop <> "$version" /\ property_value patch prop = Ok value)
    /\ (patch = [("$version", PyInt 3); ("temp", PyDict [("value", PyInt 21)])] ->
        property_calls evs = [("temp", PyInt 21)]).
Proof.
  intros Hdc Hq after. subst after.
  rewrite (_onProperties_receive_run env propCb patch rest w Hdc Hq).
  set (w1 := mkWorld _ _ _ _ _).
  destruct (for_each_property_calls env propCb patch (map fst patch) w1)
    as (evs & n & Hh & Hc & Hr & _).
  cbv zeta in Hh, Hr.
  eexists. split.
  { rewrite Hh. unfold w1. simpl. rewrite <- app_assoc. reflexivity. }
  assert (Hp : forall l, property_calls ((ReceivedPatch patch :: map Print l) ++ evs)
                         = property_calls evs).
  { intro l. simpl. rewrite property_calls_app, property_calls_prints. reflexivity. }
  rewrite Hp. split; [exists n; exact Hc|]. split; [|split].
  - intro R. rewrite Hc, (Hr R), firstn_all. reflexivity.
  - intros prop value I. rewrite Hc in I.
    apply in_flat_map in I. destruct I as (k & _ & I).
    unfold expected_call in I.
    destruct (String.eqb k "$version") eqn:E; [destruct I|].
    destruct (property_value patch k) as [v|] eqn:V; [|destruct I].
    destruct I as [I|[]]. injection I as -> ->.
    split; [|exact V]. intros ->. discriminate.
  - intros ->.
    (* the step on "$version" returns at once, the step on "temp" follows *)
    destruct (_onProperties_prop_calls
                env propCb
                [("$version", PyInt 3); ("temp", PyDict [("value", PyInt 21)])]
                "temp" w1) as (e1 & H1 & C1 & _).
    assert (E : history (fst (for_each
                 (map fst [("$version", PyInt 3); ("temp", PyDict [("value", PyInt 21)])])
                 (_onProperties_prop env propCb
                    [("$version", PyInt 3); ("temp", PyDict [("value", PyInt 21)])])
                 w1)) = history w1 ++ e1).
    { cbn [map fst for_each]. unfold bind at 1.
      change (_onProperties_prop env propCb
                [("$version", PyInt 3); ("temp", PyDict [("value", PyInt 21)])]
                "$version" w1) with (w1, @Return unit tt).
      cbv iota beta. unfold bind at 1.
      destruct (_onProperties_prop env propCb _ "temp" w1) as [w2 [[]|e|]];
        simpl in *; exact H1. }
    rewrite Hh in E. apply app_inv_head in E. subst e1. exact C1.
Qed.

Lemma properties_dispatched_witness :
  exists evs,
    history (fst (_onProperties_receive
                    Sample.friendly Sample.accept
                    (perform Sample.friendly false
                             (Hub_queues_patch (Ok Sample.temp_patch)) Sample.online)))
    = history (perform Sample.friendly false
                       (Hub_queues_patch (Ok Sample.temp_patch)) Sample.online) ++ evs
    /\ property_calls evs = [("temp", PyInt 21)].
Proof.
  assert (Hdc : _deviceClient
                  (self (perform Sample.friendly false
                                 (Hub_queues_patch (Ok Sample.temp_patch))
                                 Sample.online)) <> None)
    by discriminate.
  assert (Hq : twin_patches
                 (perform Sample.friendly false
                          (Hub_queues_patch (Ok Sample.temp_patch)) Sample.online)
               = [Ok Sample.temp_patch])
    by reflexivity.
  destruct (properties_dispatched
              Sample.friendly Sample.accept Sample.temp_patch []
              (perform Sample.friendly false
                       (Hub_queues_patch (Ok Sample.temp_patch)) Sample.online)
              Hdc Hq)
    as (evs & Hh & _ & _ & _ & Ht).
  exists evs. split; [exact Hh | apply Ht; reflexivity].
Defined.

(** ** The commands listener *)

Section Commands.

Context {H : Type}.
Variable env : Environment.

Lemma _cmdAck_run (name : string) (value requestId : pyval) (w : World H) :
  let payload := PyDict [(name, PyDict [("value", value);
                                        ("requestId", requestId)])] in
  let prints := map Print (ConsoleLogger.debug
                             (_logger (self w))
                             (Format "Sending property {}" [ArgJson payload])) in
  _cmdAck env name value requestId w
  = match _deviceClient (self w) with
    | None => (extend w prints, Raise (AttributeError "_deviceClient"))
    | Some _ =>
        (extend w (prints ++ [PatchedReported payload]),
         match patch_twin_reported_properties env (history w ++ prints) payload with
         | None => Return tt
         | Some e => Raise e
         end)
    end.
Proof. apply sendProperty_run. Qed.

(** The acknowledgments a callback asks for are property updates: no
    command is received, answered or called meanwhile. *)
Lemma acks_view (acks : list ack_call) :
  forall w : World H,
    exists evs,
      history (fst (for_each acks
                      (fun a => _cmdAck env (ack_name a) (ack_value a)
                                        (ack_requestId a)) w))
      = history w ++ evs
      /\ command_view evs = []
      /\ snd (for_each acks
                (fun a => _cmdAck env (ack_name a) (ack_value a)
                                  (ack_requestId a)) w) <> Blocked.
Proof.
  induction acks as [|a acks IH]; intro w.
  - exists []. simpl. rewrite app_nil_r. repeat split. discriminate.
  - cbn [for_each]. unfold bind. rewrite _cmdAck_run. cbv zeta.
    destruct (_deviceClient (self w)).
    + destruct (patch_twin_reported_properties env _ _).
      * simpl. eexists. split; [reflexivity|].
        rewrite command_view_app, command_view_prints.
        split; [reflexivity | discriminate].
      * match goal with
        | |- context [for_each _ _ ?w1] => destruct (IH w1) as (e2 & H2 & V2 & B2)
        end.
        rewrite H2. simpl. rewrite <- app_assoc.
        eexists. split; [reflexivity|].
        rewrite !command_view_app, command_view_prints, V2.
        split; [reflexivity | assumption].
    + simpl. eexists. split; [reflexivity|].
      rewrite command_view_prints. split; [reflexivity | discriminate].
Qed.

(** One pass that has a callback. *)
Lemma _onCommands_receive_view (cmdCb : callback H) (w : World H) :
  let after := _onCommands_receive env cmdCb w in
  exists evs,
    history (fst after) = history w ++ evs
    /\ match snd after with
       | Return _ =>
           exists r, command_view evs
                     = [ReceivedMethod r; SentMethodResponse (command_received r);
                        CalledCommand r]
       | Raise _ =>
           command_view evs = []
           \/ (exists r, command_view evs
                         = [ReceivedMethod r;
                            SentMethodResponse (command_received r)])
           \/ (exists r, command_view evs
                         = [ReceivedMethod r;
                            SentMethodResponse (command_received r);
                            CalledCommand r])
       | Blocked => evs = []
       end.
Proof.
  cbv zeta.
  unfold _onCommands_receive, receive_method_request, device_client. unfold_m.
  destruct (_deviceClient (self w)) as [dc|] eqn:Hdc; simpl.
  2:{ exists []. rewrite app_nil_r. split; [reflexivity | left; reflexivity]. }
  destruct (method_requests w) as [|[r|e] rest]; simpl.
  - exists []. rewrite app_nil_r. split; reflexivity.
  - rewrite logger_debug_extend. simpl. rewrite Hdc. simpl.
    destruct (send_method_response env _ _); simpl.
    + rewrite <- !app_assoc. eexists. split; [reflexivity|].
      simpl. rewrite command_view_app, command_view_prints. simpl.
      right; left. exists r. reflexivity.
    + unfold call_command, invoke. unfold_m. simpl.
      match goal with
      | |- context [for_each ?l ?f ?w1] =>
          destruct (acks_view l w1) as (e2 & H2 & V2 & B2);
          destruct (for_each l f w1) as [w2 [[]|e2'|]]
      end; simpl in *; try contradiction.
      * destruct (run_result (cmdCb (app w) (CommandArgs r))); simpl;
          rewrite H2, <- !app_assoc; (eexists; split; [reflexivity|]);
          simpl; rewrite !command_view_app, command_view_prints; simpl;
          rewrite V2.
        -- exists r. reflexivity.
        -- right; right. exists r. reflexivity.
      * rewrite H2, <- !app_assoc. eexists. split; [reflexivity|].
        simpl. rewrite !command_view_app, command_view_prints. simpl.
        rewrite V2. right; right. exists r. reflexivity.
  - exists []. rewrite app_nil_r. split; [reflexivity | left; reflexivity].
Qed.

(** The loop, for any number of passes. *)
Lemma listen_commands_view (not_found : text) (fuel : nat) :
  forall w : World H,
    exists evs,
      history (fst (listen IOTC_COMMAND not_found (_onCommands_receive env) fuel w))
      = history w ++ evs
      /\ acknowledged (command_view evs).
Proof.
  induction fuel as [|fuel IH]; intro w; cbn [listen].
  - exists []. rewrite app_nil_r. split; [reflexivity | constructor].
  - destruct (_events (self w) IOTC_COMMAND) as [cb|].
    + destruct (_onCommands_receive_view cb w) as (e1 & H1 & V1).
      cbv zeta in H1, V1.
      destruct (_onCommands_receive env cb w) as [w1 [[]|e|]]; simpl in *.
      * destruct V1 as (r & V1). destruct (IH w1) as (e2 & H2 & A2).
        exists (e1 ++ e2). rewrite H2, H1, <- app_assoc.
        split; [reflexivity|]. rewrite command_view_app, V1. simpl.
        constructor. assumption.
      * exists e1. split; [assumption|].
        destruct V1 as [V1 | [(r & V1) | (r & V1)]]; rewrite V1;
          repeat constructor.
      * exists e1. split; [assumption|]. subst e1. constructor.
    + unfold bind, sleep, emit. rewrite logger_debug_extend. simpl.
      match goal with
      | |- context [listen _ _ _ fuel ?w1] => destruct (IH w1) as (e2 & H2 & A2)
      end.
      simpl in H2. rewrite H2, <- !app_assoc.
      eexists. split; [reflexivity|].
      rewrite !command_view_app, command_view_prints. simpl. assumption.
Qed.

End Commands.

(** C1.  In the history of the commands listener, after any number of
    passes, every command received is followed at once by exactly one
    answer to the transport, with status 200 and the body
    [{'result': True, 'data': 'Command received'}], and the callback is
    called only right after that answer; what the callback then does, how
    long it runs and how it ends change nothing to it.  A pass that receives
    a command sends this answer, and calls the callback when the transport
    has taken the answer. *)
Theorem commands_acknowledged {H} (env : Environment) :
  (forall (fuel : nat) (w : World H),
      exists evs,
        history (fst (_onCommands env fuel w)) = history w ++ evs
        /\ acknowledged (command_view evs))
  /\ (forall (cmdCb : callback H) (w : World H) (r : MethodRequest)
             (rest : list (result MethodRequest)),
         _deviceClient (self w) <> None ->
         method_requests w = Ok r :: rest ->
         exists evs tail,
           history (fst (_onCommands_receive env cmdCb w)) = history w ++ evs
           /\ command_view evs
              = ReceivedMethod r
                :: SentMethodResponse
                     (mkMethodResponse
                        (request_id r) 200
                        (PyDict [("result", PyBool true);
                                 ("data", PyStr "Command received")]))
                :: tail
           /\ (tail = [] \/ tail = [CalledCommand r])
           /\ ((forall h response, send_method_response env h response = None) ->
               tail = [CalledCommand r])).
Proof.
  split.
  - intros fuel w. unfold _onCommands. rewrite logger_debug_extend.
    match goal with
    | |- context [listen _ ?nf _ fuel ?w1] =>
        destruct (listen_commands_view env nf fuel w1) as (e2 & H2 & A2)
    end.
    rewrite H2. simpl. rewrite <- app_assoc.
    eexists. split; [reflexivity|].
    rewrite command_view_app, command_view_prints. exact A2.
  - intros cmdCb w r rest Hdc Hq.
    unfold _onCommands_receive, receive_method_request, device_client. unfold_m.
    destruct (_deviceClient (self w)) as [dc|] eqn:Edc; [|congruence]. simpl.
    rewrite Hq. rewrite logger_debug_extend. simpl. rewrite Edc. simpl.
    destruct (send_method_response env _ _) eqn:Es; simpl.
    + rewrite <- !app_assoc. eexists. exists []. split; [reflexivity|].
      simpl. rewrite command_view_app, command_view_prints. simpl.
      split; [reflexivity|]. split; [left; reflexivity|].
      intro Hok. rewrite Hok in Es. discriminate.
    + unfold call_command, invoke. unfold_m. simpl.
      match goal with
      | |- context [for_each ?l ?f ?w1] =>
          destruct (acks_view env l w1) as (e2 & H2 & V2 & B2);
          destruct (for_each l f w1) as [w2 [[]|e2'|]]
      end; simpl in *; try contradiction.
      * destruct (run_result (cmdCb (app w) (CommandArgs r))); simpl;
          rewrite H2, <- !app_assoc;
          (eexists; exists [CalledCommand r]; split; [reflexivity|]);
          simpl; rewrite !command_view_app, command_view_prints; simpl;
          rewrite V2; auto.
      * rewrite H2, <- !app_assoc.
        eexists. exists [CalledCommand r]. split; [reflexivity|].
        simpl. rewrite !command_view_app, command_view_prints. simpl.
        rewrite V2. auto.
Qed.

Lemma commands_acknowledged_witness :
  exists evs tail,
    history (fst (_onCommands_receive Sample.friendly Sample.faulty
                                      (Sample.commanded Sample.faulty)))
    = history (Sample.commanded Sample.faulty) ++ evs
    /\ command_view evs
       = ReceivedMethod Sample.reboot
         :: SentMethodResponse
              (mkMethodResponse "7" 200
                                (PyDict [("result", PyBool true);
                                         ("data", PyStr "Command received")]))
         :: tail
    /\ tail = [CalledCommand Sample.reboot].
Proof.
  assert (Hdc : _deviceClient (self (Sample.commanded Sample.faulty)) <> None)
    by discriminate.
  destruct (proj2 (commands_acknowledged Sample.friendly)
                  Sample.faulty (Sample.commanded Sample.faulty)
                  Sample.reboot [] Hdc eq_refl)
    as (evs & tail & Hh & Hv & _ & Ht).
  exists evs, tail. repeat split; [exact Hh | exact Hv |].
  apply Ht. intros h response. reflexivity.
Defined.

(** The commands listener on the sample device, with a callback that
    raises: the command is answered, the callback called, and the loop has
    ended on the exception. *)
Example commands_listener_sample :
  let after := _onCommands Sample.friendly 3 (Sample.commanded Sample.faulty) in
  snd after = Died (ExternalError "handler failed")
  /\ command_view (history (fst after))
     = [ReceivedMethod Sample.reboot;
        SentMethodResponse (command_received Sample.reboot);
        CalledCommand Sample.reboot].
Proof. vm_compute. split; reflexivity. Qed.

(** ** Failures in the properties listener *)

(** The properties callback of the sample raises on the first patch: the
    loop has ended on that exception although the transport never failed,
    and the second patch is still waiting in the queue. *)
Lemma handler_exception_ends_properties_loop :
  let w := Sample.patched Sample.faulty [Sample.temp_patch; Sample.temp_patch] in
  let after := _onProperties Sample.friendly 5 w in
  twin_patches w = [Ok Sample.temp_patch; Ok Sample.temp_patch]
  /\ snd after = Died (ExternalError "handler failed")
  /\ twin_patches (fst after) = [Ok Sample.temp_patch]
  /\ property_calls (history (fst after)) = [("temp", PyInt 21)]
  /\ reported (history (fst after)) = [].
Proof. vm_compute. repeat split. Qed.

(** With a callback that reports failure by its return value the same
    loop goes through both patches and waits for the next one. *)
Example declined_properties_loop_goes_on :
  let w := Sample.patched Sample.decline [Sample.temp_patch; Sample.temp_patch] in
  let after := _onProperties Sample.friendly 5 w in
  snd after = Suspended Sample.decline
  /\ twin_patches (fst after) = []
  /\ property_calls (history (fst after)) = [("temp", PyInt 21); ("temp", PyInt 21)]
  /\ reported (history (fst after)) = [].
Proof. vm_compute. repeat split. Qed.

(** C2, as the code has it.  In the properties listener, a failure that
    the callback reports by returning a false value is logged and the step
    returns, so that the loop goes on with the next property.  An exception
    raised by the callback is not caught: it leaves the step, the rest of
    the patch is skipped, it leaves the pass and ends the loop, like any
    other exception of a pass.  The loop goes on after a pass that returns,
    and after the missing callback, the one failure it catches, for which
    it logs, sleeps 10 seconds and tries again. *)
Theorem properties_loop_failures {H} (env : Environment) (propCb : callback H) :
  (forall (patch : pydict) (prop : string) (value ret : pyval) (w : World H),
      String.eqb prop "$version" = false ->
      property_value patch prop = Ok value ->
      run_result (propCb (app w) (PropertyArgs prop value)) = Ok ret ->
      truthy ret = false ->
      snd (_onProperties_prop env propCb patch prop w) = Return tt
      /\ reported (history (fst (_onProperties_prop env propCb patch prop w)))
         = reported (history w))
  /\ (forall (patch : pydict) (prop : string) (keys : list string) (value : pyval)
             (e : exn) (w : World H),
         String.eqb prop "$version" = false ->
         property_value patch prop = Ok value ->
         run_result (propCb (app w) (PropertyArgs prop value)) = Err e ->
         snd (for_each (prop :: keys) (_onProperties_prop env propCb patch) w)
         = Raise e
         /\ history (fst (for_each (prop :: keys)
                                   (_onProperties_prop env propCb patch) w))
            = history w ++ [CalledProperties prop value])
  /\ (forall (patch : pydict) (rest : list (result pydict)) (w : World H),
         _deviceClient (self w) <> None ->
         twin_patches w = Ok patch :: rest ->
         exists prints,
           _onProperties_receive env propCb w
           = for_each (map fst patch) (_onProperties_prop env propCb patch)
                      (mkWorld (self w) (app w)
                               (history w ++ ReceivedPatch patch :: map Print prints)
                               rest (method_requests w)))
  /\ (forall (not_found : text) (fuel : nat) (w w' : World H) (e : exn),
         _events (self w) IOTC_PROPERTIES = Some propCb ->
         _onProperties_receive env propCb w = (w', Raise e) ->
         listen IOTC_PROPERTIES not_found (_onProperties_receive env) (S fuel) w
         = (w', Died e))
  /\ (forall (not_found : text) (fuel : nat) (w w' : World H),
         _events (self w) IOTC_PROPERTIES = Some propCb ->
         _onProperties_receive env propCb w = (w', Return tt) ->
         listen IOTC_PROPERTIES not_found (_onProperties_receive env) (S fuel) w
         = listen IOTC_PROPERTIES not_found (_onProperties_receive env) fuel w')
  /\ (forall (not_found : text) (fuel : nat) (w : World H),
         _events (self w) IOTC_PROPERTIES = None ->
         listen IOTC_PROPERTIES not_found (_onProperties_receive env) (S fuel) w
         = listen IOTC_PROPERTIES not_found (_onProperties_receive env) fuel
                  (extend w (map Print (ConsoleLogger.debug (_logger (self w)) not_found)
                             ++ [Sleep 10]))).
Proof.
  split; [|split; [|split; [|split; [|split]]]].
  - intros patch prop value ret w Hne Hv Hr Ht.
    rewrite (_onProperties_prop_run env propCb patch prop value w Hne Hv).
    cbv zeta. rewrite Hr, Ht. simpl.
    rewrite <- app_assoc, reported_app. simpl.
    rewrite reported_prints, app_nil_r. split; reflexivity.
  - intros patch prop keys value e w Hne Hv Hr.
    cbn [for_each]. unfold bind.
    rewrite (_onProperties_prop_run env propCb patch prop value w Hne Hv).
    cbv zeta. rewrite Hr. split; reflexivity.
  - intros patch rest w Hdc Hq. eexists.
    apply _onProperties_receive_run; assumption.
  - intros not_found fuel w w' e He Hp. cbn [listen]. rewrite He, Hp. reflexivity.
  - intros not_found fuel w w' He Hp. cbn [listen]. rewrite He, Hp. reflexivity.
  - intros not_found fuel w He. cbn [listen]. rewrite He.
    unfold bind, sleep, emit. rewrite logger_debug_extend. simpl.
    unfold extend. simpl. rewrite <- app_assoc. reflexivity.
Qed.

Lemma properties_loop_failures_witness :
  snd (for_each ["temp"]
                (_onProperties_prop Sample.friendly Sample.faulty Sample.temp_patch)
                (Sample.patched Sample.faulty []))
  = Raise (ExternalError "handler failed")
  /\ snd (_onProperties_prop Sample.friendly Sample.decline Sample.temp_patch "temp"
                             (Sample.patched Sample.decline []))
     = Return tt.
Proof.
  split.
  - apply (proj1 (proj2 (properties_loop_failures Sample.friendly Sample.faulty))
                 Sample.temp_patch "temp" [] (PyInt 21)
                 (ExternalError "handler failed")
                 (Sample.patched Sample.faulty [])
                 eq_refl eq_refl eq_refl).
  - apply (proj1 (properties_loop_failures Sample.friendly Sample.decline)
                 Sample.temp_patch "temp" (PyInt 21) PyNone
                 (Sample.patched Sample.decline [])
                 eq_refl eq_refl eq_refl eq_refl).
Defined.

(** ** What the methods leave of the client, for any observation *)

Section Untouched.

Context {H : Type} {X : Type}.
Variable env : Environment.
Variable g : IoTCClient H -> X.

Lemma call_keeps (cb : callback H) (args : arguments) : keeps g (call cb args).
Proof. unfold call. keeps_all. Qed.

Lemma sendProperty_keeps payload (cb : option (callback H)) :
  keeps g (sendProperty env payload cb).
Proof. unfold sendProperty. keeps_all; apply call_keeps. Qed.

Lemma sendTelemetry_keeps payload properties (cb : option (callback H)) :
  keeps g (sendTelemetry env payload properties cb).
Proof. unfold sendTelemetry, _sendMessage. keeps_all; apply call_keeps. Qed.

Lemma _onProperties_receive_keeps (propCb : callback H) :
  keeps g (_onProperties_receive env propCb).
Proof.
  unfold _onProperties_receive, _onProperties_prop.
  keeps_all; solve [apply call_keeps | apply sendProperty_keeps].
Qed.

Lemma _onCommands_receive_keeps (cmdCb : callback H) :
  keeps g (_onCommands_receive env cmdCb).
Proof.
  unfold _onCommands_receive, call_command, _cmdAck.
  keeps_all. apply sendProperty_keeps.
Qed.

Lemma listen_keeps eventname not_found (receive : callback H -> M H unit) :
  (forall cb, keeps g (receive cb)) ->
  forall fuel w,
    g (self (fst (listen eventname not_found receive fuel w))) = g (self w).
Proof.
  intros Hr fuel. induction fuel as [|fuel IH]; intro w; simpl; [reflexivity|].
  destruct (_events (self w) eventname) as [cb|].
  - specialize (Hr cb w).
    destruct (receive cb w) as [w' [[]|e|]]; simpl in *; auto.
    rewrite IH. exact Hr.
  - assert (K : keeps g (logger_debug not_found;; @sleep H 10)) by keeps_all.
    specialize (K w).
    destruct ((logger_debug not_found;; sleep 10) w) as [w' o]; simpl in *.
    rewrite IH. exact K.
Qed.

Lemma resume_keeps eventname not_found (receive : callback H -> M H unit) cb :
  (forall cb, keeps g (receive cb)) ->
  forall fuel w,
    g (self (fst (resume eventname not_found receive cb fuel w))) = g (self w).
Proof.
  intros Hr fuel w. unfold resume.
  pose proof (Hr cb w) as K.
  destruct (receive cb w) as [w' [[]|e|]]; simpl in *; auto.
  rewrite listen_keeps; auto.
Qed.

Lemma _onProperties_keeps fuel (w : World H) :
  g (self (fst (_onProperties env fuel w))) = g (self w).
Proof.
  unfold _onProperties.
  pose proof (keeps_logger_debug g (Lit "Setup properties listener") w) as K.
  destruct (logger_debug (Lit "Setup properties listener") w) as [w' o]; simpl in *.
  rewrite listen_keeps; auto using _onProperties_receive_keeps.
Qed.

Lemma _onCommands_keeps fuel (w : World H) :
  g (self (fst (_onCommands env fuel w))) = g (self w).
Proof.
  unfold _onCommands.
  pose proof (keeps_logger_debug g (Lit "Setup commands listener") w) as K.
  destruct (logger_debug (Lit "Setup commands listener") w) as [w' o]; simpl in *.
  rewrite listen_keeps; auto using _onCommands_receive_keeps.
Qed.

(** The operations that are no method of configuration: the sends, the
    listeners and the deliveries of the hub. *)
Lemma perform_keeps gIsMicroPython (op : operation) (w : World H) :
  configures op = false ->
  g (self (perform env gIsMicroPython op w)) = g (self w).
Proof.
  destruct op; simpl; intro Hop; try discriminate; try reflexivity.
  - apply sendProperty_keeps.
  - apply sendTelemetry_keeps.
  - apply _onProperties_keeps.
  - apply _onCommands_keeps.
  - apply resume_keeps. apply _onProperties_receive_keeps.
  - apply resume_keeps. apply _onCommands_receive_keeps.
Qed.

End Untouched.

Section Configuration.

Context {H : Type} {X : Type}.
Variable env : Environment.
Variable gIsMicroPython : bool.

(** What no assignment of [connect] reaches. *)
Lemma connect_keeps_configuration (eventname : IOTCEvents) :
  keeps (fun c : IoTCClient H =>
           (_deviceId c, _scopeId c, _credType c, _modelId c,
            _globalEndpoint c, _logger c, _events c eventname))
        (connect env gIsMicroPython).
Proof.
  unfold connect, connect_credentials, connect_model, connect_provision,
    connect_hub, connect_listeners, _computeDerivedSymmetricKey, new_X509.
  keeps_all.
Qed.

End Configuration.

(** X3.  The sends, the passes of the two listeners and the deliveries of
    the hub assign no attribute: the client object is after them what it
    was before, however they end.  Only [connect], [on] and the three
    setters write to it. *)
Theorem passive_operations_keep_client {H} (env : Environment)
        (gIsMicroPython : bool) (ops : list (@operation H)) (w : World H) :
  forallb (fun op => negb (configures op)) ops = true ->
  self (perform_all env gIsMicroPython ops w) = self w.
Proof.
  revert w. induction ops as [|op ops IH]; intros w Hops; [reflexivity|].
  simpl in Hops. apply andb_true_iff in Hops. destruct Hops as [Hop Hops].
  apply negb_true_iff in Hop.
  unfold perform_all in *. simpl. rewrite IH by assumption.
  apply (perform_keeps env (fun c => c)). assumption.
Qed.

Lemma passive_operations_keep_client_witness :
  self (perform_all Sample.friendly false
          [Hub_queues_patch (Ok Sample.temp_patch);
           Call_sendTelemetry (PyDict [("temp", PyInt 21)]) None (Some Sample.accept);
           Run_onProperties 3;
           Call_sendProperty (PyDict [("fan", PyBool true)]) None]
          (Sample.patched Sample.accept []))
  = self (Sample.patched Sample.accept []).
Proof.
  apply (passive_operations_keep_client Sample.friendly false). reflexivity.
Defined.

(** ** The registry and the configuration through a life *)

Section Registry.

Context {H : Type}.
Variable env : Environment.
Variable gIsMicroPython : bool.

Lemma IOTCEvents_eqb_refl (a : IOTCEvents) : IOTCEvents_eqb a a = true.
Proof. destruct a; reflexivity. Qed.

Lemma perform_registry (eventname : IOTCEvents) (op : operation) (w : World H) :
  _events (self (perform env gIsMicroPython op w)) eventname
  = registry_step eventname op (_events (self w) eventname).
Proof.
  assert (D : forall op' : @operation H,
             configures op' = false ->
             registry_step eventname op' (_events (self w) eventname)
             = _events (self w) eventname).
  { intros op' Hc. destruct op'; simpl in *; try reflexivity; discriminate. }
  destruct (configures op) eqn:Hc.
  - destruct op; simpl in *; try discriminate; try reflexivity.
    pose proof (connect_keeps_configuration env gIsMicroPython eventname w) as K.
    simpl in K. congruence.
  - rewrite D by assumption.
    apply (perform_keeps env (fun c => _events c eventname)). assumption.
Qed.

End Registry.

(** X1.  Through any life of a client, the callback the registry holds
    for an event is the one of the last call of [on] for that event, and
    what it was at the start when there was no such call: [on] replaces the
    entry of its event and leaves the other, and nothing else, [connect]
    and the listeners included, ever removes or replaces a callback.  [on]
    itself returns 0. *)
Theorem registry_follows_on {H} (env : Environment) (gIsMicroPython : bool)
        (eventname : IOTCEvents) (ops : list (@operation H)) (w : World H) :
  _events (self (perform_all env gIsMicroPython ops w)) eventname
  = fold_left (fun registered op => registry_step eventname op registered)
              ops (_events (self w) eventname)
  /\ (forall cb tail,
         ops = tail ++ [Call_on eventname cb] ->
         _events (self (perform_all env gIsMicroPython ops w)) eventname = Some cb)
  /\ (forall cb : callback H, snd (on eventname cb w) = Return 0).
Proof.
  assert (F : forall (l : list (@operation H)) (w0 : World H),
             _events (self (perform_all env gIsMicroPython l w0)) eventname
             = fold_left (fun registered op => registry_step eventname op registered)
                         l (_events (self w0) eventname)).
  { induction l as [|op l IH]; intro w0; [reflexivity|].
    unfold perform_all in *. simpl. rewrite IH.
    rewrite perform_registry. reflexivity. }
  split; [apply F | split].
  - intros cb tail ->. rewrite F, fold_left_app. simpl.
    rewrite IOTCEvents_eqb_refl. reflexivity.
  - reflexivity.
Qed.

Lemma registry_follows_on_witness :
  _events (self (perform_all Sample.friendly false
                             [Call_on IOTC_PROPERTIES Sample.decline;
                              Run_onProperties 2;
                              Call_on IOTC_PROPERTIES Sample.accept]
                             Sample.online))
          IOTC_PROPERTIES
  = Some Sample.accept.
Proof.
  apply (proj1 (proj2 (registry_follows_on
                         Sample.friendly false IOTC_PROPERTIES
                         [Call_on IOTC_PROPERTIES Sample.decline;
                          Run_onProperties 2;
                          Call_on IOTC_PROPERTIES Sample.accept]
                         Sample.online))
               Sample.accept
               [Call_on IOTC_PROPERTIES Sample.decline; Run_onProperties 2]).
  reflexivity.
Defined.

(** X2.  The identity of the device is fixed at construction: no
    operation assigns [_deviceId], [_scopeId] or [_credType].  The
    provisioning endpoint, the model id and the log level are what their
    setter was last given, and no other operation changes them. *)
Theorem configuration_through_life {H} (env : Environment) (gIsMicroPython : bool) :
  (forall (ops : list (@operation H)) (w : World H),
      let c := self (perform_all env gIsMicroPython ops w) in
      (_deviceId c, _scopeId c, _credType c)
      = (_deviceId (self w), _scopeId (self w), _credType (self w)))
  /\ (forall (op : @operation H) (w : World H),
         let c := self (perform env gIsMicroPython op w) in
         _globalEndpoint c
         = match op with
           | Call_setGlobalEndpoint endpoint => endpoint
           | _ => _globalEndpoint (self w)
           end
         /\ _modelId c
            = match op with
              | Call_setModelId modelId => modelId
              | _ => _modelId (self w)
              end
         /\ ConsoleLogger._logLevel (_logger c)
            = match op with
              | Call_setLogLevel logLevel => logLevel
              | _ => ConsoleLogger._logLevel (_logger (self w))
              end).
Proof.
  assert (S1 : forall (op : @operation H) (w : World H),
             let c := self (perform env gIsMicroPython op w) in
             (_deviceId c, _scopeId c, _credType c)
             = (_deviceId (self w), _scopeId (self w), _credType (self w))).
  { intros op w. cbv zeta. destruct (configures op) eqn:Hc.
    - destruct op; simpl in *; try discriminate; try reflexivity.
      pose proof (connect_keeps_configuration env gIsMicroPython IOTC_COMMAND w) as K.
      simpl in K. congruence.
    - apply (perform_keeps env (fun c => (_deviceId c, _scopeId c, _credType c))).
      assumption. }
  split.
  - induction ops as [|op ops IH]; intro w; [reflexivity|].
    cbv zeta in *. unfold perform_all in *. simpl. rewrite IH. apply S1.
  - intros op w. cbv zeta. destruct (configures op) eqn:Hc.
    + destruct op; simpl in *; try discriminate; repeat split.
      all: pose proof (connect_keeps_configuration env gIsMicroPython IOTC_COMMAND w) as K;
        simpl in K; congruence.
    + pose proof (perform_keeps env (fun c => (_globalEndpoint c, _modelId c, _logger c))
                                gIsMicroPython op w Hc) as K.
      simpl in K. injection K as K1 K2 K3.
      destruct op; simpl in *; try discriminate; rewrite ?K3; auto.
Qed.

(** ** Dicts *)

Lemma dict_get_app_notin (d1 d2 : pydict) (k : string) :
  ~ In k (map fst d1) -> dict_get (d1 ++ d2) k = dict_get d2 k.
Proof.
  induction d1 as [|[k' v'] d1 IH]; simpl; intro Hn; [reflexivity|].
  destruct (String.eqb k' k) eqn:E.
  - apply String.eqb_eq in E. exfalso. apply Hn. left. exact E.
  - apply IH. intro I. apply Hn. right. exact I.
Qed.

Lemma dict_setitem_notin (d : pydict) (k : string) (v : pyval) :
  ~ In k (map fst d) -> dict_setitem d k v = d ++ [(k, v)].
Proof.
  induction d as [|[k' v'] d IH]; simpl; intro Hn; [reflexivity|].
  destruct (String.eqb k' k) eqn:E.
  - apply String.eqb_eq in E. exfalso. apply Hn. left. exact E.
  - rewrite IH; [reflexivity|]. intro I. apply Hn. right. exact I.
Qed.

Lemma dict_get_setitem (d : pydict) (k k' : string) (v : pyval) :
  dict_get (dict_setitem d k v) k'
  = if String.eqb k k' then Some v else dict_get d k'.
Proof.
  induction d as [|[k0 v0] d IH]; simpl.
  - reflexivity.
  - destruct (String.eqb k0 k) eqn:E0; simpl.
    + apply String.eqb_eq in E0. subst k0.
      destruct (String.eqb k k'); reflexivity.
    + destruct (String.eqb k0 k') eqn:E1.
      * apply String.eqb_eq in E1. subst k0.
        rewrite String.eqb_sym, E0. reflexivity.
      * exact IH.
Qed.

Lemma dict_get_in (d : pydict) (k : string) :
  In k (map fst d) -> exists v, dict_get d k = Some v.
Proof.
  induction d as [|[k' v'] d IH]; simpl; [intros [] | intros [I|I]].
  - subst k'. rewrite String.eqb_refl. eauto.
  - destruct (String.eqb k' k); eauto.
Qed.

(** Copying the keys of a dict over: every key copied maps to what the
    dict maps it to, the others to what they did. *)
Lemma copy_properties_get (properties : pydict) :
  forall (keys : list string) (custom : pydict),
    incl keys (map fst properties) ->
    exists copy,
      copy_properties keys properties custom = Ok copy
      /\ forall k, dict_get copy k
                   = if in_dec string_dec k keys then dict_get properties k
                     else dict_get custom k.
Proof.
  induction keys as [|prop keys IH]; intros custom Hi; simpl.
  - exists custom. split; reflexivity.
  - assert (Hp : In prop (map fst properties)) by (apply Hi; left; reflexivity).
    destruct (dict_get_in properties prop Hp) as [v Hv].
    unfold dict_getitem. rewrite Hv.
    destruct (IH (dict_setitem custom prop v)) as (copy & Hc & Hg).
    { intros k I. apply Hi. right. exact I. }
    exists copy. split; [exact Hc|].
    intro k. rewrite Hg, dict_get_setitem.
    destruct (string_dec prop k) as [->|Hne].
    + rewrite String.eqb_refl.
      destruct (in_dec string_dec k keys); congruence.
    + destruct (String.eqb prop k) eqn:E;
        [apply String.eqb_eq in E; contradiction|].
      destruct (in_dec string_dec k keys); reflexivity.
Qed.

(** With keys that are all different, as in a dict of Python, the copy
    is the dict itself, in its order. *)
Lemma copy_properties_nodup :
  forall (d2 d1 : pydict),
    NoDup (map fst (d1 ++ d2)) ->
    copy_properties (map fst d2) (d1 ++ d2) d1 = Ok (d1 ++ d2).
Proof.
  induction d2 as [|[k v] d2 IH]; intros d1 Hn; simpl.
  - rewrite app_nil_r. reflexivity.
  - assert (Hk : ~ In k (map fst d1)).
    { rewrite map_app in Hn. simpl in Hn. apply NoDup_remove_2 in Hn.
      intro I. apply Hn. apply in_or_app. left. exact I. }
    unfold dict_getitem. rewrite dict_get_app_notin by exact Hk.
    simpl. rewrite String.eqb_refl.
    rewrite dict_setitem_notin by exact Hk.
    replace (d1 ++ (k, v) :: d2) with ((d1 ++ [(k, v)]) ++ d2)
      by (rewrite <- app_assoc; reflexivity).
    apply IH. rewrite <- app_assoc. exact Hn.
Qed.

(** ** The sends *)

Section Sends.

Context {H : Type}.
Variable env : Environment.

(** How a send ends once the transport has taken the message: with the
    callback, when there is one. *)
Lemma after_dispatch_run (callback : option (callback H)) (w : World H) :
  match callback with
  | Some cb => call cb NoArgs ;; ret tt
  | None => ret tt
  end w
  = after_dispatch callback w.
Proof.
  unfold after_dispatch. destruct callback as [cb|]; [|reflexivity].
  unfold call, invoke. unfold_m. simpl.
  destruct (run_result (cb (app w) NoArgs)); reflexivity.
Qed.

Lemma sendProperty_closed (payload : pyval) (callback : option (callback H))
      (w : World H) :
  let prints := map Print (ConsoleLogger.debug
                             (_logger (self w))
                             (Format "Sending property {}" [ArgJson payload])) in
  sendProperty env payload callback w
  = match _deviceClient (self w) with
    | None => (extend w prints, Raise (AttributeError "_deviceClient"))
    | Some _ =>
        match patch_twin_reported_properties env (history w ++ prints) payload with
        | Some e => (extend w (prints ++ [PatchedReported payload]), Raise e)
        | None =>
            after_dispatch callback (extend w (prints ++ [PatchedReported payload]))
        end
    end.
Proof.
  intro prints. unfold sendProperty, device_client.
  unfold bind at 1. rewrite logger_debug_extend. fold prints.
  unfold bind at 1. unfold bind at 1. unfold get_self at 1. cbn [self extend].
  destruct (_deviceClient (self w)); [|reflexivity].
  unfold ret at 1. unfold bind at 1, get_history at 1. cbn [history extend].
  unfold bind at 1, emit at 1. cbn [self app history twin_patches method_requests extend].
  unfold bind at 1.
  destruct (patch_twin_reported_properties env (history w ++ prints) payload);
    unfold check, raise, ret; unfold extend; cbn [history]; rewrite <- app_assoc.
  - reflexivity.
  - rewrite after_dispatch_run. reflexivity.
Qed.

Lemma sendTelemetry_closed (payload : pyval) (properties : option pydict)
      (callback : option (callback H)) (custom : pydict) (w : World H) :
  copied properties = Ok custom ->
  let prints := map Print (ConsoleLogger.info
                             (_logger (self w))
                             (Format "Sending telemetry message: {}" [ArgVal payload])) in
  let msg := mkMessage payload (uuid4 env (history w ++ prints)) custom in
  sendTelemetry env payload properties callback w
  = match _deviceClient (self w) with
    | None => (extend w prints, Raise (AttributeError "_deviceClient"))
    | Some _ =>
        match send_message env (history w ++ prints) msg with
        | Some e => (extend w (prints ++ [SentMessage msg]), Raise e)
        | None => after_dispatch callback (extend w (prints ++ [SentMessage msg]))
        end
    end.
Proof.
  intros Hc prints msg. unfold sendTelemetry.
  unfold bind at 1. rewrite logger_info_run. fold prints.
  unfold _sendMessage, device_client.
  unfold bind at 1, get_history at 1. cbn [history].
  assert (C : forall w0 : World H,
             match properties with
             | Some (p :: ps) => lift (copy_properties (map fst (p :: ps)) (p :: ps) [])
             | _ => ret []
             end w0 = (w0, Return custom)).
  { intro w0. unfold copied in Hc.
    destruct properties as [[|p ps]|]; try (injection Hc as <-; reflexivity).
    rewrite Hc. reflexivity. }
  unfold bind at 1. rewrite C.
  unfold bind at 1. unfold bind at 1. unfold get_self at 1. cbn [self].
  destruct (_deviceClient (self w)); [|reflexivity].
  unfold ret at 1. unfold bind at 1, get_history at 1. cbn [history].
  unfold bind at 1, emit at 1. cbn [self app history twin_patches method_requests].
  unfold bind at 1. fold msg.
  destruct (send_message env (history w ++ prints) msg);
    unfold check, raise, ret; unfold extend; cbn [history]; rewrite <- app_assoc.
  - reflexivity.
  - rewrite after_dispatch_run. reflexivity.
Qed.

(** The keys of a dict can always be copied. *)
Lemma copied_total (properties : option pydict) :
  exists custom,
    copied properties = Ok custom
    /\ forall k, dict_get custom k
                 = match properties with
                   | Some d => dict_get d k
                   | None => None
                   end.
Proof.
  unfold copied. destruct properties as [[|p ps]|].
  - exists []. split; reflexivity.
  - destruct (copy_properties_get (p :: ps) (map fst (p :: ps)) [])
      as (copy & Hc & Hg); [apply incl_refl|].
    exists copy. split; [exact Hc|]. intro k. rewrite Hg.
    destruct (in_dec string_dec k (map fst (p :: ps))) as [I|N]; [reflexivity|].
    destruct (dict_get (p :: ps) k) eqn:E; [|reflexivity].
    exfalso. apply N. clear - E. revert E.
    generalize (p :: ps). intro d.
    induction d as [|[k' v'] d IH]; simpl; [discriminate|].
    destruct (String.eqb k' k) eqn:E'; intro E.
    + left. apply String.eqb_eq. exact E'.
    + right. apply IH. exact E.
  - exists []. split; reflexivity.
Qed.

Lemma copied_nodup (d : pydict) :
  NoDup (map fst d) -> copied (Some d) = Ok d.
Proof.
  intro Hn. unfold copied. destruct d as [|p ps]; [reflexivity|].
  apply (copy_properties_nodup (p :: ps) []). exact Hn.
Qed.

End Sends.

(** X4.  On a client that has no device client yet, [sendProperty] and
    [sendTelemetry] raise AttributeError for [_deviceClient]: nothing is
    handed to the transport, the callback is not called, and only the
    console line of the method may have been written.  A client that was
    built and never went through [connect] is such a client, whatever else
    was done with it. *)
Theorem send_before_connect {H} (env : Environment) (gIsMicroPython : bool) :
  (forall (payload : pyval) (properties : option pydict)
          (callback : option (callback H)) (w : World H),
      _deviceClient (self w) = None ->
      sendProperty env payload callback w
      = (extend w (map Print (ConsoleLogger.debug
                                (_logger (self w))
                                (Format "Sending property {}" [ArgJson payload]))),
         Raise (AttributeError "_deviceClient"))
      /\ sendTelemetry env payload properties callback w
         = (extend w (map Print (ConsoleLogger.info
                                   (_logger (self w))
                                   (Format "Sending telemetry message: {}"
                                           [ArgVal payload]))),
            Raise (AttributeError "_deviceClient")))
  /\ (forall deviceId scopeId credType keyOrCert logger (app0 : H)
             (ops : list (@operation H)),
         forallb (fun op => match op with Call_connect => false | _ => true end) ops
         = true ->
         _deviceClient
           (self (perform_all env gIsMicroPython ops
                              (mkWorld (__init__ deviceId scopeId credType keyOrCert
                                                 logger) app0 [] [] [])))
         = None).
Proof.
  split.
  - intros payload properties callback w Hdc. split.
    + rewrite sendProperty_closed. cbv zeta. rewrite Hdc. reflexivity.
    + destruct (copied_total properties) as (custom & Hc & _).
      rewrite (sendTelemetry_closed env payload properties callback custom w Hc).
      cbv zeta. rewrite Hdc. reflexivity.
  - intros deviceId scopeId credType keyOrCert logger app0 ops.
    set (w0 := mkWorld _ _ _ _ _).
    assert (H0 : _deviceClient (self w0) = None) by reflexivity.
    revert H0. generalize w0. clear w0.
    induction ops as [|op ops IH]; intros w0 H0 Hops; [exact H0|].
    simpl in Hops. apply andb_true_iff in Hops. destruct Hops as [Hop Hops].
    unfold perform_all in *. simpl. apply IH; [|exact Hops].
    destruct (configures op) eqn:Hc.
    + destruct op; simpl in *; try discriminate; exact H0.
    + rewrite (perform_keeps env (@_deviceClient H)); assumption.
Qed.

Lemma send_before_connect_witness :
  snd (sendTelemetry Sample.friendly (PyDict [("temp", PyInt 21)]) None
                     (Some Sample.accept) (Sample.boot Sample.device))
  = Raise (AttributeError "_deviceClient")
  /\ history (fst (sendTelemetry Sample.friendly (PyDict [("temp", PyInt 21)]) None
                                 (Some Sample.accept) (Sample.boot Sample.device)))
     = [Print (Format "Sending telemetry message: {}"
                      [ArgVal (PyDict [("temp", PyInt 21)])])].
Proof.
  destruct (proj1 (send_before_connect Sample.friendly false)
                  (PyDict [("temp", PyInt 21)]) None (Some Sample.accept)
                  (Sample.boot Sample.device) eq_refl) as [_ E].
  rewrite E. split; reflexivity.
Defined.

(** X5.  [sendProperty] on a client with a device client: the update is
    handed to the transport once, after the console line; when the
    transport raises, that exception leaves the method and the callback is
    not called; when it returns, the callback, if one was given, is called
    once, with no argument, its return value is dropped and an exception it
    raises leaves the method. *)
Theorem sendProperty_dispatch {H} (env : Environment) (payload : pyval)
        (callback : option (callback H)) (w : World H) :
  _deviceClient (self w) <> None ->
  let prints := map Print (ConsoleLogger.debug
                             (_logger (self w))
                             (Format "Sending property {}" [ArgJson payload])) in
  let sent := extend w (prints ++ [PatchedReported payload]) in
  sendProperty env payload callback w
  = match patch_twin_reported_properties env (history w ++ prints) payload with
    | Some e => (sent, Raise e)
    | None =>
        match callback with
        | None => (sent, Return tt)
        | Some cb =>
            (mkWorld (self w) (run_state (cb (app w) NoArgs))
                     (history sent ++ [CalledBack])
                     (twin_patches w) (method_requests w),
             match run_result (cb (app w) NoArgs) with
             | Ok _ => Return tt
             | Err e => Raise e
             end)
        end
    end.
Proof.
  intros Hdc prints sent. rewrite sendProperty_closed. cbv zeta. fold prints.
  destruct (_deviceClient (self w)); [|congruence]. fold sent.
  destruct (patch_twin_reported_properties env (history w ++ prints) payload);
    [reflexivity|].
  unfold after_dispatch. destruct callback; reflexivity.
Qed.

Lemma sendProperty_dispatch_witness :
  sendProperty Sample.friendly (PyDict [("fan", PyBool true)])
               (Some Sample.faulty) Sample.online
  = (extend Sample.online [PatchedReported (PyDict [("fan", PyBool true)]); CalledBack],
     Raise (ExternalError "handler failed")).
Proof.
  assert (Hdc : _deviceClient (self Sample.online) <> None) by discriminate.
  rewrite (sendProperty_dispatch Sample.friendly (PyDict [("fan", PyBool true)])
                                 (Some Sample.faulty) Sample.online Hdc).
  reflexivity.
Defined.

(** X6.  [sendTelemetry] on a client with a device client hands the
    transport one message: its data is the payload, its id the fresh uuid,
    and its custom properties map every key to what [properties] maps it to
    (none when [properties] is None or empty); with the keys of a dict of
    Python, all different, they are [properties] itself, in its order.  The
    transport's exception leaves the method before the callback; otherwise
    the callback, if any, is called once after the message. *)
Theorem sendTelemetry_message {H} (env : Environment) (payload : pyval)
        (properties : option pydict) (callback : option (callback H))
        (w : World H) :
  _deviceClient (self w) <> None ->
  let prints := map Print (ConsoleLogger.info
                             (_logger (self w))
                             (Format "Sending telemetry message: {}" [ArgVal payload])) in
  exists custom,
    let msg := mkMessage payload (uuid4 env (history w ++ prints)) custom in
    let sent := extend w (prints ++ [SentMessage msg]) in
    (forall k, dict_get custom k
               = match properties with
                 | Some d => dict_get d k
                 | None => None
                 end)
    /\ (forall d, properties = Some d -> NoDup (map fst d) -> custom = d)
    /\ (properties = None \/ properties = Some [] -> custom = [])
    /\ sendTelemetry env payload properties callback w
       = match send_message env (history w ++ prints) msg with
         | Some e => (sent, Raise e)
         | None =>
             match callback with
             | None => (sent, Return tt)
             | Some cb =>
                 (mkWorld (self w) (run_state (cb (app w) NoArgs))
                          (history sent ++ [CalledBack])
                          (twin_patches w) (method_requests w),
                  match run_result (cb (app w) NoArgs) with
                  | Ok _ => Return tt
                  | Err e => Raise e
                  end)
             end
         end.
Proof.
  intros Hdc prints.
  destruct (copied_total properties) as (custom & Hc & Hg).
  exists custom. cbv zeta. split; [exact Hg|]. split; [|split].
  - intros d -> Hn. rewrite (copied_nodup d Hn) in Hc. congruence.
  - intros [-> | ->]; simpl in Hc; congruence.
  - rewrite (sendTelemetry_closed env payload properties callback custom w Hc).
    cbv zeta. fold prints.
    destruct (_deviceClient (self w)); [|congruence].
    destruct (send_message env _ _); [reflexivity|].
    unfold after_dispatch. destruct callback; reflexivity.
Qed.

Lemma sendTelemetry_message_witness :
  sendTelemetry Sample.friendly (PyDict [("temp", PyInt 21)])
                (Some [("room", PyStr "lab"); ("unit", PyStr "C")])
                None Sample.online
  = (extend Sample.online
            [Print (Format "Sending telemetry message: {}"
                           [ArgVal (PyDict [("temp", PyInt 21)])]);
             SentMessage (mkMessage (PyDict [("temp", PyInt 21)])
                                    "00000000-0000-4000-8000-000000000000"
                                    [("room", PyStr "lab"); ("unit", PyStr "C")])],
     Return tt).
Proof.
  assert (Hdc : _deviceClient (self Sample.online) <> None) by discriminate.
  assert (Hn : NoDup (map fst [("room", PyStr "lab"); ("unit", PyStr "C")])).
  { repeat constructor; simpl; intuition discriminate. }
  destruct (sendTelemetry_message
              Sample.friendly (PyDict [("temp", PyInt 21)])
              (Some [("room", PyStr "lab"); ("unit", PyStr "C")])
              None Sample.online Hdc) as (custom & _ & Hc & _ & E).
  rewrite (Hc _ eq_refl Hn) in E. exact E.
Defined.

(** ** Invariants and what reaches the history *)

Section Preserves.

Context {H : Type}.
Variable I : IoTCClient H -> Prop.
Variable P : event -> Prop.

Lemma preserves_ret {A} (a : A) : preserves I P (@ret H A a).
Proof.
  intros w Hi. split; [exact Hi|]. exists []. simpl.
  rewrite app_nil_r. split; [reflexivity | constructor].
Qed.

Lemma preserves_raise {A} (e : exn) : preserves I P (@raise H A e).
Proof.
  intros w Hi. split; [exact Hi|]. exists []. simpl.
  rewrite app_nil_r. split; [reflexivity | constructor].
Qed.

Lemma preserves_lift {A} (r : result A) : preserves I P (@lift H A r).
Proof. destruct r; [apply preserves_ret | apply preserves_raise]. Qed.

Lemma preserves_check (r : option exn) : preserves I P (@check H r).
Proof. destruct r; [apply preserves_raise | apply preserves_ret]. Qed.

Lemma preserves_get_self : preserves I P (@get_self H).
Proof.
  intros w Hi. split; [exact Hi|]. exists []. simpl.
  rewrite app_nil_r. split; [reflexivity | constructor].
Qed.

Lemma preserves_get_history : preserves I P (@get_history H).
Proof.
  intros w Hi. split; [exact Hi|]. exists []. simpl.
  rewrite app_nil_r. split; [reflexivity | constructor].
Qed.

Lemma preserves_bind {A B} (m : M H A) (k : A -> M H B) :
  preserves I P m -> (forall a, preserves I P (k a)) -> preserves I P (bind m k).
Proof.
  intros Hm Hk w Hi. unfold bind.
  destruct (Hm w Hi) as (I1 & e1 & H1 & P1).
  destruct (m w) as [w1 [a|e|]]; simpl in *; try (split; [exact I1 | eauto]).
  destruct (Hk a w1 I1) as (I2 & e2 & H2 & P2).
  split; [exact I2|]. exists (e1 ++ e2).
  rewrite H2, H1, app_assoc. split; [reflexivity|].
  apply Forall_app. split; assumption.
Qed.

Lemma preserves_try_except {A} (m : M H A) (handler : exn -> M H A) :
  preserves I P m -> (forall e, preserves I P (handler e)) ->
  preserves I P (try_except m handler).
Proof.
  intros Hm Hh w Hi. unfold try_except.
  destruct (Hm w Hi) as (I1 & e1 & H1 & P1).
  destruct (m w) as [w1 [a|e|]]; simpl in *; try (split; [exact I1 | eauto]).
  destruct (Hh e w1 I1) as (I2 & e2 & H2 & P2).
  split; [exact I2|]. exists (e1 ++ e2).
  rewrite H2, H1, app_assoc. split; [reflexivity|].
  apply Forall_app. split; assumption.
Qed.

Lemma preserves_emit (e : event) : P e -> preserves I P (@emit H e).
Proof.
  intros Hp w Hi. split; [exact Hi|]. exists [e]. simpl.
  split; [reflexivity | repeat constructor; exact Hp].
Qed.

Lemma preserves_emit_all (es : list event) :
  Forall P es -> preserves I P (@emit_all H es).
Proof.
  intros Hp w Hi. rewrite emit_all_run. simpl. split; [exact Hi|].
  exists es. split; [reflexivity | exact Hp].
Qed.

Lemma preserves_set_self (u : IoTCClient H -> IoTCClient H) :
  (forall c, I c -> I (u c)) -> preserves I P (set_self u).
Proof.
  intros Hu w Hi. split; [apply Hu; exact Hi|]. exists []. simpl.
  rewrite app_nil_r. split; [reflexivity | constructor].
Qed.

Lemma preserves_for_each {A} (l : list A) (body : A -> M H unit) :
  (forall x, preserves I P (body x)) -> preserves I P (for_each l body).
Proof.
  intro Hb. induction l as [|x l IH]; simpl.
  - apply preserves_ret.
  - apply preserves_bind; [apply Hb | intros _; exact IH].
Qed.

Lemma preserves_invoke (cb : callback H) (args : arguments) :
  P (called args) -> preserves I P (invoke cb args).
Proof.
  intros Hp w Hi. split; [exact Hi|]. exists [called args]. simpl.
  split; [reflexivity | repeat constructor; exact Hp].
Qed.

Lemma preserves_logger_debug (message : text) :
  (forall c, I c ->
             Forall P (map Print (ConsoleLogger.debug (_logger c) message))) ->
  preserves I P (@logger_debug H message).
Proof.
  intros Hp w Hi. rewrite logger_debug_run. simpl. split; [exact Hi|].
  eexists. split; [reflexivity | apply Hp; exact Hi].
Qed.

Lemma preserves_logger_info (message : text) :
  (forall c, I c ->
             Forall P (map Print (ConsoleLogger.info (_logger c) message))) ->
  preserves I P (@logger_info H message).
Proof.
  intros Hp w Hi. rewrite logger_info_run. simpl. split; [exact Hi|].
  eexists. split; [reflexivity | apply Hp; exact Hi].
Qed.

Lemma preserves_device_client : preserves I P (@device_client H).
Proof.
  apply preserves_bind; [apply preserves_get_self | intro c].
  destruct (_deviceClient c); [apply preserves_ret | apply preserves_raise].
Qed.

Lemma preserves_provisioning_client : preserves I P (@provisioning_client H).
Proof.
  apply preserves_bind; [apply preserves_get_self | intro c].
  destruct (_provisioningClient c); [apply preserves_ret | apply preserves_raise].
Qed.

Lemma preserves_receive_patch :
  (forall patch, P (ReceivedPatch patch)) ->
  preserves I P (@receive_twin_desired_properties_patch H).
Proof.
  intro Hp. apply preserves_bind; [apply preserves_device_client | intros _ w Hi].
  destruct (twin_patches w) as [|[patch|e] rest]; simpl; (split; [exact Hi|]).
  - exists []. rewrite app_nil_r. split; [reflexivity | constructor].
  - exists [ReceivedPatch patch]. split; [reflexivity | repeat constructor; apply Hp].
  - exists []. rewrite app_nil_r. split; [reflexivity | constructor].
Qed.

Lemma preserves_receive_method :
  (forall r, P (ReceivedMethod r)) ->
  preserves I P (@receive_method_request H).
Proof.
  intro Hp. apply preserves_bind; [apply preserves_device_client | intros _ w Hi].
  destruct (method_requests w) as [|[r|e] rest]; simpl; (split; [exact Hi|]).
  - exists []. rewrite app_nil_r. split; [reflexivity | constructor].
  - exists [ReceivedMethod r]. split; [reflexivity | repeat constructor; apply Hp].
  - exists []. rewrite app_nil_r. split; [reflexivity | constructor].
Qed.

(** The loop, when every pass preserves. *)
Lemma listen_preserves eventname not_found (receive : callback H -> M H unit) :
  (forall cb, preserves I P (receive cb)) ->
  preserves I P (logger_debug not_found ;; @sleep H 10) ->
  forall fuel w,
    I (self w) ->
    I (self (fst (listen eventname not_found receive fuel w)))
    /\ exists evs,
        history (fst (listen eventname not_found receive fuel w)) = history w ++ evs
        /\ Forall P evs.
Proof.
  intros Hr Hs fuel. induction fuel as [|fuel IH]; intros w Hi; cbn [listen].
  - split; [exact Hi|]. exists []. simpl. rewrite app_nil_r.
    split; [reflexivity | constructor].
  - destruct (_events (self w) eventname) as [cb|].
    + destruct (Hr cb w Hi) as (I1 & e1 & H1 & P1).
      destruct (receive cb w) as [w1 [[]|e|]]; simpl in *;
        try (split; [exact I1 | eauto]).
      destruct (IH w1 I1) as (I2 & e2 & H2 & P2).
      split; [exact I2|]. exists (e1 ++ e2).
      rewrite H2, H1, app_assoc. split; [reflexivity|].
      apply Forall_app. split; assumption.
    + destruct (Hs w Hi) as (I1 & e1 & H1 & P1).
      destruct ((logger_debug not_found ;; sleep 10) w) as [w1 o]; simpl in *.
      destruct (IH w1 I1) as (I2 & e2 & H2 & P2).
      split; [exact I2|]. exists (e1 ++ e2).
      rewrite H2, H1, app_assoc. split; [reflexivity|].
      apply Forall_app. split; assumption.
Qed.

Lemma resume_preserves eventname not_found (receive : callback H -> M H unit) cb :
  (forall cb, preserves I P (receive cb)) ->
  preserves I P (logger_debug not_found ;; @sleep H 10) ->
  forall fuel w,
    I (self w) ->
    I (self (fst (resume eventname not_found receive cb fuel w)))
    /\ exists evs,
        history (fst (resume eventname not_found receive cb fuel w)) = history w ++ evs
        /\ Forall P evs.
Proof.
  intros Hr Hs fuel w Hi. unfold resume.
  destruct (Hr cb w Hi) as (I1 & e1 & H1 & P1).
  destruct (receive cb w) as [w1 [[]|e|]]; simpl in *;
    try (split; [exact I1 | eauto]).
  destruct (listen_preserves eventname not_found receive Hr Hs fuel w1 I1)
    as (I2 & e2 & H2 & P2).
  split; [exact I2|]. exists (e1 ++ e2).
  rewrite H2, H1, app_assoc. split; [reflexivity|].
  apply Forall_app. split; assumption.
Qed.

End Preserves.

Create HintDb preserves.
#[export] Hint Resolve preserves_ret preserves_raise preserves_lift
  preserves_check preserves_get_self preserves_get_history
  preserves_device_client preserves_provisioning_client : preserves.

(** Goes through a computation; [side] proves what is asked of the
    invariant and of the events. *)
Ltac preserves_step side :=
  match goal with
  | |- preserves _ _ (bind _ _) => apply preserves_bind; [| intro]
  | |- preserves _ _ (try_except _ _) => apply preserves_try_except; [| intro]
  | |- preserves _ _ (for_each _ _) => apply preserves_for_each; intro
  | |- preserves _ _ (set_self _) => apply preserves_set_self; solve [side]
  | |- preserves _ _ (emit _) => apply preserves_emit; solve [side]
  | |- preserves _ _ (sleep _) => apply preserves_emit; solve [side]
  | |- preserves _ _ (invoke _ _) => apply preserves_invoke; solve [side]
  | |- preserves _ _ (logger_debug _) => apply preserves_logger_debug; solve [side]
  | |- preserves _ _ (logger_info _) => apply preserves_logger_info; solve [side]
  | |- preserves _ _ receive_twin_desired_properties_patch =>
      apply preserves_receive_patch; solve [side]
  | |- preserves _ _ receive_method_request =>
      apply preserves_receive_method; solve [side]
  | |- preserves _ _ (if ?b then _ else _) => destruct b
  | |- preserves _ _ (match ?x with _ => _ end) => destruct x
  | |- preserves _ _ _ => solve [auto with preserves]
  end.

Ltac preserves_all side := cbv zeta; repeat preserves_step side.

Ltac unfold_methods :=
  unfold sendProperty, sendTelemetry, _sendMessage, call, connect,
    connect_credentials, connect_model, connect_provision, connect_hub,
    connect_listeners, _computeDerivedSymmetricKey, new_X509,
    _onProperties_receive, _onProperties_prop, _onCommands_receive,
    call_command, _cmdAck, sendProperty, call.

(** ** What the console shows at a level *)

Section Console.

Context {H : Type}.
Variable env : Environment.
Variable gIsMicroPython : bool.

(** The levels under which [debug] is silent, and the invariant that the
    logger is at a level within [allowed]. *)
Variable allowed : Z -> bool.
Variable P : event -> Prop.

Local Abbreviation at_level :=
  (fun c : IoTCClient H => allowed (ConsoleLogger._logLevel (_logger c)) = true).

(** What is asked of [P]: it holds of every event but console lines, of
    no line of [debug] at an allowed level, and of the lines of [info] that
    the client writes, when the level lets them through. *)
Hypothesis P_outside : forall e, is_print e = false -> P e.
Hypothesis P_debug :
  forall level message,
    allowed level = true ->
    Forall P (map Print (ConsoleLogger.debug (ConsoleLogger.mk level) message)).
Hypothesis P_info :
  forall level message,
    allowed level = true -> info_line message = true ->
    Forall P (map Print (ConsoleLogger.info (ConsoleLogger.mk level) message)).

Lemma logger_eta (l : ConsoleLogger.t) :
  l = ConsoleLogger.mk (ConsoleLogger._logLevel l).
Proof. destruct l; reflexivity. Qed.

Ltac console_side :=
  solve [ intros; simpl; assumption
        | intros; apply P_outside; reflexivity
        | apply P_outside; destruct_args; reflexivity
        | intros c Hc; rewrite (logger_eta (_logger c)); apply P_debug; exact Hc
        | intros c Hc; rewrite (logger_eta (_logger c)); apply P_info;
          [exact Hc | reflexivity] ]
with destruct_args :=
  match goal with
  | |- context [called ?a] => destruct a
  end.

Lemma sendProperty_console payload (cb : option (callback H)) :
  preserves at_level P (sendProperty env payload cb).
Proof. unfold_methods. preserves_all console_side. Qed.

Lemma sendTelemetry_console payload properties (cb : option (callback H)) :
  preserves at_level P (sendTelemetry env payload properties cb).
Proof. unfold_methods. preserves_all console_side. Qed.

Lemma connect_console : preserves at_level P (connect env gIsMicroPython).
Proof. unfold_methods. preserves_all console_side. Qed.

Lemma _onProperties_receive_console (propCb : callback H) :
  preserves at_level P (_onProperties_receive env propCb).
Proof. unfold_methods. preserves_all console_side. Qed.

Lemma _onCommands_receive_console (cmdCb : callback H) :
  preserves at_level P (_onCommands_receive env cmdCb).
Proof. unfold_methods. preserves_all console_side. Qed.

Lemma idle_console (not_found : text) :
  preserves at_level P (logger_debug not_found ;; @sleep H 10).
Proof. preserves_all console_side. Qed.

Lemma perform_console (op : operation) (w : World H) :
  levels_within allowed op = true ->
  at_level (self w) ->
  at_level (self (perform env gIsMicroPython op w))
  /\ exists evs,
      history (perform env gIsMicroPython op w) = history w ++ evs
      /\ Forall P evs.
Proof.
  intros Hop Hi.
  assert (N : at_level (self w)
              /\ exists evs, history w = history w ++ evs /\ Forall P evs).
  { split; [exact Hi|]. exists []. rewrite app_nil_r.
    split; [reflexivity | constructor]. }
  destruct op; simpl in *; try exact N.
  - split; [exact Hop | apply N].
  - apply sendProperty_console; exact Hi.
  - apply sendTelemetry_console; exact Hi.
  - apply connect_console; exact Hi.
  - unfold _onProperties.
    destruct (preserves_logger_debug at_level P (Lit "Setup properties listener")
                ltac:(console_side) w Hi) as (I1 & e1 & H1 & P1).
    destruct (logger_debug (Lit "Setup properties listener") w) as [w1 o].
    simpl in *.
    destruct (listen_preserves at_level P IOTC_PROPERTIES
                (Lit "Properties callback not found") (_onProperties_receive env)
                _onProperties_receive_console (idle_console _) fuel w1 I1)
      as (I2 & e2 & H2 & P2).
    split; [exact I2|]. exists (e1 ++ e2).
    rewrite H2, H1, app_assoc. split; [reflexivity|].
    apply Forall_app. split; assumption.
  - unfold _onCommands.
    destruct (preserves_logger_debug at_level P (Lit "Setup commands listener")
                ltac:(console_side) w Hi) as (I1 & e1 & H1 & P1).
    destruct (logger_debug (Lit "Setup commands listener") w) as [w1 o].
    simpl in *.
    destruct (listen_preserves at_level P IOTC_COMMAND
                (Lit "Commands callback not found") (_onCommands_receive env)
                _onCommands_receive_console (idle_console _) fuel w1 I1)
      as (I2 & e2 & H2 & P2).
    split; [exact I2|]. exists (e1 ++ e2).
    rewrite H2, H1, app_assoc. split; [reflexivity|].
    apply Forall_app. split; assumption.
  - apply (resume_preserves at_level P); auto using _onProperties_receive_console,
      idle_console.
  - apply (resume_preserves at_level P); auto using _onCommands_receive_console,
      idle_console.
Qed.

Lemma perform_all_console (ops : list operation) :
  forall w : World H,
    forallb (levels_within allowed) ops = true ->
    at_level (self w) ->
    at_level (self (perform_all env gIsMicroPython ops w))
    /\ exists evs,
        history (perform_all env gIsMicroPython ops w) = history w ++ evs
        /\ Forall P evs.
Proof.
  induction ops as [|op ops IH]; intros w Hops Hi.
  - split; [exact Hi|]. exists []. simpl. rewrite app_nil_r.
    split; [reflexivity | constructor].
  - simpl in Hops. apply andb_true_iff in Hops. destruct Hops as [Hop Hops].
    destruct (perform_console op w Hop Hi) as (I1 & e1 & H1 & P1).
    destruct (IH (perform env gIsMicroPython op w) Hops I1) as (I2 & e2 & H2 & P2).
    unfold perform_all in *. simpl.
    split; [exact I2|]. exists (e1 ++ e2).
    rewrite H2, H1, app_assoc. split; [reflexivity|].
    apply Forall_app. split; assumption.
Qed.

End Console.

(** X7.  With logging disabled nothing is written to the console:
    through any sequence of operations that does not set another level, the
    level stays DISABLED and no event added to the history is a console
    line, whatever the methods and the listeners go through. *)
Theorem logging_disabled_is_silent {H} (env : Environment) (gIsMicroPython : bool)
        (ops : list (@operation H)) (w : World H) :
  ConsoleLogger._logLevel (_logger (self w)) = IOTCLogLevel.IOTC_LOGGING_DISABLED ->
  forallb (levels_within (Z.eqb IOTCLogLevel.IOTC_LOGGING_DISABLED)) ops = true ->
  let w' := perform_all env gIsMicroPython ops w in
  ConsoleLogger._logLevel (_logger (self w')) = IOTCLogLevel.IOTC_LOGGING_DISABLED
  /\ exists evs,
      history w' = history w ++ evs
      /\ Forall (fun e => is_print e = false) evs.
Proof.
  intros Hl Hops w'.
  assert (Hd : forall level message,
             (IOTCLogLevel.IOTC_LOGGING_DISABLED =? level) = true ->
             Forall (fun e => is_print e = false)
                    (map Print (ConsoleLogger.debug (ConsoleLogger.mk level) message))).
  { intros level message E. apply Z.eqb_eq in E. subst level. constructor. }
  assert (Hi : forall level message,
             (IOTCLogLevel.IOTC_LOGGING_DISABLED =? level) = true ->
             info_line message = true ->
             Forall (fun e => is_print e = false)
                    (map Print (ConsoleLogger.info (ConsoleLogger.mk level) message))).
  { intros level message E _. apply Z.eqb_eq in E. subst level. constructor. }
  assert (Hw : (IOTCLogLevel.IOTC_LOGGING_DISABLED
                =? ConsoleLogger._logLevel (_logger (self w))) = true)
    by (rewrite Hl; reflexivity).
  destruct (@perform_all_console
              H env gIsMicroPython (Z.eqb IOTCLogLevel.IOTC_LOGGING_DISABLED)
              (fun e => is_print e = false) (fun e E => E) Hd Hi ops w Hops Hw)
    as (I1 & evs & H1 & P1).
  split; [|exists evs; split; assumption].
  apply Z.eqb_eq in I1. symmetry. exact I1.
Qed.

Lemma logging_disabled_is_silent_witness :
  exists evs,
    history (perform_all Sample.friendly false
               [Call_sendTelemetry (PyDict [("temp", PyInt 21)]) None None;
                Run_onCommands 2;
                Call_sendProperty (PyDict [("fan", PyBool true)]) None]
               (perform Sample.friendly false
                        (Call_setLogLevel IOTCLogLevel.IOTC_LOGGING_DISABLED)
                        Sample.online))
    = history (perform Sample.friendly false
                       (Call_setLogLevel IOTCLogLevel.IOTC_LOGGING_DISABLED)
                       Sample.online) ++ evs
    /\ Forall (fun e => is_print e = false) evs.
Proof.
  apply (logging_disabled_is_silent
           Sample.friendly false
           [Call_sendTelemetry (PyDict [("temp", PyInt 21)]) None None;
            Run_onCommands 2;
            Call_sendProperty (PyDict [("fan", PyBool true)]) None]
           (perform Sample.friendly false
                    (Call_setLogLevel IOTCLogLevel.IOTC_LOGGING_DISABLED)
                    Sample.online)); reflexivity.
Defined.

(** X8.  [debug] writes only at the level ALL.  A client built without a
    logger is at API_ONLY; and through any sequence of operations that does
    not set the level ALL, on a client that is not at ALL, the only lines
    that reach the console are those of [info]: the line of
    [sendTelemetry] and the two error lines of [connect]. *)
Theorem console_without_debug {H} (env : Environment) (gIsMicroPython : bool) :
  (forall deviceId scopeId credType keyOrCert,
      ConsoleLogger._logLevel
        (_logger (@__init__ H deviceId scopeId credType keyOrCert None))
      = IOTCLogLevel.IOTC_LOGGING_API_ONLY)
  /\ (forall (ops : list (@operation H)) (w : World H),
         ConsoleLogger._logLevel (_logger (self w)) <> IOTCLogLevel.IOTC_LOGGING_ALL ->
         forallb (levels_within
                    (fun level => negb (level =? IOTCLogLevel.IOTC_LOGGING_ALL)))
                 ops = true ->
         let w' := perform_all env gIsMicroPython ops w in
         ConsoleLogger._logLevel (_logger (self w')) <> IOTCLogLevel.IOTC_LOGGING_ALL
         /\ exists evs,
             history w' = history w ++ evs
             /\ Forall (fun e => info_only e = true) evs).
Proof.
  split; [reflexivity|].
  intros ops w Hl Hops w'.
  assert (Ho : forall e, is_print e = false -> info_only e = true).
  { intros e E. destruct e; simpl in *; congruence. }
  assert (Hd : forall level message,
             negb (level =? IOTCLogLevel.IOTC_LOGGING_ALL) = true ->
             Forall (fun e => info_only e = true)
                    (map Print (ConsoleLogger.debug (ConsoleLogger.mk level) message))).
  { intros level message E. unfold ConsoleLogger.debug. simpl.
    destruct (level =? IOTCLogLevel.IOTC_LOGGING_ALL); [discriminate | constructor]. }
  assert (Hi : forall level message,
             negb (level =? IOTCLogLevel.IOTC_LOGGING_ALL) = true ->
             info_line message = true ->
             Forall (fun e => info_only e = true)
                    (map Print (ConsoleLogger.info (ConsoleLogger.mk level) message))).
  { intros level message _ E. unfold ConsoleLogger.info, ConsoleLogger._log.
    destruct (negb _); repeat constructor. exact E. }
  assert (Hw : negb (ConsoleLogger._logLevel (_logger (self w))
                     =? IOTCLogLevel.IOTC_LOGGING_ALL) = true).
  { apply negb_true_iff. apply Z.eqb_neq. exact Hl. }
  destruct (@perform_all_console
              H env gIsMicroPython
              (fun level => negb (level =? IOTCLogLevel.IOTC_LOGGING_ALL))
              (fun e => info_only e = true) Ho Hd Hi ops w Hops Hw)
    as (I1 & evs & H1 & P1).
  split; [|exists evs; split; assumption].
  apply negb_true_iff in I1. apply Z.eqb_neq in I1. exact I1.
Qed.

Lemma console_without_debug_witness :
  exists evs,
    history (perform_all Sample.friendly false
               [Call_sendTelemetry (PyDict [("temp", PyInt 21)]) None None;
                Call_on IOTC_COMMAND Sample.accept;
                Hub_queues_method (Ok Sample.reboot);
                Run_onCommands 2]
               Sample.online)
    = history Sample.online ++ evs
    /\ Forall (fun e => info_only e = true) evs.
Proof.
  apply (proj2 (console_without_debug Sample.friendly false)
               [Call_sendTelemetry (PyDict [("temp", PyInt 21)]) None None;
                Call_on IOTC_COMMAND Sample.accept;
                Hub_queues_method (Ok Sample.reboot);
                Run_onCommands 2]
               Sample.online).
  - discriminate.
  - reflexivity.
Defined.

(** ** The stages of [connect] in closed form *)

Lemma outside_app (a b : list event) : outside (a ++ b) = outside a ++ outside b.
Proof. apply filter_app. Qed.

Lemma outside_prints (l : list text) : outside (map Print l) = [].
Proof. induction l; simpl; auto. Qed.

Lemma outside_cons (e : event) (l : list event) :
  outside (e :: l) = (if is_print e then [] else [e]) ++ outside l.
Proof. unfold outside. simpl. destruct (is_print e); reflexivity. Qed.

Lemma outside_nil : outside [] = [].
Proof. reflexivity. Qed.

(** Brings the outside of a history built by the stages to a list. *)
Ltac outside_norm :=
  repeat first [ rewrite outside_app
               | rewrite outside_prints
               | rewrite outside_nil
               | rewrite outside_cons; cbn [is_print app] ];
  rewrite ?app_nil_r; cbn [app].

Lemma outside_only_prints (evs : list event) :
  Forall (fun e => is_print e = true) evs -> outside evs = [].
Proof.
  induction 1 as [|e evs He _ IH]; [reflexivity|].
  unfold outside in *. simpl. rewrite He. exact IH.
Qed.

Section Stages.

Context {H : Type}.
Variable env : Environment.
Variable gIsMicroPython : bool.

(** The first stage writes to the console only. *)
Lemma connect_credentials_prints :
  preserves (fun _ : IoTCClient H => True) (fun e => is_print e = true)
            (connect_credentials env gIsMicroPython).
Proof.
  unfold connect_credentials, _computeDerivedSymmetricKey, new_X509.
  preserves_all ltac:(first [ intros; exact I
                            | intros; induction (ConsoleLogger.debug _ _);
                              simpl; constructor; auto ]).
Qed.

Lemma connect_model_run (w : World H) :
  connect_model w
  = if truthy (_modelId (self w)) then
      match _provisioningClient (self w) with
      | Some pc =>
          (mkWorld (set_provisioningClient
                      (Some (mkProvisioning
                               (provisioning_host pc) (registration_id pc)
                               (id_scope pc) (auth pc)
                               (Some (PyDict [("iotcModelId", _modelId (self w))]))))
                      (self w))
                   (app w) (history w) (twin_patches w) (method_requests w),
           Return tt)
      | None => (w, Raise (AttributeError "_provisioningClient"))
      end
    else (w, Return tt).
Proof.
  unfold connect_model, provisioning_client. unfold_m.
  destruct (truthy (_modelId (self w))); [|reflexivity].
  destruct (_provisioningClient (self w)); reflexivity.
Qed.

(** The registration and the construction of the hub client. *)
Lemma connect_provision_run (x509 : option X509) (pc : ProvisioningDeviceClient)
      (w : World H) :
  _provisioningClient (self w) = Some pc ->
  let failed := map Print (ConsoleLogger.info
                             (_logger (self w))
                             (Lit "ERROR: Failed to get device provisioning information")) in
  connect_provision env x509 w
  = match register env (history w) pc with
    | Err e => (extend w (Registered pc :: failed), Raise (rebuild e))
    | Ok reg =>
        let cs := connection_string_of (self w) reg in
        let prints :=
          map Print
              (ConsoleLogger.debug (_logger (self w)) (Lit (assigned_hub reg))
               ++ ConsoleLogger.debug
                    (_logger (self w))
                    (Format "IoTHub Connection string: {}"
                            [ArgStr "HostName={};DeviceId={};SharedAccessKey={}";
                             ArgStr (assigned_hub reg); ArgStr (_deviceId (self w));
                             ArgKey (_keyORCert (self w))])) in
        let w1 := mkWorld (set_hubCString (Some cs) (self w)) (app w)
                          (history w ++ Registered pc :: prints)
                          (twin_patches w) (method_requests w) in
        match hub_client_of (self w) x509 reg with
        | Err e => (extend w1 failed, Raise (rebuild e))
        | Ok dc =>
            match create_hub_client env (history w1) dc with
            | Some e => (extend w1 failed, Raise (rebuild e))
            | None =>
                (mkWorld (set_deviceClient (Some dc) (self w1)) (app w)
                         (history w1) (twin_patches w) (method_requests w),
                 Return tt)
            end
        end
    end.
Proof.
  intros Hp failed. unfold connect_provision, provisioning_client.
  unfold try_except, bind at 1. unfold bind at 1, get_self at 1.
  rewrite Hp. unfold ret at 1. unfold bind at 1, get_history at 1.
  unfold bind at 1, emit at 1. unfold bind at 1.
  destruct (register env (history w) pc) as [reg|e]; unfold lift.
  2:{ unfold raise at 1. unfold bind at 1. rewrite logger_info_run. simpl.
      unfold extend. rewrite <- app_assoc. reflexivity. }
  unfold ret at 1. cbv zeta.
  unfold bind at 1. rewrite logger_debug_run. cbn [self app history twin_patches method_requests].
  unfold bind at 1, get_self at 1. cbn [self].
  unfold bind at 1, set_self at 1. cbn [self app history twin_patches method_requests].
  unfold bind at 1. rewrite logger_debug_run.
  cbn [self app history twin_patches method_requests _logger set_hubCString].
  unfold hub_client_of, connection_string_of.
  rewrite <- !app_assoc, <- map_app. cbn [app].
  destruct (symmetric (_credType (self w))).
  - unfold bind at 1, ret at 1. unfold bind at 1, get_history at 1.
    cbn [history]. unfold bind at 1.
    destruct (create_hub_client env _ _); unfold check.
    + unfold raise at 1. unfold bind at 1. rewrite logger_info_run. reflexivity.
    + reflexivity.
  - destruct x509 as [x|].
    + unfold bind at 1, ret at 1. unfold bind at 1, get_history at 1.
      cbn [history]. unfold bind at 1.
      destruct (create_hub_client env _ _); unfold check.
      * unfold raise at 1. unfold bind at 1. rewrite logger_info_run. reflexivity.
      * reflexivity.
    + unfold bind at 1, raise at 1. unfold bind at 1.
      rewrite logger_info_run. reflexivity.
Qed.

(** The session with the hub. *)
Lemma connect_hub_run (dc : IoTHubDeviceClient) (w : World H) :
  _deviceClient (self w) = Some dc ->
  connect_hub env w
  = match hub_connect env (history w) dc with
    | Some e =>
        (extend w (HubConnected dc
                   :: map Print (ConsoleLogger.info
                                   (_logger (self w))
                                   (Lit "ERROR: Failed to connect to Hub"))),
         Raise (rebuild e))
    | None =>
        (mkWorld (set_connected true (self w)) (app w)
                 (history w
                  ++ HubConnected dc
                     :: map Print (ConsoleLogger.debug (_logger (self w))
                                                       (Lit "Device connected")))
                 (twin_patches w) (method_requests w),
         Return tt)
    end.
Proof.
  intro Hdc. unfold connect_hub, device_client. unfold_m. rewrite Hdc. simpl.
  destruct (hub_connect env (history w) dc); simpl.
  - rewrite logger_info_run. simpl. unfold extend.
    rewrite <- app_assoc. reflexivity.
  - rewrite logger_debug_run. simpl. rewrite <- app_assoc. reflexivity.
Qed.

Lemma connect_listeners_run (w : World H) :
  connect_listeners w
  = (mkWorld (set_cmdThread (Some (mkThread CommandsListener true))
                (set_propThread (Some (mkThread PropertiesListener true)) (self w)))
             (app w) (history w ++ listener_threads)
             (twin_patches w) (method_requests w),
     Return tt).
Proof.
  unfold connect_listeners, listener_threads. unfold_m. simpl.
  rewrite <- app_assoc. reflexivity.
Qed.

End Stages.
Section Credentials.

Context {H : Type}.
Variable env : Environment.
Variable gIsMicroPython : bool.

(** Splits an equation on a computation along the tests it goes through. *)
Ltac split_run E :=
  repeat (cbn [fst snd self app history twin_patches method_requests] in E;
          first [ progress unfold_m
                | rewrite logger_debug_run in E
                | rewrite logger_info_run in E
                | match type of E with
                  | context [match ?x with _ => _ end] =>
                      lazymatch type of x with
                      | (_ * _)%type => fail
                      | _ => let Q := fresh "Q" in destruct x eqn:Q
                      end
                  end ]).

(** What the first stage leaves when it returns. *)
Lemma connect_credentials_returns (w w1 : World H) (x509 : option X509) :
  connect_credentials env gIsMicroPython w = (w1, Return x509) ->
  _provisioningClient (self w1)
  = Some (mkProvisioning
            (_globalEndpoint (self w)) (_deviceId (self w)) (_scopeId (self w))
            (match x509 with
             | Some x => X509Auth x
             | None => SymmetricKeyAuth (_keyORCert (self w1))
             end) None)
  /\ symmetric (_credType (self w)) = match x509 with Some _ => false | None => true end
  /\ (_credType (self w) <> IOTCConnectType.IOTC_CONNECT_SYMM_KEY ->
      _keyORCert (self w1) = _keyORCert (self w)).
Proof.
  intro E.
  unfold connect_credentials, _computeDerivedSymmetricKey, new_X509 in E.
  unfold_m. split_run E; try discriminate.
  all: injection E as <- <-; simpl;
    repeat split; auto; try (intro N; try reflexivity).
  all: match goal with
       | Q : (_ =? _) = true |- _ => apply Z.eqb_eq in Q; contradiction
       end.
Qed.


(** With a certificate: the files, then the certificate object, with the
    passphrase when there is one and [X509] takes it, without it after a
    line on the console otherwise. *)
Lemma connect_credentials_certificate (w : World H) (keyfile certfile : pyval) :
  symmetric (_credType (self w)) = false ->
  key_subscript (_keyORCert (self w)) "keyFile" = Ok keyfile ->
  key_subscript (_keyORCert (self w)) "certFile" = Ok certfile ->
  let c1 := set_certfile (Some certfile) (set_keyfile (Some keyfile) (self w)) in
  let fallback :=
    map Print (ConsoleLogger.debug
                 (_logger (self w))
                 (Lit "No passphrase available for certificate. Trying without it")) in
  let provision (x : X509) (c : IoTCClient H) (h : list event) :=
    let pc := mkProvisioning (_globalEndpoint (self w)) (_deviceId (self w))
                             (_scopeId (self w)) (X509Auth x) None in
    match create_provisioning env h pc with
    | Some e => (mkWorld c (app w) h (twin_patches w) (method_requests w), Raise e)
    | None =>
        (mkWorld (set_provisioningClient (Some pc) c) (app w) h
                 (twin_patches w) (method_requests w),
         Return (Some x))
    end in
  let without (c : IoTCClient H) :=
    match X509_new env (history w ++ fallback) (mkX509 certfile keyfile None) with
    | Some e =>
        (mkWorld c (app w) (history w ++ fallback) (twin_patches w)
                 (method_requests w), Raise e)
    | None => provision (mkX509 certfile keyfile None) c (history w ++ fallback)
    end in
  connect_credentials env gIsMicroPython w
  = match key_subscript (_keyORCert (self w)) "certPhrase" with
    | Err _ => without c1
    | Ok certPhrase =>
        match X509_new env (history w) (mkX509 certfile keyfile (Some certPhrase)) with
        | Some _ => without (set_certPhrase (Some certPhrase) c1)
        | None =>
            provision (mkX509 certfile keyfile (Some certPhrase))
                      (set_certPhrase (Some certPhrase) c1) (history w)
        end
    end.
Proof.
  intros Hs Hk Hc. cbv zeta.
  unfold connect_credentials, new_X509. unfold_m. rewrite Hs, Hk. simpl.
  rewrite Hc. simpl.
  destruct (key_subscript (_keyORCert (self w)) "certPhrase") as [p|e]; simpl.
  - destruct (X509_new env (history w) _); simpl.
    + rewrite logger_debug_run. simpl.
      destruct (X509_new env _ _); simpl; [reflexivity|].
      destruct (create_provisioning env _ _); reflexivity.
    + destruct (create_provisioning env _ _); reflexivity.
  - rewrite logger_debug_run. simpl.
    destruct (X509_new env _ _); simpl; [reflexivity|].
    destruct (create_provisioning env _ _); reflexivity.
Qed.

End Credentials.
Section Shape.

Context {H : Type}.
Variable env : Environment.
Variable gIsMicroPython : bool.

(** What the first stage never assigns. *)
Lemma connect_credentials_keeps_rest :
  keeps (fun c : IoTCClient H =>
           (_deviceId c, _scopeId c, _credType c, _modelId c, _globalEndpoint c,
            _logger c, _connected c, _propThread c, _cmdThread c, _deviceClient c))
        (connect_credentials env gIsMicroPython).
Proof.
  unfold connect_credentials, _computeDerivedSymmetricKey, new_X509. keeps_all.
Qed.

(** The model id goes into the provisioning client. *)
Lemma connect_model_returns (w : World H) (auth : ProvisioningAuth) :
  _provisioningClient (self w)
  = Some (mkProvisioning (_globalEndpoint (self w)) (_deviceId (self w))
                         (_scopeId (self w)) auth None) ->
  connect_model w
  = (mkWorld (set_provisioningClient (Some (provisioning_of (self w) auth)) (self w))
             (app w) (history w) (twin_patches w) (method_requests w),
     Return tt).
Proof.
  intro Hp. rewrite connect_model_run. unfold provisioning_of, model_payload.
  rewrite Hp. destruct (truthy (_modelId (self w))); simpl; [reflexivity|].
  rewrite <- Hp. destruct w as [c a h q1 q2]. destruct c. reflexivity.
Qed.

(** [connect] from the stage that registers on, for a client whose
    provisioning client is [pc]. *)
Lemma connect_from_provision (x509 : option X509) (pc : ProvisioningDeviceClient)
      (w : World H) :
  _provisioningClient (self w) = Some pc ->
  let after := (connect_provision env x509 ;; connect_hub env ;; connect_listeners) w in
  exists evs,
    history (fst after) = history w ++ evs
    /\ match snd after with
       | Return _ =>
           exists reg dc rest,
             register env (history w) pc = Ok reg
             /\ evs = Registered pc :: rest
             /\ hub_client_of (self w) x509 reg = Ok dc
             /\ self (fst after)
                = set_cmdThread
                    (Some (mkThread CommandsListener true))
                    (set_propThread
                       (Some (mkThread PropertiesListener true))
                       (set_connected
                          true
                          (set_deviceClient
                             (Some dc)
                             (set_hubCString (Some (connection_string_of (self w) reg))
                                             (self w)))))
             /\ outside evs = Registered pc :: HubConnected dc :: listener_threads
       | Raise _ =>
           _propThread (self (fst after)) = _propThread (self w)
           /\ _cmdThread (self (fst after)) = _cmdThread (self w)
           /\ _connected (self (fst after)) = _connected (self w)
           /\ (outside evs = [Registered pc] /\ _deviceClient (self (fst after)) = _deviceClient (self w)
               \/ exists dc, outside evs = [Registered pc; HubConnected dc]
                             /\ _deviceClient (self (fst after)) = Some dc)
       | Blocked => False
       end.
Proof.
  intros Hp after. subst after. unfold bind.
  rewrite (connect_provision_run env x509 pc w Hp). cbv zeta.
  destruct (register env (history w) pc) as [reg|e] eqn:Hreg.
  2:{ cbn [fst snd extend history self]. eexists. split; [reflexivity|].
      repeat split. left. split; [|reflexivity]. outside_norm. reflexivity. }
  destruct (hub_client_of (self w) x509 reg) as [dc|e] eqn:Hdc.
  2:{ cbn [fst snd extend history self]. rewrite <- app_assoc.
      eexists. split; [reflexivity|]. repeat split. left. split; [|reflexivity].
      outside_norm. reflexivity. }
  match goal with
  | |- context [create_hub_client env ?h dc] => destruct (create_hub_client env h dc)
  end.
  { cbn [fst snd extend history self]. rewrite <- app_assoc.
    eexists. split; [reflexivity|]. repeat split. left. split; [|reflexivity].
    outside_norm. reflexivity. }
  cbv beta iota.
  match goal with
  | |- context [connect_hub env ?w1] =>
      rewrite (connect_hub_run env dc w1 eq_refl)
  end.
  cbn [self app history twin_patches method_requests].
  match goal with
  | |- context [hub_connect env ?h dc] => destruct (hub_connect env h dc)
  end.
  { cbn [fst snd extend history self]. rewrite <- !app_assoc.
    eexists. split; [reflexivity|]. repeat split. right. exists dc.
    split; [|reflexivity]. outside_norm. reflexivity. }
  rewrite connect_listeners_run.
  cbn [fst snd self app history twin_patches method_requests].
  rewrite <- !app_assoc. eexists. split; [reflexivity|].
  exists reg, dc. eexists. split; [reflexivity|]. split; [reflexivity|].
  split; [exact Hdc|]. split; [reflexivity|].
  unfold listener_threads. outside_norm. reflexivity.
Qed.

(** [connect] as a whole: what a call that returns leaves and did, and
    how far a call that raises went. *)
Lemma connect_shape (w : World H) :
  let after := connect env gIsMicroPython w in
  let c := self (fst after) in
  exists evs,
    history (fst after) = history w ++ evs
    /\ match snd after with
       | Return _ =>
           exists x509 reg dc,
             let pc := provisioning_of (self w) (auth_of c x509) in
             symmetric (_credType (self w))
             = match x509 with Some _ => false | None => true end
             /\ _provisioningClient c = Some pc
             /\ _hubCString c = Some (connection_string_of c reg)
             /\ hub_client_of c x509 reg = Ok dc
             /\ _deviceClient c = Some dc
             /\ _connected c = true
             /\ _propThread c = Some (mkThread PropertiesListener true)
             /\ _cmdThread c = Some (mkThread CommandsListener true)
             /\ outside evs = Registered pc :: HubConnected dc :: listener_threads
             /\ exists before rest,
                  evs = before ++ Registered pc :: rest
                  /\ Forall (fun e => is_print e = true) before
                  /\ register env (history w ++ before) pc = Ok reg
       | Raise _ =>
           _propThread c = _propThread (self w)
           /\ _cmdThread c = _cmdThread (self w)
           /\ _connected c = _connected (self w)
           /\ (outside evs = [] /\ _deviceClient c = _deviceClient (self w)
               \/ exists x509,
                    let pc := provisioning_of (self w) (auth_of c x509) in
                    symmetric (_credType (self w))
                    = match x509 with Some _ => false | None => true end
                    /\ (outside evs = [Registered pc]
                        /\ _deviceClient c = _deviceClient (self w)
                        \/ exists dc, outside evs = [Registered pc; HubConnected dc]
                                      /\ _deviceClient c = Some dc))
       | Blocked => False
       end.
Proof.
  cbv zeta.
  assert (E : connect env gIsMicroPython w
              = match connect_credentials env gIsMicroPython w with
                | (w1, Return x509) =>
                    (connect_model ;; connect_provision env x509 ;;
                     connect_hub env ;; connect_listeners) w1
                | (w1, Raise e) => (w1, Raise e)
                | (w1, Blocked) => (w1, Blocked)
                end) by reflexivity.
  rewrite E. clear E.
  destruct (connect_credentials_prints env gIsMicroPython w I) as (_ & evs1 & H1 & P1).
  pose proof (connect_credentials_keeps_rest w) as K. cbv beta in K.
  pose proof (connect_unblocked env gIsMicroPython w) as B.
  unfold connect, bind in B.
  destruct (connect_credentials env gIsMicroPython w) as [w1 [x509|e|]] eqn:E1;
    cbn [fst snd] in *.
  3:{ congruence. }
  2:{ exists evs1. split; [exact H1|]. injection K as K1 K2 K3 K4 K5 K6 K7 K8 K9 K10.
      repeat split; try assumption. left. split; [|assumption].
      apply outside_only_prints. exact P1. }
  clear B.
  destruct (connect_credentials_returns env gIsMicroPython w w1 x509 E1)
    as (Hpc & Hsym & _).
  fold (auth_of (self w1) x509) in Hpc.
  injection K as K1 K2 K3 K4 K5 K6 K7 K8 K9 K10.
  pose proof (connect_after_credentials_keeps_key env x509 w1) as Kk.
  assert (Hpc1 : _provisioningClient (self w1)
                 = Some (mkProvisioning (_globalEndpoint (self w1)) (_deviceId (self w1))
                                        (_scopeId (self w1)) (auth_of (self w1) x509) None))
    by (rewrite Hpc; congruence).
  assert (Hof : provisioning_of (self w1) (auth_of (self w1) x509)
                = provisioning_of (self w) (auth_of (self w1) x509))
    by (unfold provisioning_of; congruence).
  assert (E2 : (connect_model ;; connect_provision env x509 ;;
                connect_hub env ;; connect_listeners) w1
               = (connect_provision env x509 ;; connect_hub env ;; connect_listeners)
                   (mkWorld (set_provisioningClient
                               (Some (provisioning_of (self w1) (auth_of (self w1) x509)))
                               (self w1))
                            (app w1) (history w1) (twin_patches w1)
                            (method_requests w1))).
  { unfold bind at 1. rewrite (connect_model_returns w1 _ Hpc1). reflexivity. }
  rewrite E2 in *. clear E2.
  match goal with
  | |- context [(connect_provision env x509 ;; _) ?w2] =>
      pose proof (connect_from_provision
                    x509 (provisioning_of (self w1) (auth_of (self w1) x509))
                    w2 eq_refl) as F;
        cbv zeta in F; destruct F as (evs2 & H2 & F);
        destruct ((connect_provision env x509 ;; connect_hub env ;; connect_listeners)
                    w2) as [w5 [[]|e|]]
  end; cbn [fst snd self history] in *.
  - exists (evs1 ++ evs2). split; [rewrite H2, H1, app_assoc; reflexivity|].
    destruct F as (reg & dc & rest & Hreg & Hevs & Hdc & Hself & Hout).
    assert (Ha : auth_of (self w5) x509 = auth_of (self w1) x509)
      by (unfold auth_of; rewrite Kk; reflexivity).
    exists x509, reg, dc. cbv zeta. rewrite Ha. rewrite Hself in *. cbn.
    repeat split; try congruence.
    + unfold hub_client_of in *. cbn. exact Hdc.
    + rewrite outside_app, (outside_only_prints evs1 P1), Hout. cbn [app].
      rewrite Hof. reflexivity.
    + exists evs1, rest. rewrite <- Hof, <- H1. rewrite Hevs.
      repeat split; [exact P1 | exact Hreg].
  - exists (evs1 ++ evs2). split; [rewrite H2, H1, app_assoc; reflexivity|].
    destruct F as (F1 & F2 & F3 & F4). cbn in F1, F2, F3.
    assert (Ha : auth_of (self w5) x509 = auth_of (self w1) x509)
      by (unfold auth_of; rewrite Kk; reflexivity).
    repeat split; try congruence.
    rewrite outside_app, (outside_only_prints evs1 P1). cbn [app].
    right. exists x509. rewrite Ha, <- Hof. split; [exact Hsym|].
    destruct F4 as [[Ho Hd] | (dc & Ho & Hd)].
    + left. split; [exact Ho|]. cbn in Hd. congruence.
    + right. exists dc. split; [exact Ho | exact Hd].
  - contradiction.
Qed.

End Shape.
Lemma registrations_outside (evs : list event) :
  registrations (outside evs) = registrations evs.
Proof.
  induction evs as [|e evs IH]; [reflexivity|].
  rewrite outside_cons. destruct e; simpl; rewrite ?IH; reflexivity.
Qed.

Lemma threads_started_outside (evs : list event) :
  threads_started (outside evs) = threads_started evs.
Proof.
  induction evs as [|e evs IH]; [reflexivity|].
  rewrite outside_cons. destruct e; simpl; rewrite ?IH; reflexivity.
Qed.

Section Ready.

Context {H : Type}.
Variable env : Environment.
Variable gIsMicroPython : bool.





End Ready.

(** X9.  A call of [connect] that returns has, in this order and
    besides console lines, registered once with the provisioning service,
    opened one session with the hub and started the two daemon threads of
    the listeners.  The registration carries the endpoint, the device id,
    the scope id and the model id that were configured, and the key stored
    when the stage ended or the certificate.  The registration result is
    what the provisioning service answered to that registration, asked
    when the call had only written to the console; with a key the hub
    client is built from the connection string of the hub assigned in that
    answer, this device id and that key, with a certificate from the
    certificate, the assigned hub and the device id of the answer.  The
    client holds these objects and the flag is true. *)
Theorem connect_returns {H} (env : Environment) (gIsMicroPython : bool)
        (w : World H) :
  snd (connect env gIsMicroPython w) = Return tt ->
  let after := connect env gIsMicroPython w in
  let c := self (fst after) in
  exists evs x509 reg dc,
    let pc := provisioning_of (self w) (auth_of c x509) in
    history (fst after) = history w ++ evs
    /\ outside evs = Registered pc :: HubConnected dc :: listener_threads
    /\ (exists before rest,
           evs = before ++ Registered pc :: rest
           /\ Forall (fun e => is_print e = true) before
           /\ register env (history w ++ before) pc = Ok reg)
    /\ symmetric (_credType (self w))
       = match x509 with Some _ => false | None => true end
    /\ dc = match x509 with
            | None => FromConnectionString
                        (mkConnectionString (assigned_hub reg) (_deviceId (self w))
                                            (_keyORCert c))
            | Some x => FromX509Certificate x (assigned_hub reg) (device_id reg)
            end
    /\ _provisioningClient c = Some pc
    /\ _hubCString c
       = Some (mkConnectionString (assigned_hub reg) (_deviceId (self w)) (_keyORCert c))
    /\ _deviceClient c = Some dc
    /\ _connected c = true
    /\ _propThread c = Some (mkThread PropertiesListener true)
    /\ _cmdThread c = Some (mkThread CommandsListener true).
Proof.
  intro R. cbv zeta.
  destruct (connect_shape env gIsMicroPython w) as (evs & Hh & S).
  cbv zeta in S. rewrite R in S.
  destruct S as (x509 & reg & dc & Hs & Hp & Hc & Hd & Hdc & Hf & Ht1 & Ht2 & Ho & Hr).
  pose proof (connect_keeps_identity env gIsMicroPython w) as K. cbv beta in K.
  injection K as K1 K2.
  exists evs, x509, reg, dc.
  split; [exact Hh|]. split; [exact Ho|]. split; [exact Hr|].
  repeat split; try assumption.
  - unfold hub_client_of, connection_string_of in Hd. rewrite K2, Hs, K1 in Hd.
    destruct x509; congruence.
  - rewrite Hc. unfold connection_string_of. rewrite K1. reflexivity.
Qed.

Lemma connect_returns_witness :
  exists evs pc dc,
    history (fst (connect Sample.friendly false (Sample.boot Sample.device)))
    = history (Sample.boot Sample.device) ++ evs
    /\ outside evs = Registered pc :: HubConnected dc :: listener_threads
    /\ exists before reg,
         register Sample.friendly (history (Sample.boot Sample.device) ++ before) pc
         = Ok reg
         /\ _deviceClient (self (fst (connect Sample.friendly false
                                              (Sample.boot Sample.device))))
            = Some (FromConnectionString
                      (mkConnectionString
                         (assigned_hub reg) "device1"
                         (_keyORCert (self (fst (connect Sample.friendly false
                                                         (Sample.boot Sample.device))))))).
Proof.
  assert (R : snd (connect Sample.friendly false (Sample.boot Sample.device))
              = Return tt) by (vm_compute; reflexivity).
  destruct (connect_returns Sample.friendly false (Sample.boot Sample.device) R)
    as (evs & x509 & reg & dc & Hh & Ho & (before & rest & _ & _ & Hr) & Hs & Hdc
        & _ & _ & Hd & _).
  exists evs. eexists. exists dc. split; [exact Hh|]. split; [exact Ho|].
  exists before, reg. split; [exact Hr|].
  destruct x509 as [x|]; [discriminate Hs|].
  rewrite Hd, Hdc. reflexivity.
Defined.



(** ** [connect] when the logger or a thread fails *)

(** With the console logger and threads that start, the second embedding
    is the first. *)
Lemma connect_with_console {H} (env : Environment) (gIsMicroPython : bool) :
  connect_with env gIsMicroPython logger_debug logger_info
               (fun thread => emit (ThreadStarted thread))
  = @connect H env gIsMicroPython.
Proof. reflexivity. Qed.

Section Extensional.

Context {H : Type}.

Lemma bind_ext {A B} (m m' : M H A) (k k' : A -> M H B) (w : World H) :
  m w = m' w -> (forall a w1, k a w1 = k' a w1) -> bind m k w = bind m' k' w.
Proof.
  intros Hm Hk. unfold bind. rewrite Hm.
  destruct (m' w) as [w1 [a|e|]]; auto.
Qed.

Lemma try_except_ext {A} (m m' : M H A) (handler handler' : exn -> M H A)
      (w : World H) :
  m w = m' w -> (forall e w1, handler e w1 = handler' e w1) ->
  try_except m handler w = try_except m' handler' w.
Proof.
  intros Hm Hh. unfold try_except. rewrite Hm.
  destruct (m' w) as [w1 [a|e|]]; auto.
Qed.

End Extensional.

Ltac ext_step :=
  cbv beta zeta;
  match goal with
  | |- bind _ _ _ = bind _ _ _ => apply bind_ext; [| intros]
  | |- try_except _ _ _ = try_except _ _ _ => apply try_except_ext; [| intros]
  | |- (if ?b then _ else _) _ = _ => destruct b
  | |- (match ?x with _ => _ end) _ = _ => destruct x
  | |- _ => solve [auto]
  end.

Section Quiet.

Context {H : Type}.
Variable env : Environment.
Variable gIsMicroPython : bool.
Variables debug info debug' info' : text -> M H unit.
Variables start start' : Thread -> M H unit.
Hypothesis same_debug : forall message w, debug message w = debug' message w.
Hypothesis same_info : forall message w, info message w = info' message w.
Hypothesis same_start : forall thread w, start thread w = start' thread w.

(** Loggers and thread starts that do the same give the same [connect]. *)
Lemma connect_with_ext (w : World H) :
  connect_with env gIsMicroPython debug info start w
  = connect_with env gIsMicroPython debug' info' start' w.
Proof.
  unfold connect_with, connect_credentials_with, connect_provision_with,
    connect_hub_with, connect_listeners_with, _computeDerivedSymmetricKey_with.
  repeat ext_step.
Qed.

End Quiet.

(** When no call of the logger and no start of a thread raises, the
    second embedding runs as the first. *)
Lemma connect_on_quiet {H} (rt : Runtime) (env : Environment)
      (gIsMicroPython : bool) (w : World H) :
  (forall h message, debug_call rt h message = None) ->
  (forall h message, info_call rt h message = None) ->
  (forall h thread, thread_start rt h thread = None) ->
  connect_on rt env gIsMicroPython w = connect env gIsMicroPython w.
Proof.
  intros Hd Hi Hs. rewrite <- connect_with_console. unfold connect_on.
  apply connect_with_ext; intros; unfold logger_debug_on, logger_info_on, start_on;
    unfold bind at 1 2, get_history; rewrite ?Hd, ?Hi, ?Hs; reflexivity.
Qed.

Lemma threads_started_none (evs : list event) :
  Forall (fun e => threads_started [e] = []) evs -> threads_started evs = [].
Proof.
  induction 1 as [|e evs He _ IH]; [reflexivity|].
  destruct e; simpl in *; try exact IH. discriminate He.
Qed.

Lemma threads_started_app (evs evs' : list event) :
  threads_started (evs ++ evs') = threads_started evs ++ threads_started evs'.
Proof.
  induction evs as [|e evs IH]; [reflexivity|].
  destruct e; simpl; rewrite ?IH; reflexivity.
Qed.

Lemma threads_started_prints (l : list text) (evs : list event) :
  threads_started (map Print l ++ evs) = threads_started evs.
Proof. induction l as [|m l IH]; [reflexivity | exact IH]. Qed.

Lemma threads_started_console (l : list text) :
  threads_started (map Print l) = [].
Proof. induction l as [|m l IH]; [reflexivity | exact IH]. Qed.

Section Raising.

Context {H : Type}.
Variable rt : Runtime.
Variable env : Environment.
Variable gIsMicroPython : bool.

Lemma preserves_logger_debug_on I P (message : text) :
  (forall c : IoTCClient H, I c ->
     Forall P (map Print (ConsoleLogger.debug (_logger c) message))) ->
  preserves I P (@logger_debug_on H rt message).
Proof.
  intro Hp. unfold logger_debug_on.
  apply preserves_bind; [apply preserves_get_history | intro h].
  apply preserves_bind; [apply preserves_check | intros _].
  apply preserves_logger_debug. exact Hp.
Qed.

Lemma preserves_logger_info_on I P (message : text) :
  (forall c : IoTCClient H, I c ->
     Forall P (map Print (ConsoleLogger.info (_logger c) message))) ->
  preserves I P (@logger_info_on H rt message).
Proof.
  intro Hp. unfold logger_info_on.
  apply preserves_bind; [apply preserves_get_history | intro h].
  apply preserves_bind; [apply preserves_check | intros _].
  apply preserves_logger_info. exact Hp.
Qed.

Ltac quiet_side :=
  first [ intros ? Hc; exact Hc
        | reflexivity
        | intros; induction (ConsoleLogger.debug _ _); simpl; constructor;
          [reflexivity | assumption]
        | intros; induction (ConsoleLogger.info _ _); simpl; constructor;
          [reflexivity | assumption] ].

Ltac quiet_step :=
  match goal with
  | |- preserves _ _ (logger_debug_on _ _) =>
      apply preserves_logger_debug_on; solve [quiet_side]
  | |- preserves _ _ (logger_info_on _ _) =>
      apply preserves_logger_info_on; solve [quiet_side]
  | |- _ => preserves_step quiet_side
  end.

(** Up to the session with the hub, whatever the logger does: the flag and
    the thread attributes stay and no thread is started. *)
Lemma connect_credentials_on_threads (v : option Thread * option Thread * bool) :
  preserves (fun c : IoTCClient H => (_propThread c, _cmdThread c, _connected c) = v)
            (fun e => threads_started [e] = [])
            (connect_credentials_with env gIsMicroPython (logger_debug_on rt)).
Proof.
  unfold connect_credentials_with, _computeDerivedSymmetricKey_with, new_X509.
  cbv zeta. repeat quiet_step.
Qed.

Lemma connect_model_threads (v : option Thread * option Thread * bool) :
  preserves (fun c : IoTCClient H => (_propThread c, _cmdThread c, _connected c) = v)
            (fun e => threads_started [e] = [])
            (@connect_model H).
Proof. unfold connect_model. cbv zeta. repeat quiet_step. Qed.

Lemma connect_provision_on_threads (v : option Thread * option Thread * bool)
      (x509 : option X509) :
  preserves (fun c : IoTCClient H => (_propThread c, _cmdThread c, _connected c) = v)
            (fun e => threads_started [e] = [])
            (connect_provision_with env (logger_debug_on rt) (logger_info_on rt) x509).
Proof. unfold connect_provision_with. cbv zeta. repeat quiet_step. Qed.

End Raising.

Section Tail.

Context {H : Type}.
Variable rt : Runtime.
Variable env : Environment.
Variable gIsMicroPython : bool.

Ltac give_events :=
  eexists;
  split; [ first [ reflexivity
                 | rewrite <- !app_assoc; reflexivity
                 | symmetry; apply app_nil_r ] |].

Ltac no_threads :=
  rewrite ?threads_started_app; cbn [threads_started];
  rewrite ?threads_started_prints, ?threads_started_console; reflexivity.

Ltac case_info :=
  match goal with
  | |- context [info_call rt ?h ?m] => destruct (info_call rt h m) as [e'|] eqn:Hi
  end.

Ltac case_debug :=
  match goal with
  | |- context [debug_call rt ?h ?m] => destruct (debug_call rt h m) as [v|] eqn:Hd
  end.

(** The session with the hub.  A call that raises has left the flag as it
    was, unless the hub had accepted the session and the call of [debug]
    that follows the assignment of the flag raised. *)
Lemma connect_hub_on_cases (w : World H) :
  let after := connect_hub_with env (logger_debug_on rt) (logger_info_on rt) w in
  let c := self (fst after) in
  (_propThread c, _cmdThread c, _deviceClient c)
  = (_propThread (self w), _cmdThread (self w), _deviceClient (self w))
  /\ exists evs,
      history (fst after) = history w ++ evs
      /\ threads_started evs = []
      /\ match snd after with
         | Return _ =>
             _connected c = true
             /\ exists dc,
                  _deviceClient (self w) = Some dc
                  /\ hub_connect env (history w) dc = None
         | Raise e =>
             _connected c = _connected (self w)
             \/ _connected c = true
                /\ exists dc h v,
                    _deviceClient (self w) = Some dc
                    /\ hub_connect env (history w) dc = None
                    /\ debug_call rt h (Lit "Device connected") = Some v
                    /\ (e = rebuild v
                        \/ exists h',
                             info_call rt h' (Lit "ERROR: Failed to connect to Hub")
                             = Some e)
         | Blocked => False
         end.
Proof.
  cbv zeta. unfold connect_hub_with, device_client, logger_debug_on, logger_info_on.
  do 2 unfold_m.
  destruct (_deviceClient (self w)) as [dc|] eqn:Hdc;
    cbn [fst snd self history app twin_patches method_requests].
  - destruct (hub_connect env (history w) dc) as [e|] eqn:Hh;
      cbn [fst snd self history app twin_patches method_requests].
    + case_info;
        cbn [fst snd self history app twin_patches method_requests];
        rewrite ?logger_info_run;
        cbn [fst snd self history app twin_patches method_requests];
        (split; [simpl; rewrite ?Hdc; reflexivity|]); give_events;
        (split; [no_threads|]); left; reflexivity.
    + case_debug;
        cbn [fst snd self history app twin_patches method_requests].
      * case_info;
          cbn [fst snd self history app twin_patches method_requests];
          rewrite ?logger_info_run;
          cbn [fst snd self history app twin_patches method_requests];
          (split; [simpl; rewrite ?Hdc; reflexivity|]); give_events;
          (split; [no_threads|]); right;
          (split; [reflexivity|]); exists dc; do 2 eexists;
          (split; [reflexivity|]); (split; [exact Hh|]); (split; [exact Hd|]).
        -- right. eexists. exact Hi.
        -- left. reflexivity.
      * rewrite logger_debug_run.
        cbn [fst snd self history app twin_patches method_requests].
        split; [simpl; rewrite ?Hdc; reflexivity|]. give_events.
        split; [no_threads|]. split; [reflexivity|].
        exists dc. split; [reflexivity | exact Hh].
  - case_info;
      cbn [fst snd self history app twin_patches method_requests];
      rewrite ?logger_info_run;
      cbn [fst snd self history app twin_patches method_requests];
      (split; [simpl; rewrite ?Hdc; reflexivity|]); give_events;
      (split; [no_threads|]); left; reflexivity.
Qed.

(** The two threads.  The start that raises leaves its thread assigned
    and not started. *)
Lemma connect_listeners_on_cases (w : World H) :
  let after := connect_listeners_with (start_on rt) w in
  let c := self (fst after) in
  let propThread := mkThread PropertiesListener true in
  let cmdThread := mkThread CommandsListener true in
  (_connected c, _deviceClient c) = (_connected (self w), _deviceClient (self w))
  /\ exists evs,
      history (fst after) = history w ++ evs
      /\ match snd after with
         | Return _ => True
         | Raise e =>
             (exists h, thread_start rt h propThread = Some e)
             /\ _propThread c = Some propThread
             /\ _cmdThread c = _cmdThread (self w)
             /\ evs = []
             \/ (exists h, thread_start rt h cmdThread = Some e)
                /\ _propThread c = Some propThread
                /\ _cmdThread c = Some cmdThread
                /\ evs = [ThreadStarted propThread]
         | Blocked => False
         end.
Proof.
  cbv zeta. unfold connect_listeners_with, start_on. do 2 unfold_m.
  cbn [fst snd self history twin_patches method_requests].
  match goal with
  | |- context [thread_start rt ?h (mkThread PropertiesListener true)] =>
      destruct (thread_start rt h (mkThread PropertiesListener true)) as [e1|] eqn:H1
  end; cbn [fst snd self history twin_patches method_requests].
  { split; [reflexivity|]. exists []. split; [symmetry; apply app_nil_r|].
    left. split; [eexists; exact H1 | repeat split]. }
  match goal with
  | |- context [thread_start rt ?h (mkThread CommandsListener true)] =>
      destruct (thread_start rt h (mkThread CommandsListener true)) as [e2|] eqn:H2
  end; cbn [fst snd self history twin_patches method_requests].
  { split; [reflexivity|]. eexists. split; [reflexivity|].
    right. split; [eexists; exact H2 | repeat split]. }
  split; [reflexivity|]. eexists. split; [rewrite <- app_assoc; reflexivity | exact I].
Qed.

End Tail.

(** X11.  [connect] with any logger and with threads whose start can
    fail.  A call that raises has left the flag and the two thread
    attributes as they were and has started no thread, whatever raised
    up to the hub's [connect()] and whatever the logger did, with two
    exceptions, both after the hub has accepted the session and the flag
    has been assigned: the call of [debug] that follows the assignment
    raised, and then the handler of the second [try] ran, the call raises
    what it builds or what its own call of [info] raised, with the flag
    true and no thread; or the start of a thread raised, and then the
    call raises that exception with the flag true and that thread assigned
    but not started, the properties listener running when it was the
    second start.  With a logger whose calls return and threads that start,
    neither exception is possible. *)
Theorem connect_raises {H} (rt : Runtime) (env : Environment)
        (gIsMicroPython : bool) (w : World H) (e : exn) :
  snd (connect_on rt env gIsMicroPython w) = Raise e ->
  let after := connect_on rt env gIsMicroPython w in
  let c := self (fst after) in
  let propThread := mkThread PropertiesListener true in
  let cmdThread := mkThread CommandsListener true in
  exists evs,
    history (fst after) = history w ++ evs
    /\ ((_propThread c, _cmdThread c, _connected c)
        = (_propThread (self w), _cmdThread (self w), _connected (self w))
        /\ threads_started evs = []
        \/ _connected c = true
           /\ (exists dc h, _deviceClient c = Some dc /\ hub_connect env h dc = None)
           /\ ((exists h v,
                   debug_call rt h (Lit "Device connected") = Some v
                   /\ (e = rebuild v
                       \/ exists h',
                            info_call rt h' (Lit "ERROR: Failed to connect to Hub")
                            = Some e))
               /\ (_propThread c, _cmdThread c)
                  = (_propThread (self w), _cmdThread (self w))
               /\ threads_started evs = []
               \/ (exists h, thread_start rt h propThread = Some e)
                  /\ _propThread c = Some propThread
                  /\ _cmdThread c = _cmdThread (self w)
                  /\ threads_started evs = []
               \/ (exists h, thread_start rt h cmdThread = Some e)
                  /\ _propThread c = Some propThread
                  /\ _cmdThread c = Some cmdThread
                  /\ threads_started evs = [propThread])).
Proof.
  intro R. cbv zeta. unfold connect_on, connect_with in *. unfold bind in *.
  set (v := (_propThread (self w), _cmdThread (self w), _connected (self w))).
  destruct (connect_credentials_on_threads rt env gIsMicroPython v w eq_refl)
    as (I1 & evs1 & H1 & P1).
  apply threads_started_none in P1.
  destruct (connect_credentials_with env gIsMicroPython (logger_debug_on rt) w)
    as [w1 [x509|e1|]]; cbn [fst snd] in *; [| | discriminate R].
  2:{ exists evs1. split; [exact H1|]. left. split; [exact I1 | exact P1]. }
  destruct (connect_model_threads v w1 I1) as (I2 & evs2 & H2 & P2).
  apply threads_started_none in P2.
  destruct (connect_model w1) as [w2 [[]|e2|]]; cbn [fst snd] in *;
    [| | discriminate R].
  2:{ exists (evs1 ++ evs2). split; [rewrite H2, H1, app_assoc; reflexivity|].
      left. split; [exact I2|]. rewrite threads_started_app, P1, P2. reflexivity. }
  destruct (connect_provision_on_threads rt env v x509 w2 I2) as (I3 & evs3 & H3 & P3).
  apply threads_started_none in P3.
  destruct (connect_provision_with env (logger_debug_on rt) (logger_info_on rt) x509 w2)
    as [w3 [[]|e3|]]; cbn [fst snd] in *; [| | discriminate R].
  2:{ exists (evs1 ++ evs2 ++ evs3).
      split; [rewrite H3, H2, H1, <- !app_assoc; reflexivity|].
      left. split; [exact I3|]. rewrite !threads_started_app, P1, P2, P3. reflexivity. }
  destruct (connect_hub_on_cases rt env w3) as (F4 & evs4 & H4 & P4 & C4).
  cbv zeta in F4, H4, C4.
  destruct (connect_hub_with env (logger_debug_on rt) (logger_info_on rt) w3)
    as [w4 [[]|e4|]]; cbn [fst snd] in *; [| | contradiction].
  2:{ injection R as <-.
      exists (evs1 ++ evs2 ++ evs3 ++ evs4).
      split; [rewrite H4, H3, H2, H1, <- !app_assoc; reflexivity|].
      assert (T : threads_started (evs1 ++ evs2 ++ evs3 ++ evs4) = [])
        by (rewrite !threads_started_app, P1, P2, P3, P4; reflexivity).
      unfold v in I3. injection I3 as I3a I3b I3c. injection F4 as F4a F4b F4c.
      destruct C4 as [C4 | (C4 & dc & h & v0 & Hdc & Hh & Hd & He)].
      - left. split; [|exact T]. unfold v. congruence.
      - right. split; [exact C4|].
        split; [exists dc, (history w3); split; [congruence | exact Hh]|].
        left. split; [exists h, v0; split; [exact Hd | exact He]|].
        split; [congruence | exact T]. }
  destruct (connect_listeners_on_cases rt w4) as (F5 & evs5 & H5 & C5).
  cbv zeta in F5, H5, C5.
  destruct (connect_listeners_with (start_on rt) w4) as [w5 [[]|e5|]];
    cbn [fst snd] in *; [discriminate R | | contradiction].
  injection R as <-.
  exists (evs1 ++ evs2 ++ evs3 ++ evs4 ++ evs5).
  split; [rewrite H5, H4, H3, H2, H1, <- !app_assoc; reflexivity|].
  unfold v in I3. injection I3 as I3a I3b I3c. injection F4 as F4a F4b F4c.
  injection F5 as F5a F5b.
  destruct C4 as (C4 & dc & Hdc & Hh).
  right. split; [congruence|].
  assert (Hs : exists dc h, _deviceClient (self w5) = Some dc
                            /\ hub_connect env h dc = None).
  { exists dc, (history w3). split; [congruence | exact Hh]. }
  split; [exact Hs|]. right.
  destruct C5 as [(Q & T1 & T2 & ->) | (Q & T1 & T2 & ->)].
  - left. split; [exact Q|]. split; [exact T1|]. split; [congruence|].
    rewrite !threads_started_app, P1, P2, P3, P4. reflexivity.
  - right. split; [exact Q|]. split; [exact T1|]. split; [exact T2|].
    rewrite !threads_started_app, P1, P2, P3, P4. reflexivity.
Qed.

Lemma connect_raises_witness :
  exists evs,
    history (fst (connect_on muted Sample.friendly false (Sample.boot Devices.keyed)))
    = history (Sample.boot Devices.keyed) ++ evs
    /\ threads_started evs = [].
Proof.
  assert (R : snd (connect_on muted Sample.friendly false (Sample.boot Devices.keyed))
              = Raise (Rebuilt (ExternalError "closed stream")))
    by (vm_compute; reflexivity).
  destruct (connect_raises muted Sample.friendly false (Sample.boot Devices.keyed) _ R)
    as (evs & Hh & [(_ & T) | (_ & _ & [(_ & _ & T) | [((h & Q) & _) | ((h & Q) & _)]])]).
  - exists evs. split; [exact Hh | exact T].
  - exists evs. split; [exact Hh | exact T].
  - discriminate Q.
  - discriminate Q.
Defined.

(** A logger that cannot write the line after the connection: [connect]
    raises and yet the device is connected, without listeners. *)
Example connect_muted_example :
  let after := connect_on muted Sample.friendly false (Sample.boot Devices.keyed) in
  snd after = Raise (Rebuilt (ExternalError "closed stream"))
  /\ isConnected (self (fst after)) = true
  /\ threads_started (history (fst after)) = []
  /\ (_propThread (self (fst after)), _cmdThread (self (fst after))) = (None, None).
Proof. vm_compute. repeat split. Qed.

(** A system that starts the first thread only: [connect] raises with
    the device connected and the properties listener running. *)
Example connect_crowded_example :
  let after := connect_on crowded Sample.friendly false (Sample.boot Devices.keyed) in
  snd after = Raise (ExternalError "can't start new thread")
  /\ isConnected (self (fst after)) = true
  /\ threads_started (history (fst after)) = [mkThread PropertiesListener true]
  /\ _cmdThread (self (fst after)) = Some (mkThread CommandsListener true).
Proof. vm_compute. repeat split. Qed.

(** The same device with the console logger and threads that start. *)
Example connect_quiet_example :
  connect_on quiet Sample.friendly false (Sample.boot Devices.keyed)
  = connect Sample.friendly false (Sample.boot Devices.keyed).
Proof.
  apply connect_on_quiet; intros; reflexivity.
Qed.



(** X13.  Every credential type other than the two key types takes the
    certificate branch of [connect].  When the key material does not give
    ['keyFile'], the error of that subscript leaves [connect] at once, with
    the world as it was: KeyError for a dict without the key, TypeError for
    a key given where the dict is expected.  When only ['certFile'] is
    missing, its error leaves [connect] after [_keyfile] was assigned.
    Nothing is asked of any service. *)
Theorem connect_certificate_missing_file {H} (env : Environment)
        (gIsMicroPython : bool) (w : World H) :
  _credType (self w) <> IOTCConnectType.IOTC_CONNECT_SYMM_KEY ->
  _credType (self w) <> IOTCConnectType.IOTC_CONNECT_DEVICE_KEY ->
  let key := _keyORCert (self w) in
  (forall e, key_subscript key "keyFile" = Err e ->
             connect env gIsMicroPython w = (w, Raise e))
  /\ (forall keyfile e,
         key_subscript key "keyFile" = Ok keyfile ->
         key_subscript key "certFile" = Err e ->
         connect env gIsMicroPython w
         = (mkWorld (set_keyfile (Some keyfile) (self w)) (app w) (history w)
                    (twin_patches w) (method_requests w),
            Raise e))
  /\ (forall d, key = Certificate d -> dict_get d "keyFile" = None ->
                key_subscript key "keyFile" = Err (KeyError "keyFile"))
  /\ (forall s, key = KeyStr s -> key_subscript key "keyFile" = Err TypeError)
  /\ (forall b, key = KeyBytes b -> key_subscript key "keyFile" = Err TypeError).
Proof.
  intros N1 N2. cbv zeta.
  assert (Hs : symmetric (_credType (self w)) = false).
  { unfold symmetric. apply orb_false_iff. split; apply Z.eqb_neq; assumption. }
  split; [|split; [|split; [|split]]].
  - intros e Hk. unfold connect, connect_credentials. unfold_m.
    rewrite Hs, Hk. destruct w; reflexivity.
  - intros keyfile e Hk Hc. unfold connect, connect_credentials. unfold_m.
    rewrite Hs, Hk. simpl. rewrite Hc. reflexivity.
  - intros d -> Hd. simpl. unfold dict_getitem. rewrite Hd. reflexivity.
  - intros s ->. reflexivity.
  - intros b ->. reflexivity.
Qed.

Lemma connect_certificate_missing_file_witness :
  connect Sample.friendly false (Sample.boot Devices.keyless)
  = (Sample.boot Devices.keyless, Raise (KeyError "keyFile")).
Proof.
  assert (N1 : _credType (self (Sample.boot Devices.keyless))
               <> IOTCConnectType.IOTC_CONNECT_SYMM_KEY) by discriminate.
  assert (N2 : _credType (self (Sample.boot Devices.keyless))
               <> IOTCConnectType.IOTC_CONNECT_DEVICE_KEY) by discriminate.
  apply (proj1 (connect_certificate_missing_file
                  Sample.friendly false (Sample.boot Devices.keyless) N1 N2)).
  reflexivity.
Defined.

(** X14.  The certificate object of [connect].  When the key material
    gives ['certPhrase'] and [X509] takes the three arguments, that object
    is used and nothing is written.  When the passphrase is missing, or
    when [X509] raised with it, whatever it raised, the line about the
    missing passphrase goes through [debug] and [X509] is called with the
    two files only: what it raises then leaves [connect], and otherwise the
    object without passphrase is used.  The provisioning client is created
    with the object used. *)
Theorem connect_certificate_passphrase {H} (env : Environment)
        (gIsMicroPython : bool) (w : World H) (keyfile certfile : pyval) :
  symmetric (_credType (self w)) = false ->
  key_subscript (_keyORCert (self w)) "keyFile" = Ok keyfile ->
  key_subscript (_keyORCert (self w)) "certFile" = Ok certfile ->
  let after := connect_credentials env gIsMicroPython w in
  let phrase := key_subscript (_keyORCert (self w)) "certPhrase" in
  let fallback :=
    map Print (ConsoleLogger.debug
                 (_logger (self w))
                 (Lit "No passphrase available for certificate. Trying without it")) in
  let provisioning x :=
    mkProvisioning (_globalEndpoint (self w)) (_deviceId (self w))
                   (_scopeId (self w)) (X509Auth x) None in
  let outcome x h :=
    match create_provisioning env h (provisioning x) with
    | Some e => Raise e
    | None => Return (Some x)
    end in
  (forall p,
      phrase = Ok p ->
      X509_new env (history w) (mkX509 certfile keyfile (Some p)) = None ->
      history (fst after) = history w
      /\ snd after = outcome (mkX509 certfile keyfile (Some p)) (history w))
  /\ ((exists e, phrase = Err e)
      \/ (exists p e, phrase = Ok p
                      /\ X509_new env (history w) (mkX509 certfile keyfile (Some p))
                         = Some e) ->
      history (fst after) = history w ++ fallback
      /\ snd after
         = match X509_new env (history w ++ fallback) (mkX509 certfile keyfile None) with
           | Some e => Raise e
           | None => outcome (mkX509 certfile keyfile None) (history w ++ fallback)
           end)
  /\ (forall x, snd after = Return (Some x) ->
                _provisioningClient (self (fst after)) = Some (provisioning x)).
Proof.
  intros Hs Hk Hc. cbv zeta.
  rewrite (connect_credentials_certificate env gIsMicroPython w keyfile certfile
                                           Hs Hk Hc).
  cbv zeta. split; [|split].
  - intros p Hp Hx. rewrite Hp, Hx.
    destruct (create_provisioning env _ _); split; reflexivity.
  - intros [[e Hp] | (p & e & Hp & Hx)]; rewrite Hp; rewrite ?Hx;
      destruct (X509_new env (history w ++ _) _);
      try (split; reflexivity);
      destruct (create_provisioning env _ _); split; reflexivity.
  - intros x.
    destruct (key_subscript (_keyORCert (self w)) "certPhrase") as [p|e].
    + destruct (X509_new env (history w) _).
      * destruct (X509_new env (history w ++ _) _); [discriminate|].
        destruct (create_provisioning env _ _); [discriminate|].
        cbn. intro E. injection E as <-. reflexivity.
      * destruct (create_provisioning env _ _); [discriminate|].
        cbn. intro E. injection E as <-. reflexivity.
    + destruct (X509_new env (history w ++ _) _); [discriminate|].
      destruct (create_provisioning env _ _); [discriminate|].
      cbn. intro E. injection E as <-. reflexivity.
Qed.

Lemma connect_certificate_passphrase_witness :
  history (fst (connect_credentials Sample.friendly false
                                    (Sample.boot Devices.certified)))
  = []
  /\ snd (connect_credentials Sample.friendly false (Sample.boot Devices.certified))
     = Return (Some (mkX509 (PyStr "cert.pem") (PyStr "key.pem") None)).
Proof.
  destruct (connect_certificate_passphrase
              Sample.friendly false (Sample.boot Devices.certified)
              (PyStr "key.pem") (PyStr "cert.pem") eq_refl eq_refl eq_refl)
    as (_ & F & _).
  apply F. left. eexists. reflexivity.
Defined.

(** X15.  What [connect] asks of the provisioning service: at most one
    registration per call, exactly one when the call returns, made for the
    endpoint, the device id, the scope id and the model id of the client: the
    payload is [{'iotcModelId': modelId}] when the model id is true and
    absent otherwise.  The endpoint and the model id are those last given
    to [setGlobalEndpoint] and [setModelId]; a client that was just built
    has the global endpoint of the service and no model id. *)
Theorem connect_registers {H} (env : Environment) (gIsMicroPython : bool) :
  (forall w : World H,
      let after := connect env gIsMicroPython w in
      exists evs,
        history (fst after) = history w ++ evs
        /\ (registrations evs = []
            \/ exists auth, registrations evs = [provisioning_of (self w) auth])
        /\ (snd after = Return tt -> registrations evs <> []))
  /\ (forall (endpoint : string) (modelId : pyval) (w : World H) auth,
         provisioning_of
           (self (fst (setModelId modelId (fst (setGlobalEndpoint endpoint w)))))
           auth
         = mkProvisioning endpoint (_deviceId (self w)) (_scopeId (self w)) auth
                          (if truthy modelId
                           then Some (PyDict [("iotcModelId", modelId)])
                           else None))
  /\ (forall deviceId scopeId credType keyOrCert logger auth,
         provisioning_of (@__init__ H deviceId scopeId credType keyOrCert logger) auth
         = mkProvisioning "global.azure-devices-provisioning.net" deviceId scopeId
                          auth None).
Proof.
  split; [|split]; [|reflexivity|reflexivity].
  intro w. cbv zeta.
  destruct (connect_shape env gIsMicroPython w) as (evs & Hh & S). cbv zeta in S.
  exists evs. split; [exact Hh|]. rewrite <- registrations_outside.
  destruct (snd (connect env gIsMicroPython w)) as [[]|e|]; [| |contradiction].
  - destruct S as (x509 & reg & dc & _ & _ & _ & _ & _ & _ & _ & _ & Ho & _).
    rewrite Ho. split; [right; eexists; reflexivity | discriminate].
  - split; [|discriminate].
    destruct S as (_ & _ & _ & [[-> _] | (x509 & _ & [[-> _] | (dc & -> & _)])]);
      [left; reflexivity | right; eexists; reflexivity
       | right; eexists; reflexivity].
Qed.

(** ** Listeners without work *)

Section Idle.

Context {H : Type}.

Lemma listen_idle eventname not_found (receive : callback H -> M H unit) :
  forall (fuel : nat) (w : World H),
    _events (self w) eventname = None ->
    listen eventname not_found receive fuel w
    = (extend w (idle_passes
                   fuel
                   (map Print (ConsoleLogger.debug (_logger (self w)) not_found))),
       Running).
Proof.
  induction fuel as [|fuel IH]; intros w He; cbn [listen idle_passes].
  - rewrite extend_nil. reflexivity.
  - rewrite He. unfold bind, sleep, emit. rewrite logger_debug_extend.
    cbn [self app history twin_patches method_requests extend].
    match goal with
    | |- listen _ _ _ _ ?w1 = _ => rewrite (IH w1 He)
    end.
    unfold extend. cbn [self app history twin_patches method_requests].
    rewrite <- !app_assoc. reflexivity.
Qed.

End Idle.

(** X16.  A listener that finds no callback for its event never touches
    the transport: each pass writes the 'callback not found' line through
    [debug] and sleeps 10 seconds, so that after any number of passes the
    loop is still running, the client, the application and the two queues
    are what they were, whether or not messages are waiting and whether or
    not the device client exists, and the history has grown by these lines
    and sleeps only. *)
Theorem listener_without_callback {H} (env : Environment) (fuel : nat)
        (w : World H) :
  let debug message := map Print (ConsoleLogger.debug (_logger (self w)) message) in
  (_events (self w) IOTC_PROPERTIES = None ->
   _onProperties env fuel w
   = (extend w (debug (Lit "Setup properties listener")
                ++ idle_passes fuel (debug (Lit "Properties callback not found"))),
      Running))
  /\ (_events (self w) IOTC_COMMAND = None ->
      _onCommands env fuel w
      = (extend w (debug (Lit "Setup commands listener")
                   ++ idle_passes fuel (debug (Lit "Commands callback not found"))),
         Running)).
Proof.
  cbv zeta. split; intro He.
  - unfold _onProperties. rewrite logger_debug_extend.
    rewrite listen_idle by exact He. rewrite extend_extend. reflexivity.
  - unfold _onCommands. rewrite logger_debug_extend.
    rewrite listen_idle by exact He. rewrite extend_extend. reflexivity.
Qed.

Lemma listener_without_callback_witness :
  _onCommands Sample.friendly 2
              (perform Sample.friendly false (Hub_queues_method (Ok Sample.reboot))
                       Sample.online)
  = (extend (perform Sample.friendly false (Hub_queues_method (Ok Sample.reboot))
                     Sample.online)
            [Sleep 10; Sleep 10],
     Running).
Proof.
  apply (proj2 (listener_without_callback
                  Sample.friendly 2
                  (perform Sample.friendly false (Hub_queues_method (Ok Sample.reboot))
                           Sample.online))).
  reflexivity.
Defined.

(** ** Patches the loop cannot work with *)

Section BadPatches.

Context {H : Type}.
Variable env : Environment.

(** A step keeps what was reported unless it acknowledges. *)
Lemma _onProperties_prop_unversioned (propCb : callback H) (patch : pydict)
      (prop : string) (w : World H) :
  dict_get patch "$version" = None ->
  reported (history (fst (_onProperties_prop env propCb patch prop w)))
  = reported (history w)
  /\ snd (_onProperties_prop env propCb patch prop w) <> Blocked.
Proof.
  intro Hv.
  destruct (String.eqb prop "$version") eqn:Hne.
  { unfold _onProperties_prop. rewrite Hne. split; [reflexivity | discriminate]. }
  destruct (property_value patch prop) as [value|e] eqn:Hp.
  - rewrite (_onProperties_prop_run env propCb patch prop value w Hne Hp). cbv zeta.
    unfold dict_getitem. rewrite Hv.
    destruct (run_result (propCb (app w) (PropertyArgs prop value))) as [ret|e];
      [destruct (truthy ret)|]; cbn [fst snd extend history];
      rewrite ?reported_app, ?reported_prints; cbn [reported];
      rewrite ?app_nil_r; (split; [reflexivity | discriminate]).
  - unfold property_value in Hp. unfold _onProperties_prop. rewrite Hne. unfold_m.
    destruct (dict_getitem patch prop) as [entry|e1]; cbn.
    + rewrite Hp. split; [reflexivity | discriminate].
    + split; [reflexivity | discriminate].
Qed.

Lemma for_each_unversioned (propCb : callback H) (patch : pydict) :
  dict_get patch "$version" = None ->
  forall (keys : list string) (w : World H),
    reported (history (fst (for_each keys (_onProperties_prop env propCb patch) w)))
    = reported (history w)
    /\ snd (for_each keys (_onProperties_prop env propCb patch) w) <> Blocked.
Proof.
  intro Hv. induction keys as [|prop keys IH]; intro w; cbn [for_each].
  - split; [reflexivity | discriminate].
  - unfold bind.
    destruct (_onProperties_prop_unversioned propCb patch prop w Hv) as [R B].
    destruct (_onProperties_prop env propCb patch prop w) as [w1 [[]|e|]];
      cbn [fst snd] in *.
    + destruct (IH w1) as [R1 B1]. split; [congruence | exact B1].
    + split; [exact R | discriminate].
    + contradiction.
Qed.

End BadPatches.

(** X17.  A patch without ['$version'] is never acknowledged.  In the
    pass that receives it nothing is reported to the hub, whatever the
    callback returns; and as soon as the callback returns a true value for
    one of its properties, the subscript [patch['$version']] raises
    KeyError after the 'Acknowledging' line: the exception leaves the
    pass, and the listener loop with it. *)
Theorem unversioned_patch_never_acknowledged {H} (env : Environment)
        (propCb : callback H) (patch : pydict) (rest : list (result pydict))
        (w : World H) :
  dict_get patch "$version" = None ->
  _deviceClient (self w) <> None ->
  twin_patches w = Ok patch :: rest ->
  let after := _onProperties_receive env propCb w in
  reported (history (fst after)) = reported (history w)
  /\ snd after <> Blocked
  /\ (forall (prop : string) (value ret : pyval) (w0 : World H),
         String.eqb prop "$version" = false ->
         property_value patch prop = Ok value ->
         run_result (propCb (app w0) (PropertyArgs prop value)) = Ok ret ->
         truthy ret = true ->
         _onProperties_prop env propCb patch prop w0
         = (mkWorld (self w0) (run_state (propCb (app w0) (PropertyArgs prop value)))
                    (history w0
                     ++ CalledProperties prop value
                        :: map Print (ConsoleLogger.debug
                                        (_logger (self w0))
                                        (Format "Acknowledging {}" [ArgStr prop])))
                    (twin_patches w0) (method_requests w0),
            Raise (KeyError "$version")))
  /\ (forall (fuel : nat) (w0 w1 : World H) (e : exn),
         _events (self w0) IOTC_PROPERTIES = Some propCb ->
         _onProperties_receive env propCb w0 = (w1, Raise e) ->
         listen IOTC_PROPERTIES (Lit "Properties callback not found")
                (_onProperties_receive env) (S fuel) w0
         = (w1, Died e)).
Proof.
  intros Hv Hdc Hq. cbv zeta.
  rewrite (_onProperties_receive_run env propCb patch rest w Hdc Hq).
  match goal with
  | |- context [for_each ?keys _ ?w1] =>
      destruct (for_each_unversioned env propCb patch Hv keys w1) as [R B]
  end.
  split; [|split; [exact B|split]].
  - rewrite R. cbn [history]. rewrite reported_app. cbn [reported].
    rewrite reported_prints, app_nil_r. reflexivity.
  - intros prop value ret w0 Hne Hp Hr Ht.
    rewrite (_onProperties_prop_run env propCb patch prop value w0 Hne Hp).
    cbv zeta. rewrite Hr, Ht. unfold dict_getitem. rewrite Hv.
    unfold extend. cbn [self app history twin_patches method_requests].
    rewrite <- app_assoc. reflexivity.
  - intros fuel w0 w1 e He Hp. cbn [listen]. rewrite He, Hp. reflexivity.
Qed.

Lemma unversioned_patch_never_acknowledged_witness :
  reported (history (fst (_onProperties_receive
                            Sample.friendly Sample.accept
                            (Sample.patched Sample.accept
                                            [[("temp", PyDict [("value", PyInt 21)])]]))))
  = []
  /\ snd (_onProperties_prop Sample.friendly Sample.accept
                             [("temp", PyDict [("value", PyInt 21)])] "temp"
                             Sample.online)
     = Raise (KeyError "$version").
Proof.
  assert (Hdc : _deviceClient
                  (self (Sample.patched Sample.accept
                                        [[("temp", PyDict [("value", PyInt 21)])]]))
                <> None) by discriminate.
  destruct (unversioned_patch_never_acknowledged
              Sample.friendly Sample.accept
              [("temp", PyDict [("value", PyInt 21)])] []
              (Sample.patched Sample.accept [[("temp", PyDict [("value", PyInt 21)])]])
              eq_refl Hdc eq_refl) as (R & _ & S & _).
  split; [exact R|].
  rewrite (S "temp" (PyInt 21) (PyBool true) Sample.online
             eq_refl eq_refl eq_refl eq_refl).
  reflexivity.
Defined.

(** X18.  A property whose entry in the patch has no ['value'] stops the
    listener before the callback sees it: for an entry that is no dict the
    subscript raises TypeError, for a dict without the key KeyError; the
    exception leaves the step with the world as it was, the remaining
    properties of the patch are skipped, and the loop has ended.  Nothing
    is reported and the callback is not called for that property. *)
Theorem property_without_value {H} (env : Environment) (propCb : callback H)
        (patch : pydict) (prop : string) (e : exn) :
  String.eqb prop "$version" = false ->
  property_value patch prop = Err e ->
  (forall (keys : list string) (w : World H),
      for_each (prop :: keys) (_onProperties_prop env propCb patch) w = (w, Raise e))
  /\ (forall (entry : pyval),
         dict_get patch prop = Some entry ->
         match entry with
         | PyDict d => dict_get d "value" = None /\ e = KeyError "value"
         | _ => e = TypeError
         end)
  /\ (forall (fuel : nat) (others : pydict) (entry : pyval)
             (rest : list (result pydict)) (w : World H),
         patch = (prop, entry) :: others ->
         _events (self w) IOTC_PROPERTIES = Some propCb ->
         _deviceClient (self w) <> None ->
         twin_patches w = Ok patch :: rest ->
         let after := listen IOTC_PROPERTIES (Lit "Properties callback not found")
                             (_onProperties_receive env) (S fuel) w in
         snd after = Died e
         /\ twin_patches (fst after) = rest
         /\ property_calls (history (fst after)) = property_calls (history w)
         /\ reported (history (fst after)) = reported (history w)).
Proof.
  intros Hne Hp.
  assert (S1 : forall w : World H,
             _onProperties_prop env propCb patch prop w = (w, Raise e)).
  { intro w. unfold property_value in Hp. unfold _onProperties_prop.
    rewrite Hne. unfold_m.
    destruct (dict_getitem patch prop) as [entry|e1]; cbn.
    - rewrite Hp. reflexivity.
    - congruence. }
  split; [|split].
  - intros keys w. cbn [for_each]. unfold bind. rewrite S1. reflexivity.
  - intros entry Hd. unfold property_value, dict_getitem in Hp. rewrite Hd in Hp.
    destruct entry; simpl in Hp; try congruence.
    unfold dict_getitem in Hp. destruct (dict_get d "value"); [discriminate|].
    split; congruence.
  - intros fuel others entry rest w -> He Hdc Hq. cbv zeta. cbn [listen].
    rewrite He.
    rewrite (_onProperties_receive_run env propCb _ rest w Hdc Hq).
    cbn [map fst for_each]. unfold bind. rewrite S1. cbn [fst snd history twin_patches].
    rewrite property_calls_app, reported_app. cbn [property_calls reported].
    rewrite property_calls_prints, reported_prints, !app_nil_r.
    repeat split; reflexivity.
Qed.

Lemma property_without_value_witness :
  snd (listen IOTC_PROPERTIES (Lit "Properties callback not found")
              (_onProperties_receive Sample.friendly) 3
              (Sample.patched Sample.accept [[("temp", PyInt 21); ("$version", PyInt 3)]]))
  = Died TypeError.
Proof.
  assert (Hdc : _deviceClient
                  (self (Sample.patched Sample.accept
                                        [[("temp", PyInt 21); ("$version", PyInt 3)]]))
                <> None) by discriminate.
  apply (proj2 (proj2 (property_without_value
                         Sample.friendly Sample.accept
                         [("temp", PyInt 21); ("$version", PyInt 3)] "temp" TypeError
                         eq_refl eq_refl))
               2%nat [("$version", PyInt 3)] (PyInt 21) []
               (Sample.patched Sample.accept [[("temp", PyInt 21); ("$version", PyInt 3)]])
               eq_refl eq_refl Hdc eq_refl).
Defined.
(** ** Commands from reception to the acknowledgments *)

Section Served.

Context {H : Type}.
Variable env : Environment.

Lemma command_view_outside (evs : list event) :
  command_view (outside evs) = command_view evs.
Proof.
  induction evs as [|e evs IH]; [reflexivity|].
  rewrite outside_cons. destruct e; simpl; rewrite ?IH; reflexivity.
Qed.

Lemma reported_outside (evs : list event) :
  reported (outside evs) = reported evs.
Proof.
  induction evs as [|e evs IH]; [reflexivity|].
  rewrite outside_cons. destruct e; simpl; rewrite ?IH; reflexivity.
Qed.

(** The acknowledgments of a callback, when the transport takes every
    update. *)
Lemma acks_run (acks : list ack_call) :
  (forall h payload, patch_twin_reported_properties env h payload = None) ->
  forall w : World H,
    _deviceClient (self w) <> None ->
    exists evs,
      for_each acks (fun a => _cmdAck env (ack_name a) (ack_value a) (ack_requestId a)) w
      = (extend w evs, Return tt)
      /\ outside evs = map (fun a => PatchedReported (ack_payload a)) acks.
Proof.
  intro Hok. induction acks as [|a acks IH]; intros w Hdc; cbn [for_each map].
  - exists []. rewrite extend_nil. split; reflexivity.
  - unfold bind. rewrite _cmdAck_run. cbv zeta.
    destruct (_deviceClient (self w)) as [dc|] eqn:Edc; [|congruence].
    rewrite Hok.
    match goal with
    | |- context [for_each _ _ ?w1] => destruct (IH w1) as (evs & E & O)
    end.
    { cbn. rewrite Edc. discriminate. }
    rewrite E. rewrite extend_extend. eexists. split; [reflexivity|].
    rewrite !outside_app, outside_prints, O. reflexivity.
Qed.

(** A pass of the commands listener that finds a command, with a
    transport that takes the answer and the updates. *)
Lemma _onCommands_receive_run (cmdCb : callback H) (r : MethodRequest)
      (rest : list (result MethodRequest)) (w : World H) :
  (forall h response, send_method_response env h response = None) ->
  (forall h payload, patch_twin_reported_properties env h payload = None) ->
  _deviceClient (self w) <> None ->
  method_requests w = Ok r :: rest ->
  let run := cmdCb (app w) (CommandArgs r) in
  exists evs,
    _onCommands_receive env cmdCb w
    = (mkWorld (self w) (run_state run) (history w ++ evs) (twin_patches w) rest,
       match run_result run with
       | Ok _ => Return tt
       | Err e => Raise e
       end)
    /\ outside evs
       = served r ++ map (fun a => PatchedReported (ack_payload a)) (run_acks run).
Proof.
  intros Hs Hp Hdc Hq. cbv zeta.
  unfold _onCommands_receive, receive_method_request, device_client. unfold_m.
  destruct (_deviceClient (self w)) as [dc|] eqn:Edc; [|congruence]. simpl.
  rewrite Hq. rewrite logger_debug_extend. simpl. rewrite Edc. simpl.
  rewrite Hs. simpl.
  unfold call_command, invoke. unfold_m. simpl.
  match goal with
  | |- context [for_each ?l _ ?w1] =>
      destruct (acks_run l Hp w1) as (evs & E & O)
  end.
  { cbn. rewrite Edc. discriminate. }
  rewrite E. unfold extend. cbn [self app history twin_patches method_requests].
  rewrite <- !app_assoc. cbn [app].
  destruct (run_result (cmdCb (app w) (CommandArgs r))); simpl;
    (eexists; split; [reflexivity|]);
    unfold served; outside_norm; rewrite O; reflexivity.
Qed.

(** The loop through a queue of commands, with a callback that returns. *)
Lemma listen_serves (cmdCb : callback H) :
  (forall h response, send_method_response env h response = None) ->
  (forall h payload, patch_twin_reported_properties env h payload = None) ->
  (forall h args, exists v, run_result (cmdCb h args) = Ok v) ->
  forall (rs : list MethodRequest) (fuel : nat) (w : World H),
    (List.length rs < fuel)%nat ->
    _events (self w) IOTC_COMMAND = Some cmdCb ->
    _deviceClient (self w) <> None ->
    method_requests w = map Ok rs ->
    exists evs a,
      listen IOTC_COMMAND (Lit "Commands callback not found")
             (_onCommands_receive env) fuel w
      = (mkWorld (self w) a (history w ++ evs) (twin_patches w) [],
         Suspended cmdCb)
      /\ command_view evs = flat_map served rs.
Proof.
  intros Hs Hp Hr. induction rs as [|r rs IH]; intros fuel w Hf He Hdc Hq.
  - destruct fuel as [|fuel]; [inversion Hf|]. cbn [listen]. rewrite He.
    unfold _onCommands_receive, receive_method_request, device_client. unfold_m.
    destruct (_deviceClient (self w)) as [dc|]; [|congruence]. simpl in *.
    rewrite Hq. exists [], (app w). rewrite app_nil_r.
    split; [|reflexivity]. destruct w; simpl in *. subst. reflexivity.
  - destruct fuel as [|fuel]; [inversion Hf|]. cbn [listen]. rewrite He.
    destruct (_onCommands_receive_run cmdCb r (map Ok rs) w Hs Hp Hdc Hq)
      as (evs1 & E1 & O1).
    cbv zeta in E1. rewrite E1.
    destruct (Hr (app w) (CommandArgs r)) as [v Hv]. rewrite Hv.
    match goal with
    | |- context [listen _ _ _ fuel ?w1] =>
        destruct (IH fuel w1) as (evs2 & a & E2 & V2)
    end; try assumption; try reflexivity.
    { simpl in Hf. apply PeanoNat.lt_S_n. exact Hf. }
    rewrite E2. cbn [self history twin_patches].
    exists (evs1 ++ evs2), a. rewrite app_assoc. split; [reflexivity|].
    rewrite command_view_app, V2. cbn [flat_map].
    rewrite <- (command_view_outside evs1), O1, command_view_app.
    f_equal. unfold served. cbn [command_view app].
    assert (N : forall l, command_view (map (fun a0 => PatchedReported (ack_payload a0)) l)
                          = []) by (induction l; simpl; auto).
    rewrite N. reflexivity.
Qed.

End Served.

(** X19.  A pass of the commands listener on a transport that takes what
    it is given: after the reception and the fixed answer the callback is
    called, and every call it makes of the [ack] it was handed becomes one
    update of the reported properties, [{name: {'value': value,
    'requestId': requestId}}], in the order of the calls and after the
    answer.  The return value of the callback is dropped; an exception it
    raises leaves the pass.  The command is taken from the queue and the
    queue of patches is not touched. *)
Theorem command_acknowledgments {H} (env : Environment) (cmdCb : callback H)
        (r : MethodRequest) (rest : list (result MethodRequest)) (w : World H) :
  (forall h response, send_method_response env h response = None) ->
  (forall h payload, patch_twin_reported_properties env h payload = None) ->
  _deviceClient (self w) <> None ->
  method_requests w = Ok r :: rest ->
  let run := cmdCb (app w) (CommandArgs r) in
  let after := _onCommands_receive env cmdCb w in
  exists evs,
    history (fst after) = history w ++ evs
    /\ outside evs
       = [ReceivedMethod r; SentMethodResponse (command_received r); CalledCommand r]
         ++ map (fun a =>
                   PatchedReported
                     (PyDict [(ack_name a, PyDict [("value", ack_value a);
                                                   ("requestId", ack_requestId a)])]))
                (run_acks run)
    /\ snd after = match run_result run with
                   | Ok _ => Return tt
                   | Err e => Raise e
                   end
    /\ app (fst after) = run_state run
    /\ method_requests (fst after) = rest
    /\ twin_patches (fst after) = twin_patches w
    /\ self (fst after) = self w.
Proof.
  intros Hs Hp Hdc Hq. cbv zeta.
  destruct (_onCommands_receive_run env cmdCb r rest w Hs Hp Hdc Hq)
    as (evs & E & O).
  cbv zeta in E. rewrite E. exists evs. repeat split. exact O.
Qed.

Lemma command_acknowledgments_witness :
  exists evs,
    history (fst (_onCommands_receive Sample.friendly Sample.accept
                                      (Sample.commanded Sample.accept)))
    = history (Sample.commanded Sample.accept) ++ evs
    /\ outside evs
       = [ReceivedMethod Sample.reboot;
          SentMethodResponse (command_received Sample.reboot);
          CalledCommand Sample.reboot].
Proof.
  assert (Hdc : _deviceClient (self (Sample.commanded Sample.accept)) <> None)
    by discriminate.
  destruct (command_acknowledgments
              Sample.friendly Sample.accept Sample.reboot []
              (Sample.commanded Sample.accept)
              (fun _ _ => eq_refl) (fun _ _ => eq_refl) Hdc eq_refl)
    as (evs & Hh & Ho & _).
  exists evs. split; [exact Hh | exact Ho].
Defined.

(** X20.  An exception of the commands callback ends the commands
    listener, as in the properties listener: nothing around the call catches
    it.  The command had been answered before the call; the commands still
    in the queue are never received. *)
Theorem command_handler_exception_ends_loop {H} (env : Environment)
        (cmdCb : callback H) (r : MethodRequest)
        (rest : list (result MethodRequest)) (e : exn) (fuel : nat) (w : World H) :
  (forall h response, send_method_response env h response = None) ->
  (forall h payload, patch_twin_reported_properties env h payload = None) ->
  _events (self w) IOTC_COMMAND = Some cmdCb ->
  _deviceClient (self w) <> None ->
  method_requests w = Ok r :: rest ->
  run_result (cmdCb (app w) (CommandArgs r)) = Err e ->
  let after := _onCommands env (S fuel) w in
  snd after = Died e
  /\ method_requests (fst after) = rest
  /\ exists evs,
      history (fst after) = history w ++ evs
      /\ command_view evs
         = [ReceivedMethod r; SentMethodResponse (command_received r);
            CalledCommand r].
Proof.
  intros Hs Hp He Hdc Hq Hr. cbv zeta.
  unfold _onCommands. rewrite logger_debug_extend.
  cbn [listen]. cbn [self extend]. rewrite He.
  match goal with
  | |- context [_onCommands_receive env cmdCb ?w1] =>
      destruct (_onCommands_receive_run env cmdCb r rest w1 Hs Hp Hdc Hq)
        as (evs & E & O)
  end.
  cbv zeta in E. cbn [app extend] in E. rewrite E, Hr.
  cbn [fst snd method_requests history extend].
  repeat split. rewrite <- app_assoc. eexists. split; [reflexivity|].
  rewrite command_view_app, command_view_prints. cbn [app].
  rewrite <- command_view_outside, O, command_view_app.
  unfold served. cbn [command_view app].
  assert (N : forall l, command_view (map (fun a0 => PatchedReported (ack_payload a0)) l)
                        = []) by (induction l; simpl; auto).
  rewrite N. reflexivity.
Qed.

Lemma command_handler_exception_ends_loop_witness :
  snd (_onCommands Sample.friendly 3 (Sample.commanded Sample.faulty))
  = Died (ExternalError "handler failed")
  /\ method_requests (fst (_onCommands Sample.friendly 3
                                       (Sample.commanded Sample.faulty)))
     = [].
Proof.
  assert (Hdc : _deviceClient (self (Sample.commanded Sample.faulty)) <> None)
    by discriminate.
  destruct (command_handler_exception_ends_loop
              Sample.friendly Sample.faulty Sample.reboot []
              (ExternalError "handler failed") 2 (Sample.commanded Sample.faulty)
              (fun _ _ => eq_refl) (fun _ _ => eq_refl) eq_refl Hdc eq_refl eq_refl)
    as (S & Q & _).
  split; [exact S | exact Q].
Defined.

(** X21.  With a callback that returns and a transport that takes what
    it is given, the commands listener serves its queue: started with
    commands waiting, after one pass more than there are commands it has
    received each of them in order, answered it and called the callback
    with it, the queue is empty and the loop is suspended in the next
    receive call, still holding the callback. *)
Theorem commands_all_served {H} (env : Environment) (cmdCb : callback H)
        (rs : list MethodRequest) (fuel : nat) (w : World H) :
  (forall h response, send_method_response env h response = None) ->
  (forall h payload, patch_twin_reported_properties env h payload = None) ->
  (forall h args, exists v, run_result (cmdCb h args) = Ok v) ->
  _events (self w) IOTC_COMMAND = Some cmdCb ->
  _deviceClient (self w) <> None ->
  method_requests w = map Ok rs ->
  (List.length rs < fuel)%nat ->
  let after := _onCommands env fuel w in
  snd after = Suspended cmdCb
  /\ method_requests (fst after) = []
  /\ self (fst after) = self w
  /\ exists evs,
      history (fst after) = history w ++ evs
      /\ command_view evs
         = flat_map (fun r => [ReceivedMethod r;
                               SentMethodResponse (command_received r);
                               CalledCommand r]) rs.
Proof.
  intros Hs Hp Hr He Hdc Hq Hf. cbv zeta.
  unfold _onCommands. rewrite logger_debug_extend.
  match goal with
  | |- context [listen _ _ _ fuel ?w1] =>
      destruct (listen_serves env cmdCb Hs Hp Hr rs fuel w1 Hf He Hdc Hq)
        as (evs & a & E & V)
  end.
  rewrite E. cbn [fst snd self method_requests history extend].
  repeat split. rewrite <- app_assoc. eexists. split; [reflexivity|].
  rewrite command_view_app, command_view_prints. exact V.
Qed.

Lemma commands_all_served_witness :
  snd (_onCommands Sample.friendly 5
                   (perform Sample.friendly false (Hub_queues_method (Ok Sample.reboot))
                            (Sample.commanded Sample.accept)))
  = Suspended Sample.accept
  /\ exists evs,
      history (fst (_onCommands
                      Sample.friendly 5
                      (perform Sample.friendly false
                               (Hub_queues_method (Ok Sample.reboot))
                               (Sample.commanded Sample.accept))))
      = history (perform Sample.friendly false (Hub_queues_method (Ok Sample.reboot))
                         (Sample.commanded Sample.accept)) ++ evs
      /\ command_view evs
         = [ReceivedMethod Sample.reboot;
            SentMethodResponse (command_received Sample.reboot);
            CalledCommand Sample.reboot;
            ReceivedMethod Sample.reboot;
            SentMethodResponse (command_received Sample.reboot);
            CalledCommand Sample.reboot].
Proof.
  assert (Hdc : _deviceClient
                  (self (perform Sample.friendly false
                                 (Hub_queues_method (Ok Sample.reboot))
                                 (Sample.commanded Sample.accept))) <> None)
    by discriminate.
  assert (Hf : (List.length [Sample.reboot; Sample.reboot] < 5)%nat)
    by (simpl; lia).
  destruct (commands_all_served
              Sample.friendly Sample.accept [Sample.reboot; Sample.reboot] 5
              (perform Sample.friendly false (Hub_queues_method (Ok Sample.reboot))
                       (Sample.commanded Sample.accept))
              (fun _ _ => eq_refl) (fun _ _ => eq_refl)
              (fun _ _ => ex_intro _ (PyBool true) eq_refl)
              eq_refl Hdc eq_refl Hf)
    as (S & _ & _ & evs & Hh & V).
  split; [exact S|]. exists evs. split; [exact Hh | exact V].
Defined.
(** ** A patch that is accepted *)

Section Accepted.

Context {H : Type}.
Variable env : Environment.

Lemma for_each_accepted (propCb : callback H) (patch : pydict) (version : pyval) :
  (forall h payload, patch_twin_reported_properties env h payload = None) ->
  (forall h args, exists v, run_result (propCb h args) = Ok v /\ truthy v = true) ->
  dict_get patch "$version" = Some version ->
  forall (keys : list string) (w : World H),
    _deviceClient (self w) <> None ->
    forallb (fun prop => String.eqb prop "$version"
                         || match property_value patch prop with
                            | Ok _ => true
                            | Err _ => false
                            end) keys = true ->
    exists evs a,
      for_each keys (_onProperties_prop env propCb patch) w
      = (mkWorld (self w) a (history w ++ evs) (twin_patches w) (method_requests w),
         Return tt)
      /\ property_calls evs = flat_map (expected_call patch) keys
      /\ reported evs
         = map (fun call => property_ack (fst call) (snd call) version)
               (flat_map (expected_call patch) keys).
Proof.
  intros Hp Hcb Hv.
  induction keys as [|prop keys IH]; intros w Hdc Hk; cbn [for_each flat_map].
  - exists [], (app w). rewrite app_nil_r. destruct w; repeat split.
  - cbn [forallb] in Hk. apply andb_true_iff in Hk. destruct Hk as [Hk1 Hk].
    unfold bind. unfold expected_call at 1 3.
    destruct (String.eqb prop "$version") eqn:Hne.
    + unfold _onProperties_prop. rewrite Hne. unfold ret at 1.
      destruct (IH w Hdc Hk) as (evs & a & E & C & R).
      exists evs, a. cbn [app]. repeat split; assumption.
    + cbn [orb] in Hk1.
      destruct (property_value patch prop) as [value|] eqn:Hpv; [|discriminate].
      rewrite (_onProperties_prop_run env propCb patch prop value w Hne Hpv).
      cbv zeta.
      destruct (Hcb (app w) (PropertyArgs prop value)) as (v & Hr & Ht).
      rewrite Hr, Ht. unfold dict_getitem. rewrite Hv.
      rewrite sendProperty_run. cbv zeta. cbn [self extend history].
      destruct (_deviceClient (self w)) as [dc|] eqn:Edc; [|congruence].
      rewrite Hp.
      match goal with
      | |- context [for_each keys _ ?w1] =>
          destruct (IH w1) as (evs & a & E & C & R)
      end; try assumption.
      { cbn. rewrite Edc. discriminate. }
      rewrite E. cbn [self app history twin_patches method_requests extend].
      rewrite <- !app_assoc. eexists. exists a. split; [reflexivity|].
      cbn [app map fst snd].
      repeat first [ rewrite property_calls_app | rewrite reported_app
                   | rewrite property_calls_prints | rewrite reported_prints
                   | progress cbn [property_calls reported app] ].
      rewrite C, R. split; reflexivity.
Qed.

End Accepted.

(** X22.  A pass of the properties listener on a patch that is well
    formed (it has ['$version'] and every other entry has a ['value']), with
    a callback that returns a true value and a transport that takes the
    updates: the pass returns, the callback was called once for every
    property in the order of the patch, and each call was followed by its
    acknowledgment, so that the updates reported are, in that order,
    [{prop: {'value': value, 'status': 'completed', 'desiredVersion':
    patch['$version'], 'message': 'Property received'}}]. *)
Theorem accepted_patch_acknowledged {H} (env : Environment) (propCb : callback H)
        (patch : pydict) (version : pyval) (rest : list (result pydict))
        (w : World H) :
  (forall h payload, patch_twin_reported_properties env h payload = None) ->
  (forall h args, exists v, run_result (propCb h args) = Ok v /\ truthy v = true) ->
  _deviceClient (self w) <> None ->
  twin_patches w = Ok patch :: rest ->
  dict_get patch "$version" = Some version ->
  forallb (fun prop => String.eqb prop "$version"
                       || match property_value patch prop with
                          | Ok _ => true
                          | Err _ => false
                          end) (map fst patch) = true ->
  let after := _onProperties_receive env propCb w in
  snd after = Return tt
  /\ twin_patches (fst after) = rest
  /\ self (fst after) = self w
  /\ exists evs,
      history (fst after) = history w ++ evs
      /\ property_calls evs = expected_calls patch
      /\ reported evs
         = map (fun call =>
                  PyDict [(fst call,
                           PyDict [("value", snd call);
                                   ("status", PyStr "completed");
                                   ("desiredVersion", version);
                                   ("message", PyStr "Property received")])])
               (expected_calls patch).
Proof.
  intros Hp Hcb Hdc Hq Hv Hk. cbv zeta.
  rewrite (_onProperties_receive_run env propCb patch rest w Hdc Hq).
  match goal with
  | |- context [for_each ?keys _ ?w1] =>
      destruct (for_each_accepted env propCb patch version Hp Hcb Hv keys w1 Hdc Hk)
        as (evs & a & E & C & R)
  end.
  rewrite E. cbn [fst snd self history twin_patches].
  repeat split. rewrite <- app_assoc. eexists. split; [reflexivity|].
  repeat first [ rewrite property_calls_app | rewrite reported_app
               | rewrite property_calls_prints | rewrite reported_prints
               | progress cbn [property_calls reported app] ].
  split; [exact C | exact R].
Qed.

Lemma accepted_patch_acknowledged_witness :
  snd (_onProperties_receive Sample.friendly Sample.accept
                             (Sample.patched Sample.accept [Sample.temp_patch]))
  = Return tt
  /\ exists evs,
      history (fst (_onProperties_receive
                      Sample.friendly Sample.accept
                      (Sample.patched Sample.accept [Sample.temp_patch])))
      = history (Sample.patched Sample.accept [Sample.temp_patch]) ++ evs
      /\ reported evs
         = [PyDict [("temp", PyDict [("value", PyInt 21);
                                     ("status", PyStr "completed");
                                     ("desiredVersion", PyInt 3);
                                     ("message", PyStr "Property received")])]].
Proof.
  assert (Hdc : _deviceClient (self (Sample.patched Sample.accept [Sample.temp_patch]))
                <> None) by discriminate.
  destruct (accepted_patch_acknowledged
              Sample.friendly Sample.accept Sample.temp_patch (PyInt 3) []
              (Sample.patched Sample.accept [Sample.temp_patch])
              (fun _ _ => eq_refl)
              (fun _ _ => ex_intro _ (PyBool true) (conj eq_refl eq_refl))
              Hdc eq_refl eq_refl eq_refl)
    as (S & _ & _ & evs & Hh & _ & R).
  split; [exact S|]. exists evs. split; [exact Hh | exact R].
Defined.
(** ** The queues *)

Section Queues.

Context {H : Type}.
Variable env : Environment.
Variable gIsMicroPython : bool.

(** A relation between worlds that looks at the queues only, holds of a
    world and itself and goes through successive steps. *)
Variable R : World H -> World H -> Prop.
Hypothesis R_frame :
  forall w c a h, R w (mkWorld c a h (twin_patches w) (method_requests w)).
Hypothesis R_trans : forall w1 w2 w3, R w1 w2 -> R w2 w3 -> R w1 w3.

Lemma R_refl (w : World H) : R w w.
Proof. destruct w as [c a h q1 q2]. apply (R_frame (mkWorld c a h q1 q2)). Qed.

Lemma relates_ret {A} (a : A) : relates R (@ret H A a).
Proof. intro w. apply R_refl. Qed.

Lemma relates_raise {A} (e : exn) : relates R (@raise H A e).
Proof. intro w. apply R_refl. Qed.

Lemma relates_lift {A} (r : result A) : relates R (@lift H A r).
Proof. destruct r; [apply relates_ret | apply relates_raise]. Qed.

Lemma relates_check (r : option exn) : relates R (@check H r).
Proof. destruct r; [apply relates_raise | apply relates_ret]. Qed.

Lemma relates_get_self : relates R (@get_self H).
Proof. intro w. apply R_refl. Qed.

Lemma relates_get_history : relates R (@get_history H).
Proof. intro w. apply R_refl. Qed.

Lemma relates_emit (e : event) : relates R (@emit H e).
Proof. intro w. apply R_frame. Qed.

Lemma relates_set_self (u : IoTCClient H -> IoTCClient H) : relates R (set_self u).
Proof. intro w. apply R_frame. Qed.

Lemma relates_invoke (cb : callback H) (args : arguments) :
  relates R (invoke cb args).
Proof. intro w. apply R_frame. Qed.

Lemma relates_bind {A B} (m : M H A) (k : A -> M H B) :
  relates R m -> (forall a, relates R (k a)) -> relates R (bind m k).
Proof.
  intros Hm Hk w. unfold bind. specialize (Hm w).
  destruct (m w) as [w1 [a|e|]]; cbn [fst] in *; try assumption.
  apply (R_trans _ _ _ Hm). apply Hk.
Qed.

Lemma relates_try_except {A} (m : M H A) (handler : exn -> M H A) :
  relates R m -> (forall e, relates R (handler e)) ->
  relates R (try_except m handler).
Proof.
  intros Hm Hh w. unfold try_except. specialize (Hm w).
  destruct (m w) as [w1 [a|e|]]; cbn [fst] in *; try assumption.
  apply (R_trans _ _ _ Hm). apply Hh.
Qed.

Lemma relates_emit_all (es : list event) : relates R (@emit_all H es).
Proof. intro w. rewrite emit_all_run. apply R_frame. Qed.

Lemma relates_for_each {A} (l : list A) (body : A -> M H unit) :
  (forall x, relates R (body x)) -> relates R (for_each l body).
Proof.
  intro Hb. induction l as [|x l IH]; simpl.
  - apply relates_ret.
  - apply relates_bind; [apply Hb | intros _; exact IH].
Qed.

Lemma relates_logger_debug (message : text) : relates R (@logger_debug H message).
Proof. intro w. rewrite logger_debug_run. apply R_frame. Qed.

Lemma relates_logger_info (message : text) : relates R (@logger_info H message).
Proof. intro w. rewrite logger_info_run. apply R_frame. Qed.

Lemma relates_device_client : relates R (@device_client H).
Proof.
  apply relates_bind; [apply relates_get_self | intro c].
  destruct (_deviceClient c); [apply relates_ret | apply relates_raise].
Qed.

Lemma relates_provisioning_client : relates R (@provisioning_client H).
Proof.
  apply relates_bind; [apply relates_get_self | intro c].
  destruct (_provisioningClient c); [apply relates_ret | apply relates_raise].
Qed.

Ltac relates_step :=
  match goal with
  | |- relates _ (bind _ _) => apply relates_bind; [| intro]
  | |- relates _ (try_except _ _) => apply relates_try_except; [| intro]
  | |- relates _ (for_each _ _) => apply relates_for_each; intro
  | |- relates _ (if ?b then _ else _) => destruct b
  | |- relates _ (match ?x with _ => _ end) => destruct x
  | |- relates _ _ =>
      first [ apply relates_ret | apply relates_raise | apply relates_lift
            | apply relates_check | apply relates_get_self
            | apply relates_get_history | apply relates_emit
            | apply relates_set_self | apply relates_invoke
            | apply relates_emit_all | apply relates_logger_debug
            | apply relates_logger_info | apply relates_device_client
            | apply relates_provisioning_client ]
  end.

(** The methods of the application's thread. *)
Lemma sendProperty_relates payload (cb : option (callback H)) :
  relates R (sendProperty env payload cb).
Proof. unfold sendProperty, call. repeat relates_step. Qed.

Lemma sendTelemetry_relates payload properties (cb : option (callback H)) :
  relates R (sendTelemetry env payload properties cb).
Proof. unfold sendTelemetry, _sendMessage, call. cbv zeta. repeat relates_step. Qed.

Lemma connect_relates : relates R (connect env gIsMicroPython).
Proof.
  unfold connect, connect_credentials, connect_model, connect_provision,
    connect_hub, connect_listeners, _computeDerivedSymmetricKey, new_X509, sleep.
  cbv zeta. repeat relates_step.
Qed.

(** What follows the receive call in a pass of either listener. *)
Lemma _onProperties_patch_relates (propCb : callback H) (patch : pydict) :
  relates R (logger_debug (Format "
Received desired properties. {}
" [ArgVal (PyDict patch)]) ;;
             for_each (map fst patch) (_onProperties_prop env propCb patch)).
Proof.
  apply relates_bind; [apply relates_logger_debug | intros _].
  apply relates_for_each. intro prop.
  unfold _onProperties_prop, call. repeat relates_step; apply sendProperty_relates.
Qed.

Lemma _onCommands_request_relates (cmdCb : callback H) (r : MethodRequest) :
  relates R (logger_debug (Format "Received command {}" [ArgStr (name r)]) ;;
             _ <- device_client ;;
             h <- get_history ;;
             emit (SentMethodResponse (command_received r)) ;;
             check (send_method_response env h (command_received r)) ;;
             call_command env cmdCb r ;;
             ret tt).
Proof.
  unfold call_command, _cmdAck.
  repeat relates_step; apply sendProperty_relates.
Qed.

End Queues.

Section Consumption.

Context {H : Type}.
Variable env : Environment.

Lemma consumed_frame (w : World H) c a h :
  consumed 0 0 w (mkWorld c a h (twin_patches w) (method_requests w)).
Proof. split; reflexivity. Qed.

Lemma consumed_trans (n1 k1 n2 k2 : nat) (w1 w2 w3 : World H) :
  consumed n1 k1 w1 w2 -> consumed n2 k2 w2 w3 ->
  consumed (n1 + n2) (k1 + k2) w1 w3.
Proof.
  intros [A1 B1] [A2 B2]. split.
  - rewrite A2, A1, skipn_skipn, PeanoNat.Nat.add_comm. reflexivity.
  - rewrite B2, B1, skipn_skipn, PeanoNat.Nat.add_comm. reflexivity.
Qed.

Lemma consumed_nothing (w1 w2 w3 : World H) :
  consumed 0 0 w1 w2 -> consumed 0 0 w2 w3 -> consumed 0 0 w1 w3.
Proof. apply (consumed_trans 0 0 0 0). Qed.

(** A pass of the properties listener takes at most one patch. *)
Lemma _onProperties_receive_consumes (propCb : callback H) (w : World H) :
  exists n, (n <= 1)%nat
            /\ consumed n 0 w (fst (_onProperties_receive env propCb w)).
Proof.
  unfold _onProperties_receive. unfold bind at 1.
  unfold receive_twin_desired_properties_patch, device_client. unfold bind at 1 2.
  unfold get_self at 1.
  destruct (_deviceClient (self w)); cbn [ret raise fst];
    [|exists 0%nat; split; [lia | split; reflexivity]].
  destruct (twin_patches w) as [|[patch|e] rest] eqn:Q; cbn [fst].
  - exists 0%nat. split; [lia | split; reflexivity].
  - exists 1%nat. split; [lia|].
    match goal with
    | |- consumed _ _ _ (fst (?m ?w1)) =>
        pose proof (_onProperties_patch_relates
                      env (consumed 0 0) consumed_frame consumed_nothing
                      propCb patch w1) as K
    end.
    eapply (consumed_trans 1 0 0 0); [|exact K].
    split; cbn; [rewrite Q|]; reflexivity.
  - exists 1%nat. split; [lia|]. split; cbn; [rewrite Q|]; reflexivity.
Qed.

(** A pass of the commands listener takes at most one method request. *)
Lemma _onCommands_receive_consumes (cmdCb : callback H) (w : World H) :
  exists k, (k <= 1)%nat
            /\ consumed 0 k w (fst (_onCommands_receive env cmdCb w)).
Proof.
  unfold _onCommands_receive. unfold bind at 1.
  unfold receive_method_request, device_client at 1. unfold bind at 1 2.
  unfold get_self at 1.
  destruct (_deviceClient (self w)); cbn [ret raise fst];
    [|exists 0%nat; split; [lia | split; reflexivity]].
  destruct (method_requests w) as [|[r|e] rest] eqn:Q; cbn [fst].
  - exists 0%nat. split; [lia | split; reflexivity].
  - exists 1%nat. split; [lia|].
    match goal with
    | |- consumed _ _ _ (fst (?m ?w1)) =>
        pose proof (_onCommands_request_relates
                      env (consumed 0 0) consumed_frame consumed_nothing
                      cmdCb r w1) as K
    end.
    eapply (consumed_trans 0 1 0 0); [|exact K].
    split; cbn; [|rewrite Q]; reflexivity.
  - exists 1%nat. split; [lia|]. split; cbn; [|rewrite Q]; reflexivity.
Qed.

(** The loops. *)
Lemma listen_consumes eventname not_found (receive : callback H -> M H unit)
      (patches : bool) :
  (forall cb w, exists n,
        (n <= 1)%nat
        /\ consumed (if patches then n else 0) (if patches then 0 else n)
                    w (fst (receive cb w))) ->
  forall fuel w, exists n,
      (n <= fuel)%nat
      /\ consumed (if patches then n else 0) (if patches then 0 else n)
                  w (fst (listen eventname not_found receive fuel w)).
Proof.
  intros Hr fuel. induction fuel as [|fuel IH]; intro w; cbn [listen].
  - exists 0%nat. split; [lia|]. destruct patches; split; reflexivity.
  - destruct (_events (self w) eventname) as [cb|].
    + destruct (Hr cb w) as (n1 & L1 & C1).
      destruct (receive cb w) as [w1 [[]|e|]]; cbn [fst] in *;
        try (exists n1; split; [lia | exact C1]).
      destruct (IH w1) as (n2 & L2 & C2).
      exists (n1 + n2)%nat. split; [lia|].
      destruct patches.
      * apply (consumed_trans n1 0 n2 0 w w1 _ C1 C2).
      * apply (consumed_trans 0 n1 0 n2 w w1 _ C1 C2).
    + unfold bind, sleep, emit. rewrite logger_debug_run. cbn [fst].
      match goal with
      | |- context [listen _ _ _ fuel ?w1] => destruct (IH w1) as (n2 & L2 & C2)
      end.
      exists n2. split; [lia|]. exact C2.
Qed.

End Consumption.

(** X23.  Who takes messages from the hub.  [connect] and the two sends
    take nothing: both queues are after them what they were.  The passes of
    the properties listener take patches from the front of their queue, in
    order, and leave the method requests alone; the passes of the commands
    listener take method requests from the front and leave the patches
    alone.  A pass takes at most one message, so that [fuel] passes take at
    most [fuel]. *)
Theorem listeners_consume_own_queue {H} (env : Environment)
        (gIsMicroPython : bool) (w : World H) :
  (forall payload properties cb,
      consumed 0 0 w (fst (connect env gIsMicroPython w))
      /\ consumed 0 0 w (fst (sendProperty env payload cb w))
      /\ consumed 0 0 w (fst (sendTelemetry env payload properties cb w)))
  /\ (forall fuel, exists n,
         (n <= fuel)%nat /\ consumed n 0 w (fst (_onProperties env fuel w)))
  /\ (forall fuel, exists k,
         (k <= fuel)%nat /\ consumed 0 k w (fst (_onCommands env fuel w))).
Proof.
  split; [|split].
  - intros payload properties cb. split; [|split].
    + apply (connect_relates env gIsMicroPython (consumed 0 0)
                             consumed_frame consumed_nothing).
    + apply (sendProperty_relates env (consumed 0 0) consumed_frame consumed_nothing).
    + apply (sendTelemetry_relates env (consumed 0 0) consumed_frame consumed_nothing).
  - intro fuel. unfold _onProperties. rewrite logger_debug_run.
    match goal with
    | |- context [listen _ ?nf _ fuel ?w1] =>
        destruct (listen_consumes IOTC_PROPERTIES nf (_onProperties_receive env) true
                                  (_onProperties_receive_consumes env) fuel w1)
          as (n & L & C)
    end.
    exists n. split; [exact L | exact C].
  - intro fuel. unfold _onCommands. rewrite logger_debug_run.
    match goal with
    | |- context [listen _ ?nf _ fuel ?w1] =>
        destruct (listen_consumes IOTC_COMMAND nf (_onCommands_receive env) false
                                  (_onCommands_receive_consumes env) fuel w1)
          as (k & L & C)
    end.
    exists k. split; [exact L | exact C].
Qed.
(** ** Connecting again *)

Section Again.

Context {H : Type}.
Variable env : Environment.
Variable gIsMicroPython : bool.

Lemma rederive_shift (regId : string) (n : nat) (key : list byte) :
  rederive regId n (HMAC.hmac_sha256 key (bytes_of_str regId))
  = rederive regId (S n) key.
Proof.
  induction n as [|n IH]; [reflexivity|].
  cbn [rederive] in *. rewrite IH. reflexivity.
Qed.

Lemma connects_key :
  forall (n : nat) (w : World H) (key : list byte),
    _credType (self w) = IOTCConnectType.IOTC_CONNECT_SYMM_KEY ->
    b64decode (_keyORCert (self w)) = Ok key ->
    let w' := perform_all env gIsMicroPython (repeat Call_connect (S n)) w in
    _keyORCert (self w')
    = derived_key gIsMicroPython (rederive (_deviceId (self w)) n key)
                  (_deviceId (self w))
    /\ _credType (self w') = IOTCConnectType.IOTC_CONNECT_SYMM_KEY
    /\ _deviceId (self w') = _deviceId (self w).
Proof.
  induction n as [|n IH]; intros w key Hc Hd; cbv zeta.
  - unfold perform_all. cbn [repeat fold_left perform rederive].
    pose proof (connect_keeps_identity env gIsMicroPython w) as K. cbv beta in K.
    injection K as K1 K2.
    split; [apply connect_key; assumption | split; congruence].
  - change (repeat Call_connect (S (S n)))
      with (@Call_connect H :: repeat Call_connect (S n)).
    unfold perform_all. cbn [fold_left perform].
    fold (perform_all env gIsMicroPython (repeat Call_connect (S n))
                      (fst (connect env gIsMicroPython w))).
    pose proof (connect_keeps_identity env gIsMicroPython w) as K. cbv beta in K.
    injection K as K1 K2.
    pose proof (connect_key env gIsMicroPython w key Hc Hd) as Kk.
    destruct (IH (fst (connect env gIsMicroPython w))
                 (HMAC.hmac_sha256 key (bytes_of_str (_deviceId (self w)))))
      as (A & B & C).
    + congruence.
    + rewrite Kk. apply b64decode_derived_key.
    + cbv zeta in A. rewrite A, B, C, K1, rederive_shift. repeat split.
Qed.

End Again.

(** X24.  With a group key every call of [connect] derives again.  The
    call overwrites [_keyORCert] with the derived key before anything can
    fail at the services, and leaves the credential type and the device id:
    so the next call decodes that derived key, which is base64 and cannot
    take the broken-secret exit, and derives from its digest.  After
    [n + 1] calls, however each of them ended at the services, the stored
    key is the base64 of the device id authenticated [n + 1] times in a
    row, starting from the group key. *)
Theorem reconnect_rederives_key {H} (env : Environment) (gIsMicroPython : bool)
        (n : nat) (w : World H) (key : list byte) :
  _credType (self w) = IOTCConnectType.IOTC_CONNECT_SYMM_KEY ->
  b64decode (_keyORCert (self w)) = Ok key ->
  let regId := _deviceId (self w) in
  let w' := perform_all env gIsMicroPython (repeat Call_connect (S n)) w in
  _keyORCert (self w') = derived_key gIsMicroPython (rederive regId n key) regId
  /\ b64decode (_keyORCert (self w')) = Ok (rederive regId (S n) key)
  /\ List.length (rederive regId (S n) key) = 32%nat.
Proof.
  intros Hc Hd. cbv zeta.
  destruct (connects_key env gIsMicroPython n w key Hc Hd) as (A & B & C).
  cbv zeta in A. split; [exact A|]. split.
  - rewrite A. apply b64decode_derived_key.
  - cbn [rederive]. apply hmac_sha256_length.
Qed.

Lemma reconnect_rederives_key_witness :
  _keyORCert (self (perform_all Sample.friendly false (repeat Call_connect 2)
                                (Sample.boot Sample.device)))
  = derived_key false (rederive "device1" 1 (bytes_of_str "testkey")) "device1".
Proof.
  assert (Hd : b64decode (_keyORCert (self (Sample.boot Sample.device)))
               = Ok (bytes_of_str "testkey")) by (vm_compute; reflexivity).
  exact (proj1 (reconnect_rederives_key
                  Sample.friendly false 1 (Sample.boot Sample.device)
                  (bytes_of_str "testkey") eq_refl Hd)).
Defined.

(** ** A listener that waits *)

Section Waiting.

Context {H : Type}.
Variable env : Environment.

(** A pass that finds the queue of patches empty waits in the receive
    call and has done nothing. *)
Lemma _onProperties_receive_waits (propCb : callback H) (w : World H) :
  _deviceClient (self w) <> None ->
  twin_patches w = [] ->
  _onProperties_receive env propCb w = (w, Blocked).
Proof.
  intros Hdc Hq.
  unfold _onProperties_receive, receive_twin_desired_properties_patch,
    device_client. unfold_m.
  destruct (_deviceClient (self w)); [|congruence]. simpl. rewrite Hq. reflexivity.
Qed.

(** A pass that returns after the one patch that was waiting leaves the
    queue of patches empty and the client as it was. *)
Lemma _onProperties_receive_last (propCb : callback H) (patch : pydict)
      (w w' : World H) (o : outcome unit) :
  _deviceClient (self w) <> None ->
  twin_patches w = [Ok patch] ->
  _onProperties_receive env propCb w = (w', o) ->
  twin_patches w' = [] /\ self w' = self w.
Proof.
  intros Hdc Hq E. split.
  - unfold _onProperties_receive in E. unfold bind at 1 in E.
    unfold receive_twin_desired_properties_patch, device_client in E.
    unfold bind at 1 2 in E. unfold get_self at 1 in E.
    destruct (_deviceClient (self w)); [|congruence].
    cbn [ret] in E. rewrite Hq in E.
    match type of E with
    | ?m ?w1 = _ =>
        pose proof (_onProperties_patch_relates
                      env (consumed 0 0) consumed_frame consumed_nothing
                      propCb patch w1) as K
    end.
    rewrite E in K. destruct K as [K _]. exact K.
  - pose proof (_onProperties_receive_keeps env (fun c => c) propCb w) as K.
    rewrite E in K. exact K.
Qed.

End Waiting.

(** X25.  A listener looks its callback up once in a pass, before the
    receive call.  With a callback registered and no patch waiting, the
    properties listener waits in the receive call, holding that callback,
    and has written and sent nothing.  If [on] then registers another
    callback and the hub delivers a patch, the pass that was waiting goes on
    with the callback it holds, the first one: the patch is handed to it,
    and only the next pass finds the second callback, with which the
    listener waits again.  A listener started after the registration uses
    the second callback at once. *)
Theorem blocked_listener_keeps_its_callback {H} (env : Environment)
        (gIsMicroPython : bool) (first second : callback H) (patch : pydict)
        (fuel : nat) (w : World H) :
  _events (self w) IOTC_PROPERTIES = Some first ->
  _deviceClient (self w) <> None ->
  twin_patches w = [] ->
  let not_found := Lit "Properties callback not found" in
  let w2 := perform_all env gIsMicroPython
                        [Call_on IOTC_PROPERTIES second; Hub_queues_patch (Ok patch)]
                        w in
  listen IOTC_PROPERTIES not_found (_onProperties_receive env) (S fuel) w
  = (w, Suspended first)
  /\ (forall w3,
         _onProperties_receive env first w2 = (w3, Return tt) ->
         resume IOTC_PROPERTIES not_found (_onProperties_receive env) first
                (S fuel) w2
         = (w3, Suspended second))
  /\ (forall w3 e,
         _onProperties_receive env first w2 = (w3, Raise e) ->
         resume IOTC_PROPERTIES not_found (_onProperties_receive env) first
                (S fuel) w2
         = (w3, Died e))
  /\ listen IOTC_PROPERTIES not_found (_onProperties_receive env) (S fuel) w2
     = resume IOTC_PROPERTIES not_found (_onProperties_receive env) second fuel w2.
Proof.
  intros He Hdc Hq. cbv zeta.
  split; [|split; [|split]].
  - cbn [listen]. rewrite He.
    rewrite (_onProperties_receive_waits env first w Hdc Hq). reflexivity.
  - intros w3 E. unfold resume. rewrite E.
    assert (Hdc2 : _deviceClient
                     (self (perform_all env gIsMicroPython
                                        [Call_on IOTC_PROPERTIES second;
                                         Hub_queues_patch (Ok patch)] w)) <> None)
      by exact Hdc.
    assert (Hq2 : twin_patches
                    (perform_all env gIsMicroPython
                                 [Call_on IOTC_PROPERTIES second;
                                  Hub_queues_patch (Ok patch)] w) = [Ok patch])
      by (cbn; rewrite Hq; reflexivity).
    destruct (_onProperties_receive_last env first patch _ w3 _ Hdc2 Hq2 E)
      as [Q3 S3].
    cbn [listen]. rewrite S3. cbn [perform_all fold_left perform self on].
    cbn. rewrite (_onProperties_receive_waits env second w3); [reflexivity | |exact Q3].
    rewrite S3. exact Hdc.
  - intros w3 e E. unfold resume. rewrite E. reflexivity.
  - reflexivity.
Qed.

Lemma blocked_listener_keeps_its_callback_witness :
  listen IOTC_PROPERTIES (Lit "Properties callback not found")
         (_onProperties_receive Sample.friendly) 3
         (Sample.patched Sample.decline [])
  = (Sample.patched Sample.decline [], Suspended Sample.decline).
Proof.
  assert (Hdc : _deviceClient (self (Sample.patched Sample.decline [])) <> None)
    by discriminate.
  exact (proj1 (blocked_listener_keeps_its_callback
                  Sample.friendly false Sample.decline Sample.accept
                  Sample.temp_patch 2 (Sample.patched Sample.decline [])
                  eq_refl Hdc eq_refl)).
Defined.
